(** * GoQuant trade simulator: order book and cost estimator

    A shallow embedding of [OrderBook], [MarketImpactCalculator] and
    [TradeSimulator] from [main.py], and the properties of the specification
    stated over it.

    Numbers.  The methods are embedded in exact arithmetic: the order book,
    the liquidity walk and the slippage are computed over the rationals [Q]
    (executable), and the two functions that call [np.sqrt] and [np.exp] over
    the reals [R], entered through [Q2R]; [np.sqrt] of a negative number is
    [nan], where the square root of the Standard Library is 0.  A Python
    float division raises [ZeroDivisionError] on a zero divisor; that is
    modelled ([pydiv]).  What exact arithmetic leaves out is embedded twice
    more, where a property depends on it:
    - [Json.update] is [update] on everything [json.loads] can hand to it
      (null, numbers, strings, arrays, objects), with the non-finite floats
      [nan] and [inf] that [float] accepts; on snapshots made of strings that
      hold finite numbers it is [update] ([json_update_extends_update]);
    - [Binary64] is the maker/taker split on binary64 floats, with the
      rounding and the overflow of the machine.

    Effects.  [OrderBook.update] assigns the fields of [self] one after the
    other and may raise in between, so it is a computation in a state and
    exception monad whose failure outcome still carries the store as mutated
    so far.  The calculator only reads the book: its methods are functions
    into the exception monad. *)

From Stdlib Require Import Floats.
From Stdlib Require Import List String Ascii Bool Arith ZArith Lia.
From Stdlib Require Import QArith Qreals Reals Psatz.
From Stdlib Require Import Sorting.Sorted Sorting.Permutation.
Import ListNotations.

Local Open Scope string_scope.
Local Open Scope list_scope.
Local Open Scope Q_scope.

(** ** Python exceptions and the two monads *)

Inductive exn : Type :=
| KeyError
| ValueError
| ZeroDivisionError
| TypeError
| AttributeError
| OverflowError.

(** A computation that only reads: it returns or raises. *)
Definition Res (A : Type) : Type := (exn + A)%type.

(** A method that mutates [self : S]: the store is threaded through, and is
    also what remains when the method raises. *)
Definition Py (S A : Type) : Type := S -> Res A * S.

Class Monad (m : Type -> Type) : Type := {
  ret : forall {A}, A -> m A;
  bind : forall {A B}, m A -> (A -> m B) -> m B
}.

#[export] Instance Monad_Res : Monad Res := {
  ret := fun A a => inr a;
  bind := fun A B c k => match c with inl e => inl e | inr a => k a end
}.

#[export] Instance Monad_Py (S : Type) : Monad (Py S) := {
  ret := fun A a s => (inr a, s);
  bind := fun A B c k s =>
    match c s with
    | (inl e, s') => (inl e, s')
    | (inr a, s') => k a s'
    end
}.

Notation "x <- c ;; k" := (bind c (fun x => k))
  (at level 61, c at next level, right associativity).
Notation "' pat <- c ;; k" := (bind c (fun x => match x with pat => k end))
  (at level 61, pat pattern, c at next level, right associativity).
Notation "c ;;; k" := (bind c (fun _ => k))
  (at level 61, right associativity).

Definition raise {A} (e : exn) : Res A := inl e.

Definition get {S} : Py S S := fun s => (inr s, s).
Definition modify {S} (f : S -> S) : Py S unit := fun s => (inr tt, f s).
(** A read-only computation run inside a method. *)
Definition lift {S A} (c : Res A) : Py S A := fun s => (c, s).

(** ** Python built-ins used by the code *)

(** [d[k]] on a dict read from JSON: a missing key raises [KeyError]. *)
Definition getitem {A} (field : option A) : Res A :=
  match field with
  | Some v => ret v
  | None => raise KeyError
  end.

(** [x / y] on floats. *)
Definition pydiv (x y : Q) : Res Q :=
  if Qeq_bool y 0 then raise ZeroDivisionError else ret (x / y).

Definition Qlt_bool (x y : Q) : bool := negb (Qle_bool y x).

(** [min(a, b)]: the first argument unless the second is smaller. *)
Definition pymin (a b : Q) : Q := if Qlt_bool b a then b else a.

(** [sum(xs)]: left to right from 0. *)
Definition pysum (xs : list Q) : Q := fold_left Qplus xs 0.

(** [l[-n:]] for [n > 0]: the last [n] elements, or all of [l]. *)
Definition lastn {A} (n : nat) (l : list A) : list A :=
  skipn (List.length l - n) l.

Definition is_empty {A} (l : list A) : bool :=
  match l with [] => true | _ :: _ => false end.

(** [str.lower()], on the ASCII letters; every other byte is kept, so that
    the bytes of a non-ASCII character never turn into an ASCII letter. *)
Definition lower_ascii (c : ascii) : ascii :=
  let n := nat_of_ascii c in
  if ((65 <=? n) && (n <=? 90))%nat then ascii_of_nat (n + 32) else c.

Fixpoint lower (s : string) : string :=
  match s with
  | EmptyString => EmptyString
  | String c s' => String (lower_ascii c) (lower s')
  end.

(** [s.replace(old, new)] for a one-character [old]. *)
Fixpoint replace_char (old : ascii) (new : string) (s : string) : string :=
  match s with
  | EmptyString => EmptyString
  | String c s' =>
      if Ascii.eqb c old then (new ++ replace_char old new s')%string
      else String c (replace_char old new s')
  end.

(** The library parsers.  [datetime.fromisoformat] applied to a string
    returns a value or raises [ValueError] ([None]).  [float_of_str s] is the
    finite number that [float(s)] returns, and [None] when there is none;
    over this runtime [float] then raises [ValueError], which leaves out the
    strings such as ["nan"] and ["inf"] that [float] turns into a non-finite
    value: [Json.Runtime] adds them.  The development is parametric in the
    parsers; [decimal_runtime] below is an executable instance. *)
Class PyRuntime : Type := {
  datetime : Type;
  fromisoformat : string -> option datetime;
  float_of_str : string -> option Q
}.

Definition parse {A} (r : option A) : Res A :=
  match r with
  | Some v => ret v
  | None => raise ValueError
  end.

(** ** Sorting

    [list.sort(key=...)] is a stable sort, and stays stable under
    [reverse=True]; the result is therefore determined by the input, and is
    computed here by a stable insertion sort on the price. *)

Definition level : Type := (Q * Q)%type.

Definition price_le (x y : level) : bool := Qle_bool (fst x) (fst y).
Definition price_ge (x y : level) : bool := Qle_bool (fst y) (fst x).

Fixpoint insert_level (before : level -> level -> bool) (x : level)
    (l : list level) : list level :=
  match l with
  | [] => [x]
  | y :: l' => if before x y then x :: l else y :: insert_level before x l'
  end.

Fixpoint sort_levels (before : level -> level -> bool) (l : list level)
    : list level :=
  match l with
  | [] => []
  | x :: l' => insert_level before x (sort_levels before l')
  end.

(** ** OrderBook *)

Definition MAX_ORDERBOOK_LEVELS : nat := 50.
Definition max_history : nat := 300.

(** The JSON object handed to [update], in the form the feed sends it: the
    timestamp, the symbol and the exchange are strings and a level is a pair
    of strings; a field is [None] when its key is absent.  [Json.update]
    takes every other JSON value as well. *)
Record Snapshot : Type := {
  d_timestamp : option string;
  d_symbol : option string;
  d_exchange : option string;
  d_asks : option (list (string * string));
  d_bids : option (list (string * string))
}.

Section OrderBook.

Context {rt : PyRuntime}.

Record OrderBook : Type := {
  asks : list level;
  bids : list level;
  timestamp : option datetime;
  symbol : string;
  exchange : string;
  last_update_time : Q;
  price_history : list (Q * Q);
  spread_history : list (Q * Q);
  mid_price_history : list Q;
  volume_history : list (Q * Q)
}.

(** [OrderBook.__init__]; [t0] is the clock reading. *)
Definition init (t0 : Q) : OrderBook := {|
  asks := []; bids := []; timestamp := None; symbol := ""; exchange := "";
  last_update_time := t0;
  price_history := []; spread_history := [];
  mid_price_history := []; volume_history := []
|}.

Definition set_asks (v : list level) (s : OrderBook) : OrderBook :=
  {| asks := v; bids := bids s; timestamp := timestamp s; symbol := symbol s;
     exchange := exchange s; last_update_time := last_update_time s;
     price_history := price_history s; spread_history := spread_history s;
     mid_price_history := mid_price_history s;
     volume_history := volume_history s |}.

Definition set_bids (v : list level) (s : OrderBook) : OrderBook :=
  {| asks := asks s; bids := v; timestamp := timestamp s; symbol := symbol s;
     exchange := exchange s; last_update_time := last_update_time s;
     price_history := price_history s; spread_history := spread_history s;
     mid_price_history := mid_price_history s;
     volume_history := volume_history s |}.

Definition set_timestamp (v : option datetime) (s : OrderBook) : OrderBook :=
  {| asks := asks s; bids := bids s; timestamp := v; symbol := symbol s;
     exchange := exchange s; last_update_time := last_update_time s;
     price_history := price_history s; spread_history := spread_history s;
     mid_price_history := mid_price_history s;
     volume_history := volume_history s |}.

Definition set_symbol (v : string) (s : OrderBook) : OrderBook :=
  {| asks := asks s; bids := bids s; timestamp := timestamp s; symbol := v;
     exchange := exchange s; last_update_time := last_update_time s;
     price_history := price_history s; spread_history := spread_history s;
     mid_price_history := mid_price_history s;
     volume_history := volume_history s |}.

Definition set_exchange (v : string) (s : OrderBook) : OrderBook :=
  {| asks := asks s; bids := bids s; timestamp := timestamp s;
     symbol := symbol s; exchange := v;
     last_update_time := last_update_time s;
     price_history := price_history s; spread_history := spread_history s;
     mid_price_history := mid_price_history s;
     volume_history := volume_history s |}.

Definition set_last_update_time (v : Q) (s : OrderBook) : OrderBook :=
  {| asks := asks s; bids := bids s; timestamp := timestamp s;
     symbol := symbol s; exchange := exchange s; last_update_time := v;
     price_history := price_history s; spread_history := spread_history s;
     mid_price_history := mid_price_history s;
     volume_history := volume_history s |}.

(** The four [append] calls of one update. *)
Definition append_history (p s : Q * Q) (m : Q) (v : Q * Q) (st : OrderBook)
    : OrderBook :=
  {| asks := asks st; bids := bids st; timestamp := timestamp st;
     symbol := symbol st; exchange := exchange st;
     last_update_time := last_update_time st;
     price_history := price_history st ++ [p];
     spread_history := spread_history st ++ [s];
     mid_price_history := mid_price_history st ++ [m];
     volume_history := volume_history st ++ [v] |}.

(** The four [h = h[-max_history:]] assignments. *)
Definition trim_history (st : OrderBook) : OrderBook :=
  {| asks := asks st; bids := bids st; timestamp := timestamp st;
     symbol := symbol st; exchange := exchange st;
     last_update_time := last_update_time st;
     price_history := lastn max_history (price_history st);
     spread_history := lastn max_history (spread_history st);
     mid_price_history := lastn max_history (mid_price_history st);
     volume_history := lastn max_history (volume_history st) |}.

(** [[(float(price), float(qty)) for price, qty in raw]] *)
Fixpoint float_levels (raw : list (string * string)) : Res (list level) :=
  match raw with
  | [] => ret []
  | (price, qty) :: rest =>
      p <- parse (float_of_str price) ;;
      q <- parse (float_of_str qty) ;;
      ls <- float_levels rest ;;
      ret ((p, q) :: ls)
  end.

(** [sum(qty for price, qty in levels if keep price)] *)
Definition near_volume (keep : Q -> bool) (levels : list level) : Q :=
  pysum (map snd (filter (fun l => keep (fst l)) levels)).

(** [OrderBook.update]; [current_time] is the reading of [time.time()]. *)
Definition update (data : Snapshot) (current_time : Q) : Py OrderBook unit :=
  raw_ts <- lift (getitem (d_timestamp data)) ;;
  ts <- lift (parse (fromisoformat (replace_char "Z" "+00:00" raw_ts))) ;;
  modify (set_timestamp (Some ts)) ;;;
  sym <- lift (getitem (d_symbol data)) ;;
  modify (set_symbol sym) ;;;
  exch <- lift (getitem (d_exchange data)) ;;
  modify (set_exchange exch) ;;;
  raw_asks <- lift (getitem (d_asks data)) ;;
  new_asks <- lift (float_levels (firstn MAX_ORDERBOOK_LEVELS raw_asks)) ;;
  modify (set_asks new_asks) ;;;
  raw_bids <- lift (getitem (d_bids data)) ;;
  new_bids <- lift (float_levels (firstn MAX_ORDERBOOK_LEVELS raw_bids)) ;;
  modify (set_bids new_bids) ;;;
  modify (fun self => set_asks (sort_levels price_le (asks self)) self) ;;;
  modify (fun self => set_bids (sort_levels price_ge (bids self)) self) ;;;
  modify (set_last_update_time current_time) ;;;
  self <- get ;;
  match asks self, bids self with
  | (best_ask, _) :: _, (best_bid, _) :: _ =>
      let mid_price := (best_ask + best_bid) / 2 in
      let spread := best_ask - best_bid in
      let threshold := mid_price * 0.001 in
      let near_ask_volume :=
        near_volume (fun price => Qle_bool price (mid_price + threshold))
                    (asks self) in
      let near_bid_volume :=
        near_volume (fun price => Qle_bool (mid_price - threshold) price)
                    (bids self) in
      modify (append_history (current_time, mid_price) (current_time, spread)
                mid_price (current_time, near_ask_volume + near_bid_volume)) ;;;
      self <- get ;;
      if (max_history <? List.length (price_history self))%nat
      then modify trim_history
      else ret tt
  | _, _ => ret tt
  end.

(** ** The liquidity walk *)

(** The [for] loop of [get_liquidity_at_level] with its three accumulators;
    the result is their value when the loop ends or breaks. *)
Fixpoint walk_levels (levels : list level)
    (remaining_amount executed_quantity total_cost : Q) : Res (Q * Q * Q) :=
  match levels with
  | [] => ret (remaining_amount, executed_quantity, total_cost)
  | (price, quantity) :: rest =>
      let level_volume := price * quantity in
      if Qle_bool remaining_amount 0
      then ret (remaining_amount, executed_quantity, total_cost)
      else
        let take_volume := pymin remaining_amount level_volume in
        take_quantity <- pydiv take_volume price ;;
        walk_levels rest (remaining_amount - take_volume)
                    (executed_quantity + take_quantity)
                    (total_cost + take_quantity * price)
  end.

Definition get_liquidity_at_level (self : OrderBook) (usd_amount : Q)
    (side : string) : Res (Q * Q) :=
  if is_empty (asks self) || is_empty (bids self) then ret (0, 0)
  else
    let levels :=
      if (lower side =? "buy")%string then asks self else bids self in
    '(_, executed_quantity, total_cost) <- walk_levels levels usd_amount 0 0 ;;
    avg_price <- (if Qlt_bool 0 executed_quantity
                  then pydiv total_cost executed_quantity
                  else ret 0) ;;
    ret (avg_price, executed_quantity).

End OrderBook.

(** ** MarketImpactCalculator *)

Record FeeRates : Type := { maker : Q; taker : Q }.

Definition fee_structure : list (string * FeeRates) :=
  [ ("vip0", {| maker := 0.0008; taker := 0.0010 |});
    ("vip1", {| maker := 0.0007; taker := 0.0009 |});
    ("vip2", {| maker := 0.0006; taker := 0.0008 |});
    ("vip3", {| maker := 0.0005; taker := 0.0007 |});
    ("vip4", {| maker := 0.0003; taker := 0.0005 |});
    ("vip5", {| maker := 0.0000; taker := 0.0003 |}) ].

(** A dict with string keys, in insertion order. *)
Fixpoint dict_find {V} (d : list (string * V)) (k : string) : option V :=
  match d with
  | [] => None
  | (k', v) :: d' => if (k' =? k)%string then Some v else dict_find d' k
  end.

(** [d.get(k, default)] *)
Definition dict_get {V} (d : list (string * V)) (k : string) (default : V) : V :=
  match dict_find d k with
  | Some v => v
  | None => default
  end.

(** The dict returned by [get_net_cost]. *)
Record CostReport : Type := {
  slippage_pct : R;
  fee_pct : R;
  market_impact_pct : R;
  maker_pct : R;
  taker_pct : R;
  net_cost_pct : R
}.

Section Calculator.

Context {rt : PyRuntime}.

(** The calculator keeps a reference to the book and the volatility last
    given to [update_volatility]. *)
Record MarketImpactCalculator : Type := {
  orderbook : OrderBook;
  volatility : Q
}.

Definition new_calculator (ob : OrderBook) : MarketImpactCalculator :=
  {| orderbook := ob; volatility := 0 |}.

Definition update_volatility (self : MarketImpactCalculator) (v : Q)
    : MarketImpactCalculator :=
  {| orderbook := orderbook self; volatility := v |}.

Definition calculate_slippage (self : MarketImpactCalculator) (quantity : Q)
    (side : string) : Res Q :=
  match asks (orderbook self), bids (orderbook self) with
  | (best_ask, _) :: _, (best_bid, _) :: _ =>
      let mid_price := (best_ask + best_bid) / 2 in
      '(expected_price, _) <-
         get_liquidity_at_level (orderbook self) quantity side ;;
      if Qeq_bool expected_price 0 then ret 0
      else if (side =? "buy")%string
      then r <- pydiv expected_price mid_price ;; ret ((r - 1) * 100)
      else r <- pydiv mid_price expected_price ;; ret ((r - 1) * 100)
  | _, _ => ret 0
  end.

(** The [if len(volume_history) > 10 ... else ...] block of
    [calculate_market_impact]. *)
Definition daily_volume_estimate (ob : OrderBook) (market_cap : Q) : Res Q :=
  if (10 <? List.length (volume_history ob))%nat
  then
    let recent_volumes := map snd (lastn 10 (volume_history ob)) in
    avg_tick_volume <-
      pydiv (pysum recent_volumes)
            (inject_Z (Z.of_nat (List.length recent_volumes))) ;;
    ret (avg_tick_volume * 86400)
  else ret (market_cap * 0.05).

(** [mid_price = mid_price_history[-1]] is read and never used; the list is
    not empty there, so the read cannot fail, and it is left out. *)
Definition calculate_market_impact (self : MarketImpactCalculator)
    (quantity : Q) (side : string) (market_cap : Q) : Res R :=
  if is_empty (mid_price_history (orderbook self)) then ret 0%R
  else
    daily <- daily_volume_estimate (orderbook self) market_cap ;;
    let sigma :=
      if Qlt_bool 0 (volatility self) then volatility self else 0.02 in
    let T := 1 / 86400 in
    let quantity_in_usd := quantity in
    ratio <- pydiv quantity_in_usd daily ;;
    let impact_factor := (Q2R sigma * sqrt (Q2R T) * sqrt (Q2R ratio))%R in
    let impact_pct := (impact_factor * 100)%R in
    ret impact_pct.

(** [mid_price] is computed there too and not used; its division by 2
    cannot raise, and it is left out. *)
Definition estimate_maker_taker_proportion (self : MarketImpactCalculator)
    (quantity : Q) : Res (R * R) :=
  match asks (orderbook self), bids (orderbook self) with
  | (ask_price, ask_qty) :: _, (bid_price, bid_qty) :: _ =>
      let best_ask_size := ask_qty * ask_price in
      let best_bid_size := bid_qty * bid_price in
      relative_size <- pydiv (best_ask_size + best_bid_size) (2 * quantity) ;;
      let taker_pct := (100 / (1 + exp (Q2R relative_size - 1)))%R in
      let maker_pct := (100 - taker_pct)%R in
      ret (maker_pct, taker_pct)
  | _, _ => ret (0%R, 100%R)
  end.

Definition calculate_fees (self : MarketImpactCalculator) (quantity : Q)
    (fee_tier : string) : Res R :=
  vip0 <- getitem (dict_find fee_structure "vip0") ;;
  let tier_fees := dict_get fee_structure (lower fee_tier) vip0 in
  let maker_fee := maker tier_fees in
  let taker_fee := taker tier_fees in
  '(maker_pct, taker_pct) <- estimate_maker_taker_proportion self quantity ;;
  let weighted_fee_rate :=
    (maker_pct / 100 * Q2R maker_fee + taker_pct / 100 * Q2R taker_fee)%R in
  ret (weighted_fee_rate * 100)%R.

(** The default of the [market_cap] parameter. *)
Definition default_market_cap : Q := 10000000000.

Definition get_net_cost (self : MarketImpactCalculator) (quantity : Q)
    (fee_tier side : string) : Res CostReport :=
  slippage <- calculate_slippage self quantity side ;;
  fee <- calculate_fees self quantity fee_tier ;;
  market_impact <-
    calculate_market_impact self quantity side default_market_cap ;;
  '(maker_p, taker_p) <- estimate_maker_taker_proportion self quantity ;;
  let net_cost := (Q2R slippage + fee + market_impact)%R in
  ret {| slippage_pct := Q2R slippage; fee_pct := fee;
         market_impact_pct := market_impact;
         maker_pct := maker_p; taker_pct := taker_p;
         net_cost_pct := net_cost |}.

End Calculator.

(** ** An executable runtime

    [float] on the plain decimal literals ([12], [-3.25], [.5], [7.]), and
    [fromisoformat] on the shape [YYYY-MM-DDTHH:MM:SS] with an optional
    [+HH:MM] offset.  Both built-ins accept more; what is rejected below by
    being outside this fragment is only used on strings that Python rejects
    too. *)

Definition is_digit (c : ascii) : bool :=
  let n := nat_of_ascii c in ((48 <=? n) && (n <=? 57))%nat.

Fixpoint read_digits (s : string) (acc : Z) : option Z :=
  match s with
  | EmptyString => Some acc
  | String c s' =>
      if is_digit c
      then read_digits s' (10 * acc + Z.of_nat (nat_of_ascii c - 48))%Z
      else None
  end.

Fixpoint split_dot (s : string) : string * option string :=
  match s with
  | EmptyString => (EmptyString, None)
  | String c s' =>
      if Ascii.eqb c "." then (EmptyString, Some s')
      else let (a, b) := split_dot s' in (String c a, b)
  end.

Definition unsigned_decimal (s : string) : option Q :=
  match split_dot s with
  | (ip, None) =>
      if (ip =? "")%string then None
      else option_map inject_Z (read_digits ip 0)
  | (ip, Some fp) =>
      if ((ip =? "") && (fp =? ""))%string then None
      else
        match read_digits ip 0, read_digits fp 0 with
        | Some i, Some f =>
            let scale := (10 ^ Z.of_nat (String.length fp))%Z in
            Some (Qmake (i * scale + f) (Z.to_pos scale))
        | _, _ => None
        end
  end.

Definition decimal_float (s : string) : option Q :=
  match s with
  | String "-" s' => option_map Qopp (unsigned_decimal s')
  | String "+" s' => unsigned_decimal s'
  | _ => unsigned_decimal s
  end.

(** [pattern] matches [s] when they have the same length and agree, a [d] in
    the pattern standing for any digit. *)
Fixpoint has_shape (pattern s : string) : bool :=
  match pattern, s with
  | EmptyString, EmptyString => true
  | String p ps, String c cs =>
      (if Ascii.eqb p "d" then is_digit c else Ascii.eqb p c)
      && has_shape ps cs
  | _, _ => false
  end.

Definition iso_timestamp (s : string) : option string :=
  if has_shape "dddd-dd-ddTdd:dd:dd" s
     || has_shape "dddd-dd-ddTdd:dd:dd+dd:dd" s
  then Some s else None.

Definition decimal_runtime : PyRuntime := {|
  datetime := string;
  fromisoformat := iso_timestamp;
  float_of_str := decimal_float
|}.

(** ** Vocabulary of the specification *)

(** Non-decreasing, respectively non-increasing, by price: every level is in
    order with every later one. *)
Definition ascending_by_price : list level -> Prop :=
  StronglySorted (fun x y => fst x <= fst y).
Definition descending_by_price : list level -> Prop :=
  StronglySorted (fun x y => fst y <= fst x).

(** A [PriceLevel] of the data model: positive price, non-negative quantity. *)
Definition well_formed (l : level) : Prop := 0 < fst l /\ 0 <= snd l.

(** Total notional of a side: the sum over its levels of price * quantity. *)
Fixpoint notional (levels : list level) : Q :=
  match levels with
  | [] => 0
  | (price, quantity) :: rest => price * quantity + notional rest
  end.

(** The taker share as a function of the relative size. *)
Definition logistic_taker (relative_size : R) : R :=
  (100 / (1 + exp (relative_size - 1)))%R.

Definition tier_names : list string :=
  ["vip0"; "vip1"; "vip2"; "vip3"; "vip4"; "vip5"].

Definition vip0_rates : FeeRates := {| maker := 0.0008; taker := 0.0010 |}.

(** [l'] is [l] without its oldest entries: the latest [n] of them, or all
    of [l] when it has no more than [n], in the order of [l]. *)
Definition kept_latest {A} (n : nat) (l l' : list A) : Prop :=
  exists dropped, l = dropped ++ l'
    /\ List.length l' = Nat.min n (List.length l).

Section Vocabulary.

Context {rt : PyRuntime}.

(** The side a walk consumes: asks for a buy, bids for anything else. *)
Definition targeted_side (ob : OrderBook) (side : string) : list level :=
  if (lower side =? "buy")%string then asks ob else bids ob.

(** Near-touch volume: the quantity offered within 0.1% of the mid price,
    bounds included, on the two sides. *)
Definition near_touch_volume (a b : list level) (mid_price : Q) : Q :=
  near_volume (fun price => Qle_bool price (mid_price + mid_price * 0.001)) a
  + near_volume (fun price => Qle_bool (mid_price - mid_price * 0.001) price) b.

(** What lines 49-69 of [update] do to the store, as a function: nothing on a
    one-sided or empty book, else one entry appended to each series and the
    four series cut to their last [max_history] entries. *)
Definition record_history (now : Q) (st : OrderBook) : OrderBook :=
  match asks st, bids st with
  | (best_ask, _) :: _, (best_bid, _) :: _ =>
      let mid_price := (best_ask + best_bid) / 2 in
      let st' :=
        append_history (now, mid_price) (now, best_ask - best_bid) mid_price
          (now, near_touch_volume (asks st) (bids st) mid_price) st in
      if (max_history <? List.length (price_history st'))%nat
      then trim_history st' else st'
  | _, _ => st
  end.

(** The four series of a book. *)
Definition histories (st : OrderBook)
    : list (Q * Q) * list (Q * Q) * list Q * list (Q * Q) :=
  (price_history st, spread_history st, mid_price_history st,
   volume_history st).

(** The outcome of [update] spelled out statement by statement: the result,
    and the store it leaves, at each point where the method can raise. *)
Definition update_outcome (data : Snapshot) (now : Q) (st : OrderBook)
    : Res unit * OrderBook :=
  match d_timestamp data with
  | None => (inl KeyError, st)
  | Some raw_ts =>
  match fromisoformat (replace_char "Z" "+00:00" raw_ts) with
  | None => (inl ValueError, st)
  | Some ts =>
  let st1 := set_timestamp (Some ts) st in
  match d_symbol data with
  | None => (inl KeyError, st1)
  | Some sym =>
  let st2 := set_symbol sym st1 in
  match d_exchange data with
  | None => (inl KeyError, st2)
  | Some exch =>
  let st3 := set_exchange exch st2 in
  match d_asks data with
  | None => (inl KeyError, st3)
  | Some raw_asks =>
  match float_levels (firstn MAX_ORDERBOOK_LEVELS raw_asks) with
  | inl e => (inl e, st3)
  | inr new_asks =>
  let st4 := set_asks new_asks st3 in
  match d_bids data with
  | None => (inl KeyError, st4)
  | Some raw_bids =>
  match float_levels (firstn MAX_ORDERBOOK_LEVELS raw_bids) with
  | inl e => (inl e, st4)
  | inr new_bids =>
      (inr tt,
       record_history now
         (set_last_update_time now
            (set_bids (sort_levels price_ge new_bids)
               (set_asks (sort_levels price_le new_asks)
                  (set_bids new_bids st4)))))
  end end end end end end end end.

(** The four history series have one length, at most [max_history]. *)
Definition history_aligned (st : OrderBook) : Prop :=
  List.length (spread_history st) = List.length (price_history st)
  /\ List.length (mid_price_history st) = List.length (price_history st)
  /\ List.length (volume_history st) = List.length (price_history st)
  /\ (List.length (price_history st) <= max_history)%nat.

(** The states a book goes through: built by [__init__], then any number of
    calls to [update], each either returning or raising. *)
Inductive reachable : OrderBook -> Prop :=
| reachable_init : forall t0, reachable (init t0)
| reachable_update : forall st data now,
    reachable st -> reachable (snd (update data now st)).

(** [float] raises on the price or on the quantity of a level. *)
Definition non_numeric (l : string * string) : Prop :=
  float_of_str (fst l) = None \/ float_of_str (snd l) = None.

Definition malformed_timestamp (data : Snapshot) : Prop :=
  exists raw, d_timestamp data = Some raw
    /\ fromisoformat (replace_char "Z" "+00:00" raw) = None.

(** A snapshot that [update] reads a malformed field of: the timestamp, the
    symbol or the exchange, or a level among those it keeps. *)
Definition malformed_snapshot (data : Snapshot) : Prop :=
  malformed_timestamp data
  \/ d_symbol data = None
  \/ d_exchange data = None
  \/ (exists raw, d_asks data = Some raw
        /\ Exists non_numeric (firstn MAX_ORDERBOOK_LEVELS raw))
  \/ (exists raw, d_bids data = Some raw
        /\ Exists non_numeric (firstn MAX_ORDERBOOK_LEVELS raw)).

(** [sigma] of the impact model. *)
Definition sigma_of (volatility : Q) : Q :=
  if Qlt_bool 0 volatility then volatility else 0.02.

(** The daily volume estimate as the code decides it: the mean of the last
    ten samples times 86400 once there are more than ten samples. *)
Definition daily_volume_of (ob : OrderBook) (market_cap : Q) : Q :=
  if (10 <? List.length (volume_history ob))%nat
  then pysum (map snd (lastn 10 (volume_history ob))) / 10 * 86400
  else market_cap * 0.05.

End Vocabulary.

(** ** Fixtures *)

Definition snapshot_of (a b : list (string * string)) : Snapshot :=
  {| d_timestamp := Some "2025-05-04T10:39:13Z";
     d_symbol := Some "BTC-USDT-SWAP";
     d_exchange := Some "OKX";
     d_asks := Some a;
     d_bids := Some b |}.

(** The clock readings of [n] calls: 1, 2, ..., [n]. *)
Definition ticks (n : nat) : list Q :=
  map (fun k => inject_Z (Z.of_nat k)) (seq 1 n).

(** A new book after [n] calls of [update] with the same snapshot. *)
Definition fed (n : nat) (data : Snapshot) : @OrderBook decimal_runtime :=
  fold_left (fun st now => snd (update data now st)) (ticks n) (init 0).

(** The scenario of the specification. *)
Definition scenario_book : @OrderBook decimal_runtime :=
  fed 1 (snapshot_of [("100", "2"); ("101", "3")] [("99", "2"); ("98", "3")]).

(** A book whose spread is wider than the near-touch band: every sample of
    near-touch volume is 0. *)
Definition wide_snapshot : Snapshot :=
  snapshot_of [("100", "1")] [("99", "1")].

(** A book whose two best levels are inside the near-touch band: every sample
    is 2. *)
Definition tight_snapshot : Snapshot :=
  snapshot_of [("100", "1")] [("99.95", "1")].

(** A snapshot without its symbol. *)
Definition no_symbol_snapshot : Snapshot :=
  {| d_timestamp := Some "2025-05-04T10:39:13Z";
     d_symbol := None;
     d_exchange := Some "OKX";
     d_asks := Some [("100", "2")];
     d_bids := Some [("99", "2")] |}.

(** Fifty asks at 200 followed by one at 100, and, for the malformed variant,
    by one that is not a number. *)
Definition fifty_asks : list (string * string) := repeat ("200", "1") 50.
Definition deep_snapshot : Snapshot :=
  snapshot_of (fifty_asks ++ [("100", "1")]) [("99", "1")].
Definition deep_bad_snapshot : Snapshot :=
  snapshot_of (fifty_asks ++ [("abc", "1")]) [("99", "1")].

(** Asks only. *)
Definition one_sided_snapshot : Snapshot :=
  snapshot_of [("100", "2")] [].

(** A first ask with price 0, and a first ask with a negative quantity;
    [float] accepts both and [update] checks neither. *)
Definition zero_price_snapshot : Snapshot :=
  snapshot_of [("0", "5"); ("100", "2")] [("99", "1")].
Definition negative_quantity_snapshot : Snapshot :=
  snapshot_of [("1", "-100"); ("100", "3")] [("0.5", "1")].

(** Levels out of order. *)
Definition shuffled_snapshot : Snapshot :=
  snapshot_of [("101", "3"); ("100", "2"); ("102", "1")]
              [("98", "3"); ("99", "2"); ("97", "1")].

(** ** TradeSimulator *)

(** The values of the four input fields read on [-APPLY-]. *)
Record ApplyValues : Type := {
  v_quantity : string;
  v_volatility : string;
  v_fee_tier : string;
  v_order_type : string
}.

(** What one turn of the receiving loop gets: [recv] raises
    [ConnectionClosed], [json.loads] raises [JSONDecodeError], or a JSON
    object arrives. *)
Inductive received : Type :=
| ConnectionClosed
| JSONDecodeError
| Message (data : Snapshot).

(** How the turn leaves the inner [while]. *)
Inductive loop_control : Type :=
| Continue
| Break.

(** The three latency entries of [get_performance_metrics]. *)
Record Performance : Type := {
  avg_latency : Q;
  max_latency : Q;
  min_latency : Q
}.

(** [max(l)] and [min(l)] on a list whose first element is [x]: the first
    element is kept until a later one is greater, respectively smaller. *)
Definition max_from (x : Q) (rest : list Q) : Q :=
  fold_left (fun m y => if Qlt_bool m y then y else m) rest x.
Definition min_from (x : Q) (rest : list Q) : Q :=
  fold_left (fun m y => if Qlt_bool y m then y else m) rest x.

Section Simulator.

Context {rt : PyRuntime}.

(** The fields of a [TradeSimulator].  The calculator holds a reference to
    the simulator's own book, so the book is stored once ([ts_orderbook]) and
    the calculator is its volatility ([ts_calculator_volatility]). *)
Record TradeSimulator : Type := {
  ts_orderbook : OrderBook;
  ts_calculator_volatility : Q;
  ts_running : bool;
  ts_exchange : string;
  ts_symbol : string;
  ts_order_type : string;
  ts_quantity : Q;
  ts_volatility : Q;
  ts_fee_tier : string;
  ts_process_times : list Q;
  ts_last_tick_time : Q
}.

(** [TradeSimulator.__init__]; [t0] and [t1] are the two clock readings. *)
Definition new_simulator (t0 t1 : Q) : TradeSimulator := {|
  ts_orderbook := init t0;
  ts_calculator_volatility := 0;
  ts_running := true;
  ts_exchange := "OKX";
  ts_symbol := "BTC-USDT-SWAP";
  ts_order_type := "market";
  ts_quantity := 100;
  ts_volatility := 0.02;
  ts_fee_tier := "vip0";
  ts_process_times := [];
  ts_last_tick_time := t1
|}.

(** [self.market_impact_calculator], reading the book of [self]. *)
Definition market_impact_calculator (self : TradeSimulator)
    : MarketImpactCalculator :=
  {| orderbook := ts_orderbook self;
     volatility := ts_calculator_volatility self |}.

Definition set_orderbook (v : OrderBook) (s : TradeSimulator)
    : TradeSimulator :=
  {| ts_orderbook := v;
     ts_calculator_volatility := ts_calculator_volatility s;
     ts_running := ts_running s; ts_exchange := ts_exchange s;
     ts_symbol := ts_symbol s; ts_order_type := ts_order_type s;
     ts_quantity := ts_quantity s; ts_volatility := ts_volatility s;
     ts_fee_tier := ts_fee_tier s; ts_process_times := ts_process_times s;
     ts_last_tick_time := ts_last_tick_time s |}.

Definition set_calculator_volatility (v : Q) (s : TradeSimulator)
    : TradeSimulator :=
  {| ts_orderbook := ts_orderbook s;
     ts_calculator_volatility := v;
     ts_running := ts_running s; ts_exchange := ts_exchange s;
     ts_symbol := ts_symbol s; ts_order_type := ts_order_type s;
     ts_quantity := ts_quantity s; ts_volatility := ts_volatility s;
     ts_fee_tier := ts_fee_tier s; ts_process_times := ts_process_times s;
     ts_last_tick_time := ts_last_tick_time s |}.

Definition set_order_type (v : string) (s : TradeSimulator)
    : TradeSimulator :=
  {| ts_orderbook := ts_orderbook s;
     ts_calculator_volatility := ts_calculator_volatility s;
     ts_running := ts_running s; ts_exchange := ts_exchange s;
     ts_symbol := ts_symbol s; ts_order_type := v;
     ts_quantity := ts_quantity s; ts_volatility := ts_volatility s;
     ts_fee_tier := ts_fee_tier s; ts_process_times := ts_process_times s;
     ts_last_tick_time := ts_last_tick_time s |}.

Definition set_quantity (v : Q) (s : TradeSimulator) : TradeSimulator :=
  {| ts_orderbook := ts_orderbook s;
     ts_calculator_volatility := ts_calculator_volatility s;
     ts_running := ts_running s; ts_exchange := ts_exchange s;
     ts_symbol := ts_symbol s; ts_order_type := ts_order_type s;
     ts_quantity := v; ts_volatility := ts_volatility s;
     ts_fee_tier := ts_fee_tier s; ts_process_times := ts_process_times s;
     ts_last_tick_time := ts_last_tick_time s |}.

Definition set_volatility (v : Q) (s : TradeSimulator) : TradeSimulator :=
  {| ts_orderbook := ts_orderbook s;
     ts_calculator_volatility := ts_calculator_volatility s;
     ts_running := ts_running s; ts_exchange := ts_exchange s;
     ts_symbol := ts_symbol s; ts_order_type := ts_order_type s;
     ts_quantity := ts_quantity s; ts_volatility := v;
     ts_fee_tier := ts_fee_tier s; ts_process_times := ts_process_times s;
     ts_last_tick_time := ts_last_tick_time s |}.

Definition set_fee_tier (v : string) (s : TradeSimulator) : TradeSimulator :=
  {| ts_orderbook := ts_orderbook s;
     ts_calculator_volatility := ts_calculator_volatility s;
     ts_running := ts_running s; ts_exchange := ts_exchange s;
     ts_symbol := ts_symbol s; ts_order_type := ts_order_type s;
     ts_quantity := ts_quantity s; ts_volatility := ts_volatility s;
     ts_fee_tier := v; ts_process_times := ts_process_times s;
     ts_last_tick_time := ts_last_tick_time s |}.

Definition set_process_times (v : list Q) (s : TradeSimulator)
    : TradeSimulator :=
  {| ts_orderbook := ts_orderbook s;
     ts_calculator_volatility := ts_calculator_volatility s;
     ts_running := ts_running s; ts_exchange := ts_exchange s;
     ts_symbol := ts_symbol s; ts_order_type := ts_order_type s;
     ts_quantity := ts_quantity s; ts_volatility := ts_volatility s;
     ts_fee_tier := ts_fee_tier s; ts_process_times := v;
     ts_last_tick_time := ts_last_tick_time s |}.

Definition set_last_tick_time (v : Q) (s : TradeSimulator) : TradeSimulator :=
  {| ts_orderbook := ts_orderbook s;
     ts_calculator_volatility := ts_calculator_volatility s;
     ts_running := ts_running s; ts_exchange := ts_exchange s;
     ts_symbol := ts_symbol s; ts_order_type := ts_order_type s;
     ts_quantity := ts_quantity s; ts_volatility := ts_volatility s;
     ts_fee_tier := ts_fee_tier s; ts_process_times := ts_process_times s;
     ts_last_tick_time := v |}.

(** A method of [self.orderbook] run on the simulator: the book it leaves,
    also when it raises, is the simulator's book from then on. *)
Definition on_orderbook {A} (c : Py OrderBook A) : Py TradeSimulator A :=
  fun self =>
    let (r, ob) := c (ts_orderbook self) in (r, set_orderbook ob self).

(** The statements of the inner [try] of [connect_websocket] that follow
    [json.loads]; [now] is the clock reading inside [update], [end_time] the
    one after it. *)
Definition process_message (data : Snapshot) (start_time now end_time : Q)
    : Py TradeSimulator unit :=
  on_orderbook (update data now) ;;;
  self <- get ;;
  modify (set_calculator_volatility (ts_volatility self)) ;;;
  let process_time := (end_time - start_time) * 1000 in
  modify (fun self =>
            set_process_times (ts_process_times self ++ [process_time]) self) ;;;
  self <- get ;;
  if (100 <? List.length (ts_process_times self))%nat
  then modify (fun self =>
                 set_process_times (lastn 100 (ts_process_times self)) self)
  else ret tt.

(** One turn of the inner [while] of [connect_websocket].  The handlers only
    log (and sleep): [ConnectionClosed] leaves the loop, a message that is
    not JSON or whose processing raises is dropped and the loop goes on, with
    the simulator as the statements run so far left it. *)
Definition receive_one (start_time now end_time : Q) (ev : received)
    (self : TradeSimulator) : loop_control * TradeSimulator :=
  let self := set_last_tick_time start_time self in
  match ev with
  | ConnectionClosed => (Break, self)
  | JSONDecodeError => (Continue, self)
  | Message data =>
      (Continue, snd (process_message data start_time now end_time self))
  end.

Definition get_performance_metrics (self : TradeSimulator)
    : Res Performance :=
  match ts_process_times self with
  | [] => ret {| avg_latency := 0; max_latency := 0; min_latency := 0 |}
  | x :: rest =>
      avg <- pydiv (pysum (ts_process_times self))
                   (inject_Z (Z.of_nat (List.length (ts_process_times self)))) ;;
      ret {| avg_latency := avg;
             max_latency := max_from x rest;
             min_latency := min_from x rest |}
  end.

(** [results.update(performance)] adds the three latency keys to the report;
    the keys are distinct from the report's, so the merged dict is the pair. *)
Definition get_simulation_results (self : TradeSimulator)
    : Res (CostReport * Performance) :=
  results <- get_net_cost (market_impact_calculator self) (ts_quantity self)
                          (ts_fee_tier self) "buy" ;;
  performance <- get_performance_metrics self ;;
  ret (results, performance).

(** The [try] body of the [-APPLY-] branch of [handle_events]. *)
Definition apply_values (values : ApplyValues) : Py TradeSimulator unit :=
  q <- lift (parse (float_of_str (v_quantity values))) ;;
  modify (set_quantity q) ;;;
  v <- lift (parse (float_of_str (v_volatility values))) ;;
  modify (set_volatility (v / 100)) ;;;
  modify (set_fee_tier (v_fee_tier values)) ;;;
  modify (set_order_type (v_order_type values)).

(** The [-APPLY-] branch: an exception of the body is logged and dropped. *)
Definition handle_apply (values : ApplyValues) (self : TradeSimulator)
    : TradeSimulator :=
  snd (apply_values values self).

(** The simulators a run goes through: built by [__init__], then any number
    of turns of the receiving loop and of [-APPLY-] events. *)
Inductive sim_reachable : TradeSimulator -> Prop :=
| sim_reachable_new : forall t0 t1, sim_reachable (new_simulator t0 t1)
| sim_reachable_receive : forall self start_time now end_time ev,
    sim_reachable self ->
    sim_reachable (snd (receive_one start_time now end_time ev self))
| sim_reachable_apply : forall self values,
    sim_reachable self -> sim_reachable (handle_apply values self).

(** ** Further vocabulary *)



(** The rates [calculate_fees] uses for a tier. *)
Definition rates_of (fee_tier : string) : FeeRates :=
  dict_get fee_structure (lower fee_tier) vip0_rates.

End Simulator.

(** ** Further fixtures *)

Definition scenario_snapshot : Snapshot :=
  snapshot_of [("100", "2"); ("101", "3")] [("99", "2"); ("98", "3")].


(** A simulator that has received the snapshot of the scenario. *)
Definition scenario_simulator : @TradeSimulator decimal_runtime :=
  snd (receive_one 0 1 2 (Message scenario_snapshot) (new_simulator 0 0)).

Definition good_values : ApplyValues :=
  {| v_quantity := "250"; v_volatility := "3"; v_fee_tier := "vip2";
     v_order_type := "limit" |}.


Definition zero_quantity_values : ApplyValues :=
  {| v_quantity := "0"; v_volatility := "2"; v_fee_tier := "vip1";
     v_order_type := "market" |}.


(** * update on every input

    [update] is handed whatever [json.loads] returned, and [float] accepts
    more than the decimals of finite numbers.  This part embeds [update] on
    that whole domain: a JSON value of any shape, and floats with their
    non-finite values. *)

(** ** Floats with inf and nan

    A float is a finite number, an infinity or NaN.  The finite ones are
    computed with exactly, as in [update] above; the others follow IEEE 754:
    NaN propagates and compares false with everything, itself included.  The
    sign of zero and the overflow of a finite sum are not modelled. *)

Inductive pyfloat : Type :=
| Finite (q : Q)
| PosInf
| NegInf
| NaN.

Definition fneg (x : pyfloat) : pyfloat :=
  match x with
  | Finite a => Finite (- a)
  | PosInf => NegInf
  | NegInf => PosInf
  | NaN => NaN
  end.

Definition fadd (x y : pyfloat) : pyfloat :=
  match x, y with
  | NaN, _ | _, NaN => NaN
  | Finite a, Finite b => Finite (a + b)
  | PosInf, NegInf | NegInf, PosInf => NaN
  | PosInf, _ | _, PosInf => PosInf
  | NegInf, _ | _, NegInf => NegInf
  end.

Definition fsub (x y : pyfloat) : pyfloat :=
  match x, y with
  | NaN, _ | _, NaN => NaN
  | Finite a, Finite b => Finite (a - b)
  | PosInf, PosInf | NegInf, NegInf => NaN
  | PosInf, _ | _, NegInf => PosInf
  | NegInf, _ | _, PosInf => NegInf
  end.

(** An infinity, positive or not, times or divided by the finite [q]. *)
Definition inf_times (positive : bool) (q : Q) : pyfloat :=
  if Qeq_bool q 0 then NaN
  else if Bool.eqb positive (Qlt_bool 0 q) then PosInf else NegInf.

Definition fmul (x y : pyfloat) : pyfloat :=
  match x, y with
  | NaN, _ | _, NaN => NaN
  | Finite a, Finite b => Finite (a * b)
  | PosInf, Finite q | Finite q, PosInf => inf_times true q
  | NegInf, Finite q | Finite q, NegInf => inf_times false q
  | PosInf, PosInf | NegInf, NegInf => PosInf
  | PosInf, NegInf | NegInf, PosInf => NegInf
  end.

(** [x / d] for a literal [d] other than 0: it cannot raise. *)
Definition fdiv_by (x : pyfloat) (d : Q) : pyfloat :=
  match x with
  | Finite a => Finite (a / d)
  | PosInf => inf_times true d
  | NegInf => inf_times false d
  | NaN => NaN
  end.

(** [x <= y] and [x < y]. *)
Definition fle (x y : pyfloat) : bool :=
  match x, y with
  | NaN, _ | _, NaN => false
  | Finite a, Finite b => Qle_bool a b
  | NegInf, _ | _, PosInf => true
  | PosInf, _ | _, NegInf => false
  end.

Definition flt (x y : pyfloat) : bool :=
  match x, y with
  | NaN, _ | _, NaN => false
  | Finite a, Finite b => Qlt_bool a b
  | PosInf, _ | _, NegInf => false
  | NegInf, _ | _, PosInf => true
  end.

(** [sum(xs)]: left to right from 0. *)
Definition fsum (xs : list pyfloat) : pyfloat := fold_left fadd xs (Finite 0).

(** ** JSON values

    What [json.loads] returns: [None], a [bool], an [int], a [float] (the
    literals [NaN] and [Infinity] are read as floats), a [str], a [list] or
    a [dict], given by its items.  Strings are taken to be ASCII. *)

#[warnings="-register-all"] Inductive json : Type :=
| JNull
| JBool (b : bool)
| JInt (z : Z)
| JFloat (x : pyfloat)
| JStr (s : string)
| JList (items : list json)
| JObj (members : list (string * json)).

Module Json.

(** [float] on a string has a third outcome besides a finite number and
    [ValueError]: [float_nonfinite s] is the non-finite value [float(s)]
    returns, when it returns one. *)
Class Runtime : Type := {
  finite_runtime :: PyRuntime;
  float_nonfinite : string -> option pyfloat
}.

Definition level : Type := (pyfloat * pyfloat)%type.

(** [list.sort] compares keys with [<] alone: a level stays before another
    one unless that one's key is smaller, or greater under [reverse=True].
    On keys that [<] orders totally that is the stable sort, computed here by
    insertion.  With a NaN key [<] is not a total order, and the list
    CPython leaves then depends on its merge strategy; what is used of it
    below is that it is a permutation of the list. *)
Definition price_le (x y : level) : bool := negb (flt (fst y) (fst x)).
Definition price_ge (x y : level) : bool := negb (flt (fst x) (fst y)).

Fixpoint insert_level (before : level -> level -> bool) (x : level)
    (l : list level) : list level :=
  match l with
  | [] => [x]
  | y :: l' => if before x y then x :: l else y :: insert_level before x l'
  end.

Fixpoint sort_levels (before : level -> level -> bool) (l : list level)
    : list level :=
  match l with
  | [] => []
  | x :: l' => insert_level before x (sort_levels before l')
  end.

(** [data[key]] for a string [key]: only a dict can be subscripted by a
    string, and a dict without the key raises [KeyError]. *)
Definition subscript (data : json) (key : string) : Res json :=
  match data with
  | JObj members => getitem (dict_find members key)
  | _ => raise TypeError
  end.

(** [v.replace("Z", "+00:00")]: only a [str] has the method. *)
Definition replace_Z (v : json) : Res string :=
  match v with
  | JStr s => ret (replace_char "Z" "+00:00" s)
  | _ => raise AttributeError
  end.

(** [v[:MAX_ORDERBOOK_LEVELS]] as the [for] then iterates it: the items of a
    list, the characters of a string.  Nothing else can be sliced; for a
    dict the exception is [TypeError] up to Python 3.11 and [KeyError] from
    3.12, where a slice can be hashed. *)
Definition first_levels (v : json) : Res (list json) :=
  match v with
  | JList items => ret (firstn MAX_ORDERBOOK_LEVELS items)
  | JStr s =>
      ret (map (fun c => JStr (String c EmptyString))
               (firstn MAX_ORDERBOOK_LEVELS (list_ascii_of_string s)))
  | _ => raise TypeError
  end.

(** [price, qty = v]: [v] is iterated, into its items, its characters or its
    keys, and there must be two of them. *)
Definition unpack_pair (v : json) : Res (json * json) :=
  match v with
  | JList [price; qty] => ret (price, qty)
  | JStr (String a (String b EmptyString)) =>
      ret (JStr (String a EmptyString), JStr (String b EmptyString))
  | JObj [(key1, _); (key2, _)] => ret (JStr key1, JStr key2)
  | JList _ | JStr _ | JObj _ => raise ValueError
  | JNull | JBool _ | JInt _ | JFloat _ => raise TypeError
  end.

Section OrderBook.

Context {rt : Runtime}.

(** [float(v)].  An [int] whose nearest float is beyond the largest one
    raises [OverflowError]; the value of any other is kept as it is, where a
    float rounds it to 53 bits. *)
Definition float_of_json (v : json) : Res pyfloat :=
  match v with
  | JStr s =>
      match float_of_str s with
      | Some q => ret (Finite q)
      | None => parse (float_nonfinite s)
      end
  | JFloat x => ret x
  | JInt z =>
      if (Z.abs z <? 2 ^ 1024 - 2 ^ 970)%Z then ret (Finite (inject_Z z))
      else raise OverflowError
  | JBool b => ret (Finite (if b then 1 else 0))
  | JNull | JList _ | JObj _ => raise TypeError
  end.

(** [[(float(price), float(qty)) for price, qty in raw]] *)
Fixpoint float_levels (raw : list json) : Res (list level) :=
  match raw with
  | [] => ret []
  | v :: rest =>
      '(price, qty) <- unpack_pair v ;;
      p <- float_of_json price ;;
      q <- float_of_json qty ;;
      ls <- float_levels rest ;;
      ret ((p, q) :: ls)
  end.

(** The right-hand side of the assignment to [self.asks] or [self.bids]. *)
Definition read_levels (data : json) (key : string) : Res (list level) :=
  raw <- subscript data key ;;
  kept <- first_levels raw ;;
  float_levels kept.

(** [self.symbol] and [self.exchange] hold whatever value the snapshot
    has under the key. *)
Record OrderBook : Type := {
  asks : list level;
  bids : list level;
  timestamp : option datetime;
  symbol : json;
  exchange : json;
  last_update_time : Q;
  price_history : list (Q * pyfloat);
  spread_history : list (Q * pyfloat);
  mid_price_history : list pyfloat;
  volume_history : list (Q * pyfloat)
}.

Definition init (t0 : Q) : OrderBook := {|
  asks := []; bids := []; timestamp := None;
  symbol := JStr ""; exchange := JStr "";
  last_update_time := t0;
  price_history := []; spread_history := [];
  mid_price_history := []; volume_history := []
|}.

Definition set_asks (v : list level) (s : OrderBook) : OrderBook :=
  {| asks := v; bids := bids s; timestamp := timestamp s; symbol := symbol s;
     exchange := exchange s; last_update_time := last_update_time s;
     price_history := price_history s; spread_history := spread_history s;
     mid_price_history := mid_price_history s;
     volume_history := volume_history s |}.

Definition set_bids (v : list level) (s : OrderBook) : OrderBook :=
  {| asks := asks s; bids := v; timestamp := timestamp s; symbol := symbol s;
     exchange := exchange s; last_update_time := last_update_time s;
     price_history := price_history s; spread_history := spread_history s;
     mid_price_history := mid_price_history s;
     volume_history := volume_history s |}.

Definition set_timestamp (v : option datetime) (s : OrderBook) : OrderBook :=
  {| asks := asks s; bids := bids s; timestamp := v; symbol := symbol s;
     exchange := exchange s; last_update_time := last_update_time s;
     price_history := price_history s; spread_history := spread_history s;
     mid_price_history := mid_price_history s;
     volume_history := volume_history s |}.

Definition set_symbol (v : json) (s : OrderBook) : OrderBook :=
  {| asks := asks s; bids := bids s; timestamp := timestamp s; symbol := v;
     exchange := exchange s; last_update_time := last_update_time s;
     price_history := price_history s; spread_history := spread_history s;
     mid_price_history := mid_price_history s;
     volume_history := volume_history s |}.

Definition set_exchange (v : json) (s : OrderBook) : OrderBook :=
  {| asks := asks s; bids := bids s; timestamp := timestamp s;
     symbol := symbol s; exchange := v;
     last_update_time := last_update_time s;
     price_history := price_history s; spread_history := spread_history s;
     mid_price_history := mid_price_history s;
     volume_history := volume_history s |}.

Definition set_last_update_time (v : Q) (s : OrderBook) : OrderBook :=
  {| asks := asks s; bids := bids s; timestamp := timestamp s;
     symbol := symbol s; exchange := exchange s; last_update_time := v;
     price_history := price_history s; spread_history := spread_history s;
     mid_price_history := mid_price_history s;
     volume_history := volume_history s |}.

Definition append_history (p s : Q * pyfloat) (m : pyfloat) (v : Q * pyfloat)
    (st : OrderBook) : OrderBook :=
  {| asks := asks st; bids := bids st; timestamp := timestamp st;
     symbol := symbol st; exchange := exchange st;
     last_update_time := last_update_time st;
     price_history := price_history st ++ [p];
     spread_history := spread_history st ++ [s];
     mid_price_history := mid_price_history st ++ [m];
     volume_history := volume_history st ++ [v] |}.

Definition trim_history (st : OrderBook) : OrderBook :=
  {| asks := asks st; bids := bids st; timestamp := timestamp st;
     symbol := symbol st; exchange := exchange st;
     last_update_time := last_update_time st;
     price_history := lastn max_history (price_history st);
     spread_history := lastn max_history (spread_history st);
     mid_price_history := lastn max_history (mid_price_history st);
     volume_history := lastn max_history (volume_history st) |}.

(** [sum(qty for price, qty in levels if keep price)] *)
Definition near_volume (keep : pyfloat -> bool) (levels : list level)
    : pyfloat :=
  fsum (map snd (filter (fun l => keep (fst l)) levels)).

(** Lines 49 to 69 of [update]: no statement of the block can raise, so it
    is a function of the store. *)
Definition record_history (current_time : Q) (self : OrderBook) : OrderBook :=
  match asks self, bids self with
  | (best_ask, _) :: _, (best_bid, _) :: _ =>
      let mid_price := fdiv_by (fadd best_ask best_bid) 2 in
      let spread := fsub best_ask best_bid in
      let threshold := fmul mid_price (Finite 0.001) in
      let near_ask_volume :=
        near_volume (fun price => fle price (fadd mid_price threshold))
                    (asks self) in
      let near_bid_volume :=
        near_volume (fun price => fle (fsub mid_price threshold) price)
                    (bids self) in
      let self :=
        append_history (current_time, mid_price) (current_time, spread)
          mid_price (current_time, fadd near_ask_volume near_bid_volume)
          self in
      if (max_history <? List.length (price_history self))%nat
      then trim_history self
      else self
  | _, _ => self
  end.

(** [OrderBook.update] on any JSON value; [current_time] is the reading of
    [time.time()]. *)
Definition update (data : json) (current_time : Q) : Py OrderBook unit :=
  raw_ts <- lift (subscript data "timestamp") ;;
  iso <- lift (replace_Z raw_ts) ;;
  ts <- lift (parse (fromisoformat iso)) ;;
  modify (set_timestamp (Some ts)) ;;;
  sym <- lift (subscript data "symbol") ;;
  modify (set_symbol sym) ;;;
  exch <- lift (subscript data "exchange") ;;
  modify (set_exchange exch) ;;;
  new_asks <- lift (read_levels data "asks") ;;
  modify (set_asks new_asks) ;;;
  new_bids <- lift (read_levels data "bids") ;;
  modify (set_bids new_bids) ;;;
  modify (fun self => set_asks (sort_levels price_le (asks self)) self) ;;;
  modify (fun self => set_bids (sort_levels price_ge (bids self)) self) ;;;
  modify (set_last_update_time current_time) ;;;
  modify (record_history current_time).

(** *** Vocabulary *)

(** The argument of the assignment to [self.timestamp]. *)
Definition read_timestamp (data : json) : Res datetime :=
  raw_ts <- subscript data "timestamp" ;;
  iso <- replace_Z raw_ts ;;
  parse (fromisoformat iso).

(** The outcome of [update] spelled out statement by statement: the result,
    and the store it leaves, at each point where the method can raise. *)
Definition update_outcome (data : json) (now : Q) (st : OrderBook)
    : Res unit * OrderBook :=
  match read_timestamp data with
  | inl e => (inl e, st)
  | inr ts =>
  let st1 := set_timestamp (Some ts) st in
  match subscript data "symbol" with
  | inl e => (inl e, st1)
  | inr sym =>
  let st2 := set_symbol sym st1 in
  match subscript data "exchange" with
  | inl e => (inl e, st2)
  | inr exch =>
  let st3 := set_exchange exch st2 in
  match read_levels data "asks" with
  | inl e => (inl e, st3)
  | inr new_asks =>
  let st4 := set_asks new_asks st3 in
  match read_levels data "bids" with
  | inl e => (inl e, st4)
  | inr new_bids =>
      (inr tt,
       record_history now
         (set_last_update_time now
            (set_bids (sort_levels price_ge new_bids)
               (set_asks (sort_levels price_le new_asks)
                  (set_bids new_bids st4)))))
  end end end end end.

(** The four series of a book. *)
Definition histories (st : OrderBook) :=
  (price_history st, spread_history st, mid_price_history st,
   volume_history st).

(** The snapshot has a timestamp that is not a string, or a string that
    [fromisoformat] rejects. *)
Definition malformed_timestamp (data : json) : Prop :=
  exists v, subscript data "timestamp" = inr v
    /\ match v with
       | JStr s => fromisoformat (replace_char "Z" "+00:00" s) = None
       | _ => True
       end.

(** The snapshot has a timestamp that [update] reads as [ts]. *)
Definition timestamp_reads (data : json) (ts : datetime) : Prop :=
  exists s, subscript data "timestamp" = inr (JStr s)
    /\ fromisoformat (replace_char "Z" "+00:00" s) = Some ts.

(** The snapshot is an object without the key. *)
Definition missing (data : json) (key : string) : Prop :=
  exists members, data = JObj members /\ dict_find members key = None.

(** A level that is not a pair, or whose price or quantity [float]
    rejects: [None], a list, a string that is not a number. *)
Definition non_numeric (l : json) : Prop :=
  match unpack_pair l with
  | inl _ => True
  | inr (price, qty) =>
      (exists e, float_of_json price = inl e)
      \/ (exists e, float_of_json qty = inl e)
  end.

(** The side under [key] has such a level among those [update] keeps. *)
Definition non_numeric_side (data : json) (key : string) : Prop :=
  exists raw kept, subscript data key = inr raw
    /\ first_levels raw = inr kept
    /\ Exists non_numeric kept.

(** The malformed snapshots of the specification. *)
Definition malformed_snapshot (data : json) : Prop :=
  malformed_timestamp data
  \/ missing data "symbol"
  \/ missing data "exchange"
  \/ non_numeric_side data "asks"
  \/ non_numeric_side data "bids".

(** The exceptions [update] raises on them. *)
Definition rejections : list exn :=
  [KeyError; ValueError; TypeError; AttributeError; OverflowError].

(** Sorted by price on floats: every level compares [<=] with every later
    one.  A side that holds a NaN price and another level is in no order. *)
Definition ascending_by_price : list level -> Prop :=
  StronglySorted (fun x y => fle (fst x) (fst y) = true).
Definition descending_by_price : list level -> Prop :=
  StronglySorted (fun x y => fle (fst y) (fst x) = true).

Definition no_nan_price (levels : list level) : Prop :=
  Forall (fun l => fst l <> NaN) levels.

End OrderBook.

End Json.

(** ** From the snapshots of strings to JSON

    The snapshot the feed sends, as the JSON object it is, and the book of
    finite numbers as a book of floats. *)

Definition member (key : string) (field : option json)
    : list (string * json) :=
  match field with
  | Some v => [(key, v)]
  | None => []
  end.

Definition json_level (l : string * string) : json :=
  JList [JStr (fst l); JStr (snd l)].

Definition json_of_snapshot (data : Snapshot) : json :=
  JObj (member "timestamp" (option_map JStr (d_timestamp data))
        ++ member "exchange" (option_map JStr (d_exchange data))
        ++ member "symbol" (option_map JStr (d_symbol data))
        ++ member "asks"
             (option_map (fun l => JList (map json_level l)) (d_asks data))
        ++ member "bids"
             (option_map (fun l => JList (map json_level l)) (d_bids data))).

Definition finite_level (l : level) : Json.level :=
  (Finite (fst l), Finite (snd l)).

Definition finite_entry (e : Q * Q) : Q * pyfloat := (fst e, Finite (snd e)).

Definition json_book {rt : Json.Runtime} (st : OrderBook) : Json.OrderBook := {|
  Json.asks := map finite_level (asks st);
  Json.bids := map finite_level (bids st);
  Json.timestamp := timestamp st;
  Json.symbol := JStr (symbol st);
  Json.exchange := JStr (exchange st);
  Json.last_update_time := last_update_time st;
  Json.price_history := map finite_entry (price_history st);
  Json.spread_history := map finite_entry (spread_history st);
  Json.mid_price_history := map Finite (mid_price_history st);
  Json.volume_history := map finite_entry (volume_history st)
|}.

(** No string of the level is one that [float] turns into an infinity or
    NaN. *)
Definition finite_strings {rt : Json.Runtime} (l : string * string) : Prop :=
  Json.float_nonfinite (fst l) = None /\ Json.float_nonfinite (snd l) = None.

Definition finite_side {rt : Json.Runtime}
    (side : option (list (string * string))) : Prop :=
  match side with
  | Some raw => Forall finite_strings (firstn MAX_ORDERBOOK_LEVELS raw)
  | None => True
  end.

(** ** The executable runtime on non-finite floats

    [float] on the spellings [nan], [inf] and [infinity], in any case and
    with an optional sign. *)

Definition special_name (s : string) : option pyfloat :=
  let name := lower s in
  if (name =? "nan")%string then Some NaN
  else if ((name =? "inf") || (name =? "infinity"))%string then Some PosInf
  else None.

Definition nonfinite_float (s : string) : option pyfloat :=
  match s with
  | String "-" s' => option_map fneg (special_name s')
  | String "+" s' => special_name s'
  | _ => special_name s
  end.

Definition decimal_json_runtime : Json.Runtime := {|
  Json.finite_runtime := decimal_runtime;
  Json.float_nonfinite := nonfinite_float
|}.

(** ** Fixtures *)

Definition json_snapshot (a b : list json) : json :=
  JObj [("timestamp", JStr "2025-05-04T10:39:13Z");
        ("exchange", JStr "OKX");
        ("symbol", JStr "BTC-USDT-SWAP");
        ("asks", JList a);
        ("bids", JList b)].

Definition str_level (price qty : string) : json :=
  JList [JStr price; JStr qty].

(** An ask whose price reads [nan], between two asks out of order. *)
Definition nan_price_snapshot : json :=
  json_snapshot
    [str_level "101" "1"; str_level "nan" "1"; str_level "100" "1"]
    [str_level "99" "1"].

(** Infinite prices: [float] accepts them and they are ordered. *)
Definition inf_price_snapshot : json :=
  json_snapshot
    [str_level "inf" "1"; str_level "100" "2"; str_level "-Infinity" "3"]
    [str_level "99" "1"; str_level "inf" "2"].

(** A bid whose price is [null]. *)
Definition null_price_snapshot : json :=
  json_snapshot [str_level "101" "1"; str_level "100" "2"]
                [JList [JNull; JStr "1"]].

(** A timestamp that is a number. *)
Definition numeric_timestamp_snapshot : json :=
  JObj [("timestamp", JInt 1746355153);
        ("exchange", JStr "OKX");
        ("symbol", JStr "BTC-USDT-SWAP");
        ("asks", JList [str_level "100" "2"]);
        ("bids", JList [str_level "99" "1"])].

(** No symbol. *)
Definition json_no_symbol_snapshot : json :=
  JObj [("timestamp", JStr "2025-05-04T10:39:13Z");
        ("exchange", JStr "OKX");
        ("asks", JList [str_level "100" "2"]);
        ("bids", JList [str_level "99" "2"])].

(** Levels given as numbers, as booleans, as a two-letter string, and an
    integer of 400 digits. *)
Definition number_levels_snapshot : json :=
  json_snapshot [JList [JInt 101; JFloat (Finite 1.5)];
                 JList [JBool true; JInt 2];
                 JStr "73"]
                [JList [JFloat (Finite 0.5); JInt 1]].

Definition huge_int_snapshot : json :=
  json_snapshot [JList [JInt (10 ^ 400); JInt 1]] [str_level "99" "1"].

(** * The maker/taker split in binary64

    [estimate_maker_taker_proportion] on the floats of the machine, Rocq's
    primitive binary64 floats with their IEEE 754 operations. *)

Module Binary64.

Definition level : Type := (float * float)%type.

(** The two fields of the book that the method reads. *)
Record OrderBook : Type := {
  asks : list level;
  bids : list level
}.

Record MarketImpactCalculator : Type := {
  orderbook : OrderBook
}.

(** [x / y] on Python floats. *)
Definition pydiv (x y : float) : Res float :=
  if PrimFloat.eqb y 0 then raise ZeroDivisionError else ret (x / y)%float.

(** [np.exp], where IEEE 754 leaves no choice of the result: NaN at NaN,
    infinity once the exponential exceeds the largest float (from 709.79
    on), 0 once it is below half the smallest one (from -745.14 down).  In
    between the last bit depends on the library, and no value is given. *)
Definition np_exp (x : float) : option float :=
  if PrimFloat.is_nan x then Some nan
  else if (710 <=? x)%float then Some infinity
  else if (x <=? -746)%float then Some 0%float
  else None.

(** [(best_ask_size + best_bid_size) / (2 * quantity)] *)
Definition relative_size_of (ask_price ask_qty bid_price bid_qty quantity : float)
    : Res float :=
  let best_ask_size := (ask_qty * ask_price)%float in
  let best_bid_size := (bid_qty * bid_price)%float in
  pydiv (best_ask_size + best_bid_size)%float (2 * quantity)%float.

(** The result is [None] where [np_exp] gives no value. *)
Definition estimate_maker_taker_proportion (self : MarketImpactCalculator)
    (quantity : float) : Res (option (float * float)) :=
  match asks (orderbook self), bids (orderbook self) with
  | (ask_price, ask_qty) :: _, (bid_price, bid_qty) :: _ =>
      relative_size <-
        relative_size_of ask_price ask_qty bid_price bid_qty quantity ;;
      ret (option_map
             (fun e =>
                let taker_pct := (100 / (1 + e))%float in
                let maker_pct := (100 - taker_pct)%float in
                (maker_pct, taker_pct))
             (np_exp (relative_size - 1)%float))
  | _, _ => ret (Some (0%float, 100%float))
  end.

(** The book of the scenario. *)
Definition scenario_calculator : MarketImpactCalculator :=
  {| orderbook := {| asks := [(100, 2); (101, 3)]%float;
                     bids := [(99, 2); (98, 3)]%float |} |}.

End Binary64.
(** * Properties *)

(** ** Arithmetic and list helpers *)

Lemma Qlt_bool_iff (x y : Q) : Qlt_bool x y = true <-> x < y.
Proof.
  unfold Qlt_bool. rewrite negb_true_iff. split; intro H.
  - apply Qnot_le_lt. intro Hle. apply Qle_bool_iff in Hle. congruence.
  - destruct (Qle_bool y x) eqn:E; [|reflexivity].
    apply Qle_bool_iff in E. exfalso. apply (Qlt_not_le _ _ H E).
Qed.

Lemma Qlt_bool_false (x y : Q) : Qlt_bool x y = false <-> y <= x.
Proof.
  unfold Qlt_bool. rewrite negb_false_iff. apply Qle_bool_iff.
Qed.

Lemma Qle_bool_false (x y : Q) : Qle_bool x y = false -> y < x.
Proof.
  intro H. apply Qnot_le_lt. intro Hle. apply Qle_bool_iff in Hle. congruence.
Qed.

Lemma pydiv_ok (x y : Q) : ~ y == 0 -> pydiv x y = inr (x / y).
Proof.
  intro H. unfold pydiv. destruct (Qeq_bool y 0) eqn:E; [|reflexivity].
  apply Qeq_bool_eq in E. contradiction.
Qed.

Lemma pydiv_zero (x y : Q) : y == 0 -> pydiv x y = inl ZeroDivisionError.
Proof.
  intro H. unfold pydiv. now rewrite (Qeq_eq_bool _ _ H).
Qed.

Lemma pymin_cases (a b : Q) :
  (b < a /\ pymin a b = b) \/ (a <= b /\ pymin a b = a).
Proof.
  unfold pymin. destruct (Qlt_bool b a) eqn:E.
  - left. split; [now apply Qlt_bool_iff | reflexivity].
  - right. split; [now apply Qlt_bool_false | reflexivity].
Qed.

Lemma lastn_length {A} (n : nat) (l : list A) :
  List.length (lastn n l) = Nat.min n (List.length l).
Proof. unfold lastn. rewrite length_skipn. lia. Qed.

Lemma lastn_all {A} (n : nat) (l : list A) :
  (List.length l <= n)%nat -> lastn n l = l.
Proof.
  intro H. unfold lastn. replace (List.length l - n)%nat with 0%nat by lia.
  reflexivity.
Qed.

(** [l[-n:]] is what is left of [l] once its oldest entries are dropped. *)
Lemma lastn_suffix {A} (n : nat) (l : list A) :
  exists dropped, l = dropped ++ lastn n l
    /\ List.length dropped = (List.length l - n)%nat.
Proof.
  exists (firstn (List.length l - n) l). split.
  - unfold lastn. now rewrite firstn_skipn.
  - rewrite length_firstn. lia.
Qed.

(** ** The sort *)

Section Sorting.

Variable before : level -> level -> bool.
Variable rel : level -> level -> Prop.
Hypothesis before_R : forall x y, before x y = true -> rel x y.
Hypothesis before_total : forall x y, before x y = false -> rel y x.
Hypothesis R_trans : forall x y z, rel x y -> rel y z -> rel x z.

Lemma insert_level_perm (x : level) (l : list level) :
  Permutation (x :: l) (insert_level before x l).
Proof.
  induction l as [|y l IH]; simpl.
  - apply Permutation_refl.
  - destruct (before x y).
    + apply Permutation_refl.
    + eapply perm_trans; [apply perm_swap|]. now apply perm_skip.
Qed.

Lemma sort_levels_perm (l : list level) :
  Permutation l (sort_levels before l).
Proof.
  induction l as [|x l IH]; simpl.
  - apply perm_nil.
  - eapply perm_trans; [|apply insert_level_perm]. now apply perm_skip.
Qed.

Lemma sort_levels_length (l : list level) :
  List.length (sort_levels before l) = List.length l.
Proof. symmetry. apply Permutation_length, sort_levels_perm. Qed.

Lemma insert_level_sorted (x : level) (l : list level) :
  StronglySorted rel l -> StronglySorted rel (insert_level before x l).
Proof.
  induction 1 as [|y l Hs IH Hy]; simpl.
  - constructor; constructor.
  - destruct (before x y) eqn:E.
    + constructor.
      * now constructor.
      * constructor; [now apply before_R|].
        eapply Forall_impl; [|exact Hy].
        intros z Hz. eapply R_trans; [apply before_R; exact E | exact Hz].
    + constructor; [exact IH|].
      eapply Permutation_Forall; [apply insert_level_perm|].
      constructor; [now apply before_total | exact Hy].
Qed.

Lemma sort_levels_sorted (l : list level) :
  StronglySorted rel (sort_levels before l).
Proof.
  induction l as [|x l IH]; simpl.
  - constructor.
  - now apply insert_level_sorted.
Qed.

End Sorting.

Lemma sort_asks_ascending (l : list level) :
  ascending_by_price (sort_levels price_le l).
Proof.
  apply sort_levels_sorted.
  - intros x y H. now apply Qle_bool_iff.
  - intros x y H. apply Qlt_le_weak. now apply Qle_bool_false.
  - intros x y z. apply Qle_trans.
Qed.

Lemma sort_bids_descending (l : list level) :
  descending_by_price (sort_levels price_ge l).
Proof.
  apply sort_levels_sorted.
  - intros x y H. now apply Qle_bool_iff.
  - intros x y H. apply Qlt_le_weak. now apply Qle_bool_false.
  - intros x y z H1 H2. eapply Qle_trans; eassumption.
Qed.

(** The sort is stable: levels of one price keep the order they came in. *)
Example sort_levels_stable :
  sort_levels price_le [(2, 1); (1, 7); (2, 5); (1, 9)]
    = [(1, 7); (1, 9); (2, 1); (2, 5)]
  /\ sort_levels price_ge [(2, 1); (1, 7); (2, 5); (1, 9)]
    = [(2, 1); (2, 5); (1, 7); (1, 9)].
Proof. split; reflexivity. Qed.

Lemma float_levels_length {rt : PyRuntime} (raw : list (string * string))
    (ls : list level) :
  float_levels raw = inr ls -> List.length ls = List.length raw.
Proof.
  revert ls. induction raw as [|[p q] raw IH]; simpl; intros ls H.
  - now inversion H.
  - destruct (float_of_str p); simpl in H; [|discriminate].
    destruct (float_of_str q); simpl in H; [|discriminate].
    destruct (float_levels raw) as [e|ls'] eqn:E; simpl in H; [discriminate|].
    inversion H; subst. simpl. f_equal. now apply IH.
Qed.


Lemma float_levels_error {rt : PyRuntime} (raw : list (string * string))
    (e : exn) :
  float_levels raw = inl e -> e = ValueError.
Proof.
  induction raw as [|[p q] raw IH]; simpl; intro H.
  - discriminate.
  - destruct (float_of_str p); simpl in H; [|now inversion H].
    destruct (float_of_str q); simpl in H; [|now inversion H].
    destruct (float_levels raw) as [e'|ls']; simpl in H; [|discriminate].
    inversion H; subst. now apply IH.
Qed.

(** ** update *)

Section UpdateFacts.

Context {rt : PyRuntime}.

Ltac simpl_update :=
  cbn -[firstn sort_levels float_levels max_history Nat.ltb].

(** The monadic [update] and its outcome spelled out agree on every input. *)
Lemma update_unfold (data : Snapshot) (now : Q) (st : OrderBook) :
  update data now st = update_outcome data now st.
Proof.
  unfold update, update_outcome, record_history, near_touch_volume, lift, get,
    modify.
  destruct data as [ts sym exch a b].
  simpl_update.
  destruct ts as [raw_ts|]; simpl_update; [|reflexivity].
  destruct (fromisoformat (replace_char "Z" "+00:00" raw_ts)); simpl_update;
    [|reflexivity].
  destruct sym; simpl_update; [|reflexivity].
  destruct exch; simpl_update; [|reflexivity].
  destruct a as [raw_asks|]; simpl_update; [|reflexivity].
  destruct (float_levels (firstn MAX_ORDERBOOK_LEVELS raw_asks)) as [e|pa];
    simpl_update; [reflexivity|].
  destruct b as [raw_bids|]; simpl_update; [|reflexivity].
  destruct (float_levels (firstn MAX_ORDERBOOK_LEVELS raw_bids)) as [e|pb];
    simpl_update; [reflexivity|].
  destruct (sort_levels price_le pa) as [|[best_ask ?] ?]; [reflexivity|].
  destruct (sort_levels price_ge pb) as [|[best_bid ?] ?]; [reflexivity|].
  cbn -[max_history Nat.ltb].
  destruct (max_history <? _)%nat; reflexivity.
Qed.

Lemma record_history_book (now : Q) (st : OrderBook) :
  asks (record_history now st) = asks st
  /\ bids (record_history now st) = bids st
  /\ timestamp (record_history now st) = timestamp st
  /\ symbol (record_history now st) = symbol st
  /\ exchange (record_history now st) = exchange st
  /\ last_update_time (record_history now st) = last_update_time st.
Proof.
  unfold record_history.
  destruct (asks st) as [|[best_ask ?] ?] eqn:Ea; [now rewrite Ea|].
  destruct (bids st) as [|[best_bid ?] ?] eqn:Eb; [now rewrite Ea, Eb|].
  destruct (max_history <? _)%nat; cbn; now rewrite Ea, Eb.
Qed.

(** What a call that returns has done: the store it leaves is determined by
    the parsed first levels of the two sides. *)
Lemma update_returns (data : Snapshot) (now : Q) (st st' : OrderBook) :
  update data now st = (inr tt, st') ->
  exists raw_ts ts sym exch raw_asks raw_bids new_asks new_bids,
    d_timestamp data = Some raw_ts
    /\ fromisoformat (replace_char "Z" "+00:00" raw_ts) = Some ts
    /\ d_symbol data = Some sym /\ d_exchange data = Some exch
    /\ d_asks data = Some raw_asks /\ d_bids data = Some raw_bids
    /\ float_levels (firstn MAX_ORDERBOOK_LEVELS raw_asks) = inr new_asks
    /\ float_levels (firstn MAX_ORDERBOOK_LEVELS raw_bids) = inr new_bids
    /\ st' = record_history now
               (set_last_update_time now
                  (set_bids (sort_levels price_ge new_bids)
                     (set_asks (sort_levels price_le new_asks)
                        (set_bids new_bids
                           (set_asks new_asks
                              (set_exchange exch
                                 (set_symbol sym
                                    (set_timestamp (Some ts) st)))))))).
Proof.
  rewrite update_unfold. unfold update_outcome.
  destruct (d_timestamp data) as [raw_ts|]; [|discriminate].
  destruct (fromisoformat _) as [ts|] eqn:Et; [|discriminate].
  destruct (d_symbol data) as [sym|]; [|discriminate].
  destruct (d_exchange data) as [exch|]; [|discriminate].
  destruct (d_asks data) as [raw_asks|]; [|discriminate].
  destruct (float_levels (firstn _ raw_asks)) as [e|pa] eqn:Ea; [discriminate|].
  destruct (d_bids data) as [raw_bids|]; [|discriminate].
  destruct (float_levels (firstn _ raw_bids)) as [e|pb] eqn:Eb; [discriminate|].
  intro H. inversion H; subst.
  exists raw_ts, ts, sym, exch, raw_asks, raw_bids, pa, pb. now repeat split.
Qed.

(** What a call that raises leaves behind: the bids, the clock reading and
    the series are those of before. *)
Lemma update_raises (data : Snapshot) (now : Q) (st st' : OrderBook)
    (e : exn) :
  update data now st = (inl e, st') ->
  (e = KeyError \/ e = ValueError)
  /\ bids st' = bids st
  /\ last_update_time st' = last_update_time st
  /\ histories st' = histories st.
Proof.
  rewrite update_unfold. unfold update_outcome.
  destruct (d_timestamp data) as [raw_ts|];
    [|intro H; inversion H; subst; auto].
  destruct (fromisoformat _) as [ts|]; [|intro H; inversion H; subst; auto].
  destruct (d_symbol data) as [sym|]; [|intro H; inversion H; subst; auto].
  destruct (d_exchange data) as [exch|]; [|intro H; inversion H; subst; auto].
  destruct (d_asks data) as [raw_asks|]; [|intro H; inversion H; subst; auto].
  destruct (float_levels (firstn _ raw_asks)) as [ea|pa] eqn:Ea.
  { intro H; inversion H; subst. apply float_levels_error in Ea. auto. }
  destruct (d_bids data) as [raw_bids|]; [|intro H; inversion H; subst; auto].
  destruct (float_levels (firstn _ raw_bids)) as [eb|pb] eqn:Eb.
  { intro H; inversion H; subst. apply float_levels_error in Eb. auto. }
  discriminate.
Qed.

(** A call whose result is a return, written with the store it leaves. *)
Lemma update_returned (data : Snapshot) (now : Q) (st : OrderBook) :
  fst (update data now st) = inr tt ->
  update data now st = (inr tt, snd (update data now st)).
Proof.
  destruct (update data now st) as [r st']. simpl. now intros ->.
Qed.

Lemma kept_latest_lastn {A} (n : nat) (l : list A) :
  kept_latest n l (lastn n l).
Proof.
  destruct (lastn_suffix n l) as [dropped [H1 H2]].
  exists dropped. split; [exact H1 | apply lastn_length].
Qed.

(** One entry per series, and the latest [max_history] kept, on a two-sided
    book whose series are aligned. *)
Lemma record_history_two_sided (now : Q) (st : OrderBook)
    (best_ask qa best_bid qb : Q) (la lb : list level) :
  history_aligned st ->
  asks st = (best_ask, qa) :: la -> bids st = (best_bid, qb) :: lb ->
  let mid_price := (best_ask + best_bid) / 2 in
  price_history (record_history now st)
    = lastn max_history (price_history st ++ [(now, mid_price)])
  /\ spread_history (record_history now st)
    = lastn max_history (spread_history st ++ [(now, best_ask - best_bid)])
  /\ mid_price_history (record_history now st)
    = lastn max_history (mid_price_history st ++ [mid_price])
  /\ volume_history (record_history now st)
    = lastn max_history
        (volume_history st
         ++ [(now, near_touch_volume (asks st) (bids st) mid_price)]).
Proof.
  intros (Hs & Hm & Hv & Hle) Ea Eb mid_price.
  unfold record_history. rewrite Ea, Eb. fold mid_price.
  cbn -[max_history Nat.ltb lastn].
  destruct (max_history <? _)%nat eqn:E.
  - cbn -[max_history lastn]. now repeat split.
  - apply Nat.ltb_ge in E. rewrite length_app in E. simpl in E.
    cbn -[max_history lastn].
    repeat split; symmetry; apply lastn_all; rewrite length_app; simpl; lia.
Qed.

Lemma record_history_aligned (now : Q) (st : OrderBook) :
  history_aligned st -> history_aligned (record_history now st).
Proof.
  intro H.
  destruct (asks st) as [|[best_ask qa] la] eqn:Ea;
    [unfold record_history; now rewrite Ea|].
  destruct (bids st) as [|[best_bid qb] lb] eqn:Eb;
    [unfold record_history; now rewrite Ea, Eb|].
  destruct (record_history_two_sided now st _ _ _ _ _ _ H Ea Eb)
    as (Hp & Hs & Hm & Hv).
  destruct H as (Ls & Lm & Lv & Lle).
  unfold history_aligned. rewrite Hp, Hs, Hm, Hv.
  rewrite !lastn_length, !length_app. cbn [List.length]. lia.
Qed.

Lemma update_aligned (data : Snapshot) (now : Q) (st : OrderBook) :
  history_aligned st -> history_aligned (snd (update data now st)).
Proof.
  intro H. destruct (update data now st) as [[e|[]] st'] eqn:E; simpl.
  - apply update_raises in E. destruct E as (_ & _ & _ & Eh).
    unfold histories in Eh. inversion Eh as [[Hp Hs Hm Hv]].
    unfold history_aligned. now rewrite Hp, Hs, Hm, Hv.
  - apply update_returns in E.
    destruct E as (rts & ts & sym & exch & ra & rb & pa & pb
                    & _ & _ & _ & _ & _ & _ & _ & _ & ->).
    now apply record_history_aligned.
Qed.

Lemma reachable_aligned (st : OrderBook) :
  reachable st -> history_aligned st.
Proof.
  induction 1 as [t0|st data now _ IH].
  - unfold history_aligned. simpl. lia.
  - now apply update_aligned.
Qed.

(** ** The claims on [update] *)

(** On snapshots whose levels are strings that hold finite numbers, a call
    of [update] that returns leaves the asks non-decreasing and the bids
    non-increasing by price, each of at most 50 levels, whatever the order
    the levels of the snapshot came in.  The statement on every snapshot,
    NaN prices included, is made on [Json.update] below. *)
Lemma update_sorts_finite_prices (data : Snapshot) (now : Q)
    (st st' : OrderBook) :
  update data now st = (inr tt, st') ->
  ascending_by_price (asks st') /\ descending_by_price (bids st')
  /\ (List.length (asks st') <= 50)%nat /\ (List.length (bids st') <= 50)%nat.
Proof.
  intro H. apply update_returns in H.
  destruct H as (rts & ts & sym & exch & ra & rb & pa & pb
                    & _ & _ & _ & _ & _ & _ & Ha & Hb & ->).
  destruct (record_history_book now
    (set_last_update_time now
       (set_bids (sort_levels price_ge pb)
          (set_asks (sort_levels price_le pa)
             (set_bids pb
                (set_asks pa
                   (set_exchange exch
                      (set_symbol sym (set_timestamp (Some ts) st)))))))))
    as (-> & -> & _).
  cbn [asks bids set_last_update_time set_bids set_asks].
  apply float_levels_length in Ha, Hb.
  rewrite !sort_levels_length, Ha, Hb, !length_firstn.
  unfold MAX_ORDERBOOK_LEVELS.
  repeat split; try lia.
  - apply sort_asks_ascending.
  - apply sort_bids_descending.
Qed.

(** C10. The levels [update] keeps on a side are the first 50 of the
    snapshot's sequence, cut before the sort: the new side is the sort of
    those 50 once parsed, so a permutation of them, and no level past the
    50th is in it, whatever its price. *)
Theorem update_truncates_before_sorting (data : Snapshot) (now : Q)
    (st st' : OrderBook) :
  update data now st = (inr tt, st') ->
  exists raw_asks raw_bids kept_asks kept_bids,
    d_asks data = Some raw_asks /\ d_bids data = Some raw_bids
    /\ float_levels (firstn 50 raw_asks) = inr kept_asks
    /\ float_levels (firstn 50 raw_bids) = inr kept_bids
    /\ asks st' = sort_levels price_le kept_asks
    /\ bids st' = sort_levels price_ge kept_bids
    /\ Permutation kept_asks (asks st')
    /\ Permutation kept_bids (bids st').
Proof.
  intro H. apply update_returns in H.
  destruct H as (rts & ts & sym & exch & ra & rb & pa & pb
                    & _ & _ & _ & _ & Da & Db & Ha & Hb & ->).
  exists ra, rb, pa, pb.
  destruct (record_history_book now
    (set_last_update_time now
       (set_bids (sort_levels price_ge pb)
          (set_asks (sort_levels price_le pa)
             (set_bids pb
                (set_asks pa
                   (set_exchange exch
                      (set_symbol sym (set_timestamp (Some ts) st)))))))))
    as (-> & -> & _).
  cbn [asks bids set_last_update_time set_bids set_asks].
  repeat split; auto using sort_levels_perm.
Qed.

(** C6. After a call of [update] on a book that [__init__] and earlier calls
    produced, the four series have one length, at most 300.  A call that
    raises appends nothing.  A call that returns has replaced the book by the
    sorted first levels of the snapshot, and has appended one entry to each
    series exactly when both new sides are non-empty; the series then hold
    the latest 300 entries in arrival order, the oldest dropped. *)
Theorem history_series_aligned_and_bounded (st : OrderBook) (data : Snapshot)
    (now : Q) :
  reachable st ->
  let st' := snd (update data now st) in
  (List.length (spread_history st') = List.length (mid_price_history st')
   /\ List.length (volume_history st') = List.length (mid_price_history st')
   /\ List.length (price_history st') = List.length (mid_price_history st')
   /\ (List.length (mid_price_history st') <= 300)%nat)
  /\ (forall e, fst (update data now st) = inl e ->
        histories st' = histories st)
  /\ (fst (update data now st) = inr tt ->
        (exists raw_asks raw_bids kept_asks kept_bids,
           d_asks data = Some raw_asks /\ d_bids data = Some raw_bids
           /\ float_levels (firstn 50 raw_asks) = inr kept_asks
           /\ float_levels (firstn 50 raw_bids) = inr kept_bids
           /\ asks st' = sort_levels price_le kept_asks
           /\ bids st' = sort_levels price_ge kept_bids)
        /\ match asks st', bids st' with
           | (best_ask, _) :: _, (best_bid, _) :: _ =>
               let mid_price := (best_ask + best_bid) / 2 in
               kept_latest 300 (mid_price_history st ++ [mid_price])
                 (mid_price_history st')
               /\ kept_latest 300
                    (spread_history st ++ [(now, best_ask - best_bid)])
                    (spread_history st')
               /\ kept_latest 300
                    (volume_history st
                     ++ [(now, near_touch_volume (asks st') (bids st')
                                 mid_price)])
                    (volume_history st')
               /\ kept_latest 300 (price_history st ++ [(now, mid_price)])
                    (price_history st')
           | _, _ => histories st' = histories st
           end).
Proof.
  intros Hr st'. pose proof (reachable_aligned st Hr) as Hal.
  pose proof (update_aligned data now st Hal) as Hal'. fold st' in Hal'.
  split; [|split].
  - destruct Hal' as (Hs & Hm & Hv & Hle). unfold max_history in Hle.
    repeat split; lia.
  - intros e He. subst st'.
    destruct (update data now st) as [r st1] eqn:E. simpl in *. subst r.
    now apply update_raises in E.
  - intro Hok. subst st'.
    destruct (update data now st) as [r st1] eqn:E. simpl in *. subst r.
    apply update_returns in E.
    destruct E as (rts & ts & sym & exch & ra & rb & pa & pb
                   & _ & _ & _ & _ & Da & Db & Ha & Hb & ->).
    set (st0 := set_last_update_time now _).
    destruct (record_history_book now st0) as (Easks & Ebids & _).
    assert (Hal0 : history_aligned st0) by exact Hal.
    split.
    + exists ra, rb, pa, pb. rewrite Easks, Ebids. now repeat split.
    + rewrite Easks, Ebids.
      destruct (asks st0) as [|[best_ask qa] la] eqn:Ea.
      { unfold record_history. now rewrite Ea. }
      destruct (bids st0) as [|[best_bid qb] lb] eqn:Eb.
      { unfold record_history. now rewrite Ea, Eb. }
      destruct (record_history_two_sided now st0 _ _ _ _ _ _ Hal0 Ea Eb)
        as (Hp & Hs & Hm & Hv).
      cbv zeta. rewrite Hp, Hs, Hm, Hv, Ea, Eb.
      repeat split; apply kept_latest_lastn.
Qed.

End UpdateFacts.

(** ** The liquidity walk *)

Lemma notional_nonneg (levels : list level) :
  Forall well_formed levels -> 0 <= notional levels.
Proof.
  induction 1 as [|[p q] l [Hp Hq] _ IH]; cbn [notional fst snd] in *.
  - apply Qle_refl.
  - assert (0 <= p * q) by (apply Qmult_le_0_compat; [now apply Qlt_le_weak|assumption]).
    lra.
Qed.

(** The loop on well-formed levels, entered with a non-negative remaining
    amount: it does not raise; what it takes off the remaining amount is what
    it adds to the cost; it stops at 0 when the levels hold enough and takes
    them whole otherwise; and the executed quantity grows whenever something
    was taken. *)
Lemma walk_levels_spec (levels : list level) :
  Forall well_formed levels ->
  forall remaining executed cost, 0 <= remaining ->
  exists remaining' executed' cost',
    walk_levels levels remaining executed cost
      = inr (remaining', executed', cost')
    /\ 0 <= remaining'
    /\ cost' - cost == remaining - remaining'
    /\ (remaining <= notional levels -> remaining' == 0)
    /\ (notional levels <= remaining ->
        remaining' == remaining - notional levels)
    /\ executed <= executed'
    /\ (remaining' < remaining -> executed < executed').
Proof.
  induction 1 as [|[p q] l [Hp Hq] Hwf IH]; intros rem ex cost Hrem.
  - exists rem, ex, cost. cbn [walk_levels notional].
    repeat split; try reflexivity; try lra; intro; lra.
  - simpl in Hp, Hq.
    assert (Hn : 0 <= notional l) by now apply notional_nonneg.
    assert (Hpq : 0 <= p * q)
      by (apply Qmult_le_0_compat; [now apply Qlt_le_weak|assumption]).
    cbn [walk_levels notional].
    destruct (Qle_bool rem 0) eqn:Ebreak.
    + apply Qle_bool_iff in Ebreak.
      exists rem, ex, cost.
      repeat split; try reflexivity; try lra; intro; lra.
    + apply Qle_bool_false in Ebreak.
      assert (Hp0 : ~ p == 0) by lra.
      rewrite (pydiv_ok _ _ Hp0). cbn [bind Monad_Res].
      set (take := pymin rem (p * q)).
      assert (Htake : 0 <= take /\ take <= rem /\ take <= p * q
                      /\ (rem <= p * q -> take == rem)
                      /\ (p * q <= rem -> take == p * q)).
      { subst take. destruct (pymin_cases rem (p * q)) as [[Hc ->]|[Hc ->]];
          repeat split; try lra; intro; lra. }
      destruct Htake as (T0 & T1 & T2 & T3 & T4).
      assert (Hq0 : 0 <= take / p).
      { apply Qle_shift_div_l; [exact Hp|]. lra. }
      assert (Hmul : take / p * p == take) by (field; exact Hp0).
      assert (Hrem' : 0 <= rem - take) by lra.
      destruct (IH (rem - take) (ex + take / p) (cost + take / p * p) Hrem')
        as (r' & e' & c' & Hw & R0 & Hc & Hfull & Hpart & Hex & Hgrow).
      assert (Hq1 : 0 < take -> 0 < take / p).
      { intro. apply Qlt_shift_div_l; [exact Hp|]. lra. }
      exists r', e', c'. rewrite Hw. repeat split; lra.
Qed.

Section LiquidityFacts.

Context {rt : PyRuntime}.

(** The guard of [get_liquidity_at_level]: a book with an empty side gives
    (0, 0), whatever the amount, the side asked for and the levels of the
    other side. *)
Lemma get_liquidity_empty_side (ob : OrderBook) (X : Q) (side : string) :
  asks ob = [] \/ bids ob = [] ->
  get_liquidity_at_level ob X side = inr (0, 0).
Proof.
  unfold get_liquidity_at_level. intros [H|H]; rewrite H.
  - reflexivity.
  - now destruct (asks ob).
Qed.

(** C3, as the code has it.  On a book with an empty side
    [get_liquidity_at_level] returns (0, 0), for every amount and every
    side.  On a book with both sides non-empty whose targeted side is made
    of well-formed levels, [get_liquidity_at_level] with a positive amount
    [X] returns, and does not raise: when the side holds a notional of at
    least [X] the fill is complete, executed quantity times average price
    being [X]; when it holds less the fill is partial, and the product is
    the notional of the side. *)
Theorem liquidity_consumes_notional (ob : OrderBook) (X : Q) (side : string) :
  (asks ob = [] \/ bids ob = [] ->
   get_liquidity_at_level ob X side = inr (0, 0))
  /\ (asks ob <> [] -> bids ob <> [] ->
      Forall well_formed (targeted_side ob side) ->
      0 < X ->
      exists average_price executed_quantity,
        get_liquidity_at_level ob X side
          = inr (average_price, executed_quantity)
        /\ (X <= notional (targeted_side ob side) ->
            executed_quantity * average_price == X)
        /\ (notional (targeted_side ob side) <= X ->
            executed_quantity * average_price
              == notional (targeted_side ob side))).
Proof.
  split; [apply get_liquidity_empty_side|].
  intros Ha Hb Hwf HX. unfold get_liquidity_at_level.
  destruct (asks ob) as [|a la] eqn:Ea; [congruence|].
  destruct (bids ob) as [|b lb] eqn:Eb; [congruence|].
  cbn [is_empty orb].
  unfold targeted_side in *. rewrite Ea, Eb in *.
  set (levels := if (lower side =? "buy")%string then a :: la else b :: lb) in *.
  assert (Hn : 0 <= notional levels) by now apply notional_nonneg.
  destruct (walk_levels_spec levels Hwf X 0 0 (Qlt_le_weak _ _ HX))
    as (r' & e' & c' & Hw & R0 & Hc & Hfull & Hpart & Hex & Hgrow).
  rewrite Hw. cbn [bind Monad_Res].
  destruct (Qlt_bool 0 e') eqn:Epos.
  - apply Qlt_bool_iff in Epos.
    assert (He0 : ~ e' == 0) by lra.
    rewrite (pydiv_ok _ _ He0). cbn [bind Monad_Res ret].
    exists (c' / e'), e'. split; [reflexivity|].
    assert (Hprod : e' * (c' / e') == c') by (field; exact He0).
    split; intro Hle; rewrite Hprod; lra.
  - apply Qlt_bool_false in Epos. cbn [bind Monad_Res ret].
    exists 0, e'. split; [reflexivity|].
    assert (Hzero : e' * 0 == 0) by ring.
    split; intro Hle; rewrite Hzero; lra.
Qed.

End LiquidityFacts.

(** ** The logistic split *)

Local Open Scope R_scope.

Lemma logistic_taker_bounds (x : R) : 0 < logistic_taker x < 100.
Proof.
  unfold logistic_taker. pose proof (exp_pos (x - 1)) as He.
  set (e := exp (x - 1)) in *.
  assert (H1 : 0 < 1 + e) by lra.
  split.
  - apply Rdiv_lt_0_compat; lra.
  - apply Rmult_lt_reg_r with (1 + e); [exact H1|].
    unfold Rdiv. rewrite Rmult_assoc, Rinv_l by lra. lra.
Qed.

Lemma logistic_taker_decreasing (x y : R) :
  x < y -> logistic_taker y < logistic_taker x.
Proof.
  intro Hxy. unfold logistic_taker.
  assert (He : exp (x - 1) < exp (y - 1)) by (apply exp_increasing; lra).
  pose proof (exp_pos (x - 1)) as Hx.
  unfold Rdiv. apply Rmult_lt_compat_l; [lra|].
  apply Rinv_lt_contravar; [|lra].
  apply Rmult_lt_0_compat; lra.
Qed.

(** [takerPct] tends to 0 as the relative size grows. *)
Lemma logistic_taker_limit_right (eps : R) :
  0 < eps -> exists M, forall x, M < x -> 0 < logistic_taker x < eps.
Proof.
  intro Heps. exists (1 + ln (100 / eps)). intros x Hx.
  split; [apply logistic_taker_bounds|].
  unfold logistic_taker.
  assert (Hq : 0 < 100 / eps) by (apply Rdiv_lt_0_compat; lra).
  assert (He : 100 / eps < exp (x - 1)).
  { rewrite <- (exp_ln (100 / eps)) by exact Hq. apply exp_increasing. lra. }
  set (e := exp (x - 1)) in *.
  assert (H100 : 100 < eps * e).
  { replace 100 with (eps * (100 / eps)) at 1 by (field; lra).
    apply Rmult_lt_compat_l; assumption. }
  apply Rmult_lt_reg_r with (1 + e); [lra|].
  unfold Rdiv. rewrite Rmult_assoc, Rinv_l by lra. lra.
Qed.

(** [takerPct] tends to 100 as the relative size decreases without bound. *)
Lemma logistic_taker_limit_left (eps : R) :
  0 < eps -> exists M, forall x, x < M -> 100 - eps < logistic_taker x < 100.
Proof.
  intro Heps. exists (1 + ln (eps / 100)). intros x Hx.
  split; [|apply logistic_taker_bounds].
  unfold logistic_taker.
  assert (Hq : 0 < eps / 100) by (apply Rdiv_lt_0_compat; lra).
  assert (He : exp (x - 1) < eps / 100).
  { rewrite <- (exp_ln (eps / 100)) by exact Hq. apply exp_increasing. lra. }
  pose proof (exp_pos (x - 1)) as Hpos.
  set (e := exp (x - 1)) in *.
  apply Rmult_lt_reg_r with (1 + e); [lra|].
  unfold Rdiv. rewrite Rmult_assoc, Rinv_l by lra.
  assert (0 < eps * e) by (apply Rmult_lt_0_compat; assumption).
  lra.
Qed.

Local Close Scope R_scope.

(** ** The calculator *)

Section CalculatorFacts.

Context {rt : PyRuntime}.

Lemma sigma_of_cases (v : Q) :
  (0 < v /\ sigma_of v = v) \/ (v <= 0 /\ sigma_of v = 0.02).
Proof.
  unfold sigma_of. destruct (Qlt_bool 0 v) eqn:E.
  - left. split; [now apply Qlt_bool_iff | reflexivity].
  - right. split; [now apply Qlt_bool_false | reflexivity].
Qed.

(** The estimate never raises: [len(recent_volumes)] is 10 where it is the
    divisor. *)
Lemma daily_volume_estimate_value (ob : OrderBook) (market_cap : Q) :
  daily_volume_estimate ob market_cap = inr (daily_volume_of ob market_cap).
Proof.
  unfold daily_volume_estimate, daily_volume_of.
  destruct (10 <? List.length (volume_history ob))%nat eqn:E; [|reflexivity].
  apply Nat.ltb_lt in E.
  rewrite length_map, lastn_length.
  replace (Nat.min 10 (List.length (volume_history ob))) with 10%nat by lia.
  reflexivity.
Qed.

Lemma tier_lookup_unknown (name : string) :
  ~ In name tier_names -> dict_find fee_structure name = None.
Proof.
  intro H. unfold fee_structure. cbn [dict_find].
  repeat match goal with
  | |- context [(?k =? name)%string] =>
      destruct (String.eqb_spec k name) as [E|_];
        [exfalso; apply H; rewrite <- E; cbn; tauto|]
  end.
  reflexivity.
Qed.

(** [calculate_fees] in terms of the split and of the rates of the tier. *)
Lemma calculate_fees_unfold (self : MarketImpactCalculator) (quantity : Q)
    (fee_tier : string) :
  calculate_fees self quantity fee_tier =
  match estimate_maker_taker_proportion self quantity with
  | inl e => inl e
  | inr (maker_p, taker_p) =>
      let rates := dict_get fee_structure (lower fee_tier) vip0_rates in
      inr ((maker_p / 100 * Q2R (maker rates)
            + taker_p / 100 * Q2R (taker rates)) * 100)%R
  end.
Proof.
  unfold calculate_fees. cbn [dict_find fee_structure String.eqb getitem].
  cbn -[dict_get fee_structure lower estimate_maker_taker_proportion Q2R].
  destruct (estimate_maker_taker_proportion self quantity) as [e|[m t]];
    reflexivity.
Qed.

Lemma Q2R_tick : Q2R (1 / 86400) = (1 / 86400)%R.
Proof. unfold Q2R. cbn. lra. Qed.

(** The impact on a book with history and a non-zero estimate. *)
Lemma market_impact_value (self : MarketImpactCalculator)
    (quantity market_cap : Q) (side : string) :
  mid_price_history (orderbook self) <> [] ->
  ~ daily_volume_of (orderbook self) market_cap == 0 ->
  calculate_market_impact self quantity side market_cap
    = inr (Q2R (sigma_of (volatility self)) * sqrt (1 / 86400)
           * sqrt (Q2R quantity
                   / Q2R (daily_volume_of (orderbook self) market_cap))
           * 100)%R.
Proof.
  intros Hne Hnz. unfold calculate_market_impact.
  destruct (mid_price_history (orderbook self)); [congruence|].
  cbn [is_empty]. rewrite daily_volume_estimate_value.
  cbn [bind Monad_Res].
  rewrite (pydiv_ok _ _ Hnz). cbn [bind Monad_Res ret].
  rewrite Q2R_tick, (Q2R_div _ _ Hnz). reflexivity.
Qed.

(** A division by a zero estimate raises. *)
Lemma market_impact_zero_estimate (self : MarketImpactCalculator)
    (quantity market_cap : Q) (side : string) :
  mid_price_history (orderbook self) <> [] ->
  daily_volume_of (orderbook self) market_cap == 0 ->
  calculate_market_impact self quantity side market_cap
    = inl ZeroDivisionError.
Proof.
  intros Hne Hz. unfold calculate_market_impact.
  destruct (mid_price_history (orderbook self)); [congruence|].
  cbn [is_empty]. rewrite daily_volume_estimate_value.
  cbn [bind Monad_Res]. now rewrite (pydiv_zero _ _ Hz).
Qed.

(** C4, as the code has it.  The daily volume estimate is the mean of the
    last 10 near-touch samples times 86400 when the volume series has more
    than 10 samples, and [market_cap * 0.05] otherwise, the default market
    cap being 1e10.  With a non-empty mid-price series and an estimate other
    than 0, the impact is
    [sigma * sqrt(1/86400) * sqrt(quantity / estimate) * 100], [sigma] being
    the volatility when positive and 0.02 otherwise.  With an empty mid-price
    series the impact is 0. *)
Theorem market_impact_square_root_model (self : MarketImpactCalculator)
    (quantity market_cap : Q) (side : string) :
  let ob := orderbook self in
  let samples := volume_history ob in
  forall daily sigma,
  daily_volume_estimate ob market_cap = inr daily ->
  sigma = (if Qlt_bool 0 (volatility self) then volatility self else 0.02) ->
  ((10 < List.length samples)%nat ->
     List.length (lastn 10 samples) = 10%nat
     /\ daily = pysum (map snd (lastn 10 samples)) / 10 * 86400)
  /\ ((List.length samples <= 10)%nat -> daily = market_cap * 0.05)
  /\ default_market_cap == 10 ^ 10
  /\ (0 < volatility self -> sigma = volatility self)
  /\ (volatility self <= 0 -> sigma = 0.02)
  /\ (mid_price_history ob = [] ->
      calculate_market_impact self quantity side market_cap = inr 0%R)
  /\ (mid_price_history ob <> [] -> ~ daily == 0 ->
      calculate_market_impact self quantity side market_cap
        = inr (Q2R sigma * sqrt (1 / 86400)
               * sqrt (Q2R quantity / Q2R daily) * 100)%R).
Proof.
  intros ob samples daily sigma Hd Hsigma.
  rewrite daily_volume_estimate_value in Hd.
  assert (Hd' : daily = daily_volume_of ob market_cap) by congruence.
  clear Hd. subst samples daily.
  repeat split.
  - rewrite lastn_length. lia.
  - unfold daily_volume_of. apply Nat.ltb_lt in H. now rewrite H.
  - intro H. unfold daily_volume_of. apply Nat.ltb_ge in H. now rewrite H.
  - intro H. apply Qlt_bool_iff in H. now rewrite H in Hsigma.
  - intro H. apply Qlt_bool_false in H. now rewrite H in Hsigma.
  - intro H. unfold calculate_market_impact. fold ob. now rewrite H.
  - intros Hne Hnz. rewrite Hsigma. now apply market_impact_value.
Qed.

(** C7, in exact arithmetic.  With [np.exp] taken as the real exponential
    and a positive quantity, [estimate_maker_taker_proportion] returns a
    split that adds up to 100.  On a book with an empty side it is maker 0,
    taker 100.  Otherwise the taker share is the logistic function of the
    relative size (best ask notional + best bid notional) / (2 * quantity),
    which is strictly decreasing, tends to 0 as the relative size grows and
    to 100 as it decreases without bound. *)
Theorem maker_taker_split (self : MarketImpactCalculator) (quantity : Q) :
  0 < quantity ->
  exists maker_p taker_p,
    estimate_maker_taker_proportion self quantity = inr (maker_p, taker_p)
    /\ (maker_p + taker_p = 100)%R
    /\ (asks (orderbook self) = [] \/ bids (orderbook self) = [] ->
        maker_p = 0%R /\ taker_p = 100%R)
    /\ (forall ask_price ask_qty la bid_price bid_qty lb,
          asks (orderbook self) = (ask_price, ask_qty) :: la ->
          bids (orderbook self) = (bid_price, bid_qty) :: lb ->
          taker_p
            = logistic_taker
                (Q2R ((ask_qty * ask_price + bid_qty * bid_price)
                      / (2 * quantity))))
    /\ (forall x y, (x < y)%R -> (logistic_taker y < logistic_taker x)%R)
    /\ (forall eps, (0 < eps)%R ->
          exists M, forall x, (M < x)%R -> (0 < logistic_taker x < eps)%R)
    /\ (forall eps, (0 < eps)%R ->
          exists M, forall x, (x < M)%R ->
            (100 - eps < logistic_taker x < 100)%R).
Proof.
  intro Hq. unfold estimate_maker_taker_proportion.
  assert (Hq2 : ~ 2 * quantity == 0) by lra.
  destruct (asks (orderbook self)) as [|[ap aq] la] eqn:Ea.
  { exists 0%R, 100%R. repeat split; try lra; try discriminate;
      auto using logistic_taker_decreasing, logistic_taker_limit_right,
        logistic_taker_limit_left. }
  destruct (bids (orderbook self)) as [|[bp bq] lb] eqn:Eb.
  { exists 0%R, 100%R. repeat split; try lra; try discriminate;
      auto using logistic_taker_decreasing, logistic_taker_limit_right,
        logistic_taker_limit_left. }
  rewrite (pydiv_ok _ _ Hq2). cbn [bind Monad_Res ret].
  eexists _, _. split; [reflexivity|].
  split; [lra|].
  split; [intros [H|H]; discriminate H|].
  split.
  { intros ? ? ? ? ? ? H1 H2. inversion H1; inversion H2; subst. reflexivity. }
  auto using logistic_taker_decreasing, logistic_taker_limit_right,
    logistic_taker_limit_left.
Qed.

(** C8. A fee tier that is not, once lowered, one of [vip0] to [vip5] gives
    the fee of ["vip0"]; two tiers that differ only in case give the same
    fee; and in a report of [get_net_cost] the fee is
    [(maker/100 * makerRate + taker/100 * takerRate) * 100] for the rates of
    the tier and the maker and taker shares of that same report. *)
Theorem fee_tier_fallback_and_formula (self : MarketImpactCalculator)
    (quantity : Q) (fee_tier : string) :
  (~ In (lower fee_tier) tier_names ->
     calculate_fees self quantity fee_tier
       = calculate_fees self quantity "vip0")
  /\ (forall other, lower other = lower fee_tier ->
        calculate_fees self quantity other
          = calculate_fees self quantity fee_tier)
  /\ (forall side report,
        get_net_cost self quantity fee_tier side = inr report ->
        forall rates,
        rates = dict_get fee_structure (lower fee_tier) vip0_rates ->
        estimate_maker_taker_proportion self quantity
          = inr (maker_pct report, taker_pct report)
        /\ calculate_fees self quantity fee_tier = inr (fee_pct report)
        /\ fee_pct report
           = ((maker_pct report / 100 * Q2R (maker rates)
               + taker_pct report / 100 * Q2R (taker rates)) * 100)%R).
Proof.
  repeat split.
  - intro H. rewrite !calculate_fees_unfold. unfold dict_get.
    now rewrite (tier_lookup_unknown _ H).
  - intros other H. rewrite !calculate_fees_unfold. now rewrite H.
  - unfold get_net_cost in H.
    destruct (calculate_slippage self quantity side); [discriminate|].
    destruct (calculate_fees self quantity fee_tier); [discriminate|].
    cbn [bind Monad_Res] in H.
    destruct (calculate_market_impact _ _ _ _); [discriminate|].
    cbn [bind Monad_Res] in H.
    destruct (estimate_maker_taker_proportion self quantity) as [e|[m t]];
      [discriminate|].
    cbn [bind Monad_Res ret] in H. inversion H; subst. reflexivity.
  - unfold get_net_cost in H.
    destruct (calculate_slippage self quantity side); [discriminate|].
    destruct (calculate_fees self quantity fee_tier); [discriminate|].
    cbn [bind Monad_Res] in H.
    destruct (calculate_market_impact _ _ _ _); [discriminate|].
    cbn [bind Monad_Res] in H.
    destruct (estimate_maker_taker_proportion self quantity) as [e|[m t]];
      [discriminate|].
    cbn [bind Monad_Res ret] in H. inversion H; subst. reflexivity.
  - unfold get_net_cost in H.
    destruct (calculate_slippage self quantity side); [discriminate|].
    rewrite calculate_fees_unfold in H.
    destruct (estimate_maker_taker_proportion self quantity) as [e|[m t]];
      [discriminate|].
    cbn [bind Monad_Res] in H.
    destruct (calculate_market_impact _ _ _ _); [discriminate|].
    cbn [bind Monad_Res ret] in H. inversion H; subst. reflexivity.
Qed.

End CalculatorFacts.


(** * Further properties of the order book *)

Section MoreUpdateFacts.

Context {rt : PyRuntime}.



(** X2. What a call of [update] returns or raises does not depend on the
    book it is called on, and the book, the timestamp, the symbol, the
    exchange and the time of a call that returns are those of the snapshot
    alone: nothing of the previous book is left. *)
Theorem update_replaces_book (data : Snapshot) (now : Q)
    (st1 st2 : OrderBook) :
  fst (update data now st1) = fst (update data now st2)
  /\ (fst (update data now st1) = inr tt ->
      asks (snd (update data now st1)) = asks (snd (update data now st2))
      /\ bids (snd (update data now st1)) = bids (snd (update data now st2))
      /\ timestamp (snd (update data now st1))
         = timestamp (snd (update data now st2))
      /\ symbol (snd (update data now st1))
         = symbol (snd (update data now st2))
      /\ exchange (snd (update data now st1))
         = exchange (snd (update data now st2))
      /\ last_update_time (snd (update data now st1)) = now).
Proof.
  rewrite !update_unfold. unfold update_outcome.
  destruct (d_timestamp data) as [raw_ts|]; [|split; [reflexivity|discriminate]].
  destruct (fromisoformat _) as [ts|]; [|split; [reflexivity|discriminate]].
  destruct (d_symbol data) as [sym|]; [|split; [reflexivity|discriminate]].
  destruct (d_exchange data) as [exch|]; [|split; [reflexivity|discriminate]].
  destruct (d_asks data) as [ra|]; [|split; [reflexivity|discriminate]].
  destruct (float_levels (firstn _ ra)) as [e|pa];
    [split; [reflexivity|discriminate]|].
  destruct (d_bids data) as [rb|]; [|split; [reflexivity|discriminate]].
  destruct (float_levels (firstn _ rb)) as [e|pb];
    [split; [reflexivity|discriminate]|].
  cbn [fst snd]. split; [reflexivity|]. intros _.
  set (s1 := set_last_update_time now _).
  set (s2 := set_last_update_time now _).
  destruct (record_history_book now s1) as (-> & -> & -> & -> & -> & ->).
  destruct (record_history_book now s2) as (-> & -> & -> & -> & -> & _).
  repeat split.
Qed.


Lemma update_book_bound (data : Snapshot) (now : Q) (st : OrderBook) :
  (List.length (asks st) <= 50)%nat /\ (List.length (bids st) <= 50)%nat ->
  (List.length (asks (snd (update data now st))) <= 50)%nat
  /\ (List.length (bids (snd (update data now st))) <= 50)%nat.
Proof.
  intros [Ha Hb]. rewrite update_unfold. unfold update_outcome.
  destruct (d_timestamp data) as [raw_ts|]; [|now split].
  destruct (fromisoformat _) as [ts|]; [|now split].
  destruct (d_symbol data) as [sym|]; [|now split].
  destruct (d_exchange data) as [exch|]; [|now split].
  destruct (d_asks data) as [ra|]; [|now split].
  destruct (float_levels (firstn _ ra)) as [e|pa] eqn:Ea; [now split|].
  apply float_levels_length in Ea. rewrite length_firstn in Ea.
  unfold MAX_ORDERBOOK_LEVELS in Ea.
  destruct (d_bids data) as [rb|]; [|cbn; split; lia].
  destruct (float_levels (firstn _ rb)) as [e|pb] eqn:Eb; [cbn; split; lia|].
  apply float_levels_length in Eb. rewrite length_firstn in Eb.
  unfold MAX_ORDERBOOK_LEVELS in Eb.
  cbn [snd].
  match goal with
  | |- context [record_history now ?s] =>
      destruct (record_history_book now s) as (-> & -> & _)
  end.
  cbn [asks bids set_last_update_time set_bids set_asks].
  rewrite !sort_levels_length. split; lia.
Qed.

(** X4. Every book a run goes through, calls of [update] that raised
    included, holds at most 50 asks and at most 50 bids. *)
Theorem reachable_book_depth (st : OrderBook) :
  reachable st ->
  (List.length (asks st) <= 50)%nat /\ (List.length (bids st) <= 50)%nat.
Proof.
  induction 1 as [t0|st data now _ IH].
  - cbn. split; lia.
  - now apply update_book_bound.
Qed.

End MoreUpdateFacts.

(** * Further properties of the walk and of the slippage *)

Lemma lower_ascii_idempotent (c : ascii) :
  lower_ascii (lower_ascii c) = lower_ascii c.
Proof. destruct c as [[] [] [] [] [] [] [] []]; reflexivity. Qed.

Lemma lower_idempotent (s : string) : lower (lower s) = lower s.
Proof.
  induction s as [|c s IH]; cbn [lower]; [reflexivity|].
  now rewrite lower_ascii_idempotent, IH.
Qed.

(** With nothing to spend the loop stops at once, before any division. *)
Lemma walk_levels_nothing (levels : list level) (remaining : Q) :
  remaining <= 0 -> walk_levels levels remaining 0 0 = inr (remaining, 0, 0).
Proof.
  intro H. destruct levels as [|[p q] rest]; cbn [walk_levels]; [reflexivity|].
  apply Qle_bool_iff in H. now rewrite H.
Qed.

(** On well-formed levels the cost and the executed quantity only grow, and
    the cost grows whenever the quantity does. *)
Lemma walk_levels_cost_pos (levels : list level) :
  Forall well_formed levels ->
  forall remaining executed cost remaining' executed' cost',
  walk_levels levels remaining executed cost
    = inr (remaining', executed', cost') ->
  executed <= executed' /\ cost <= cost'
  /\ (executed < executed' -> cost < cost').
Proof.
  induction 1 as [|[p q] l [Hp Hq] Hwf IH]; intros rem ex cost r' e' c' Hw.
  - cbn in Hw. inversion Hw; subst. repeat split; lra.
  - cbn [fst snd] in Hp, Hq. cbn [walk_levels] in Hw.
    destruct (Qle_bool rem 0) eqn:Ebreak.
    { inversion Hw; subst. repeat split; lra. }
    apply Qle_bool_false in Ebreak.
    assert (Hp0 : ~ p == 0) by lra.
    rewrite (pydiv_ok _ _ Hp0) in Hw. cbn [bind Monad_Res] in Hw.
    set (take := pymin rem (p * q)) in *.
    assert (Hpq : 0 <= p * q)
      by (apply Qmult_le_0_compat; [now apply Qlt_le_weak|assumption]).
    assert (T0 : 0 <= take).
    { subst take. destruct (pymin_cases rem (p * q)) as [[_ ->]|[_ ->]]; lra. }
    assert (Hq0 : 0 <= take / p) by (apply Qle_shift_div_l; [exact Hp|lra]).
    assert (Hmul : take / p * p == take) by (field; exact Hp0).
    assert (Hq1 : 0 < take / p -> 0 < take).
    { intro H1. rewrite <- Hmul. apply Qmult_lt_0_compat; assumption. }
    destruct (IH _ _ _ _ _ _ Hw) as (He & Hc & Hgrow).
    repeat split; lra.
Qed.

(** The cost of what the loop executes is at least the executed quantity at
    a price every level is above, and at most the executed quantity at a
    price every level is below. *)
Lemma walk_levels_cost_between (levels : list level) (lo hi : Q) :
  Forall well_formed levels ->
  forall remaining executed cost remaining' executed' cost',
  walk_levels levels remaining executed cost
    = inr (remaining', executed', cost') ->
  (Forall (fun l => lo <= fst l) levels ->
   lo * (executed' - executed) <= cost' - cost)
  /\ (Forall (fun l => fst l <= hi) levels ->
      cost' - cost <= hi * (executed' - executed)).
Proof.
  induction 1 as [|[p q] l [Hp Hq] Hwf IH]; intros rem ex cost r' e' c' Hw.
  - cbn in Hw. inversion Hw; subst. split; intros _; ring_simplify; lra.
  - cbn [fst snd] in Hp, Hq. cbn [walk_levels] in Hw.
    destruct (Qle_bool rem 0) eqn:Ebreak.
    { inversion Hw; subst. split; intros _; ring_simplify; lra. }
    apply Qle_bool_false in Ebreak.
    assert (Hp0 : ~ p == 0) by lra.
    rewrite (pydiv_ok _ _ Hp0) in Hw. cbn [bind Monad_Res] in Hw.
    set (take := pymin rem (p * q)) in *.
    assert (Hpq : 0 <= p * q)
      by (apply Qmult_le_0_compat; [now apply Qlt_le_weak|assumption]).
    assert (T0 : 0 <= take).
    { subst take. destruct (pymin_cases rem (p * q)) as [[_ ->]|[_ ->]]; lra. }
    assert (Hq0 : 0 <= take / p) by (apply Qle_shift_div_l; [exact Hp|lra]).
    set (tq := take / p) in *.
    destruct (IH _ _ _ _ _ _ Hw) as (L & U).
    split; intro Hb; inversion Hb as [|? ? Hhd Htl]; subst;
      cbn [fst] in Hhd.
    + assert (H1 : lo * tq <= p * tq)
        by (apply Qmult_le_compat_r; assumption).
      specialize (L Htl). nra.
    + assert (H2 : p * tq <= hi * tq)
        by (apply Qmult_le_compat_r; assumption).
      specialize (U Htl). nra.
Qed.

Section MoreLiquidityFacts.

Context {rt : PyRuntime}.

(** What [get_liquidity_at_level] returns for a positive amount on a book
    with both sides and a well-formed targeted side: either nothing was
    executed and the average price is 0, or the average price is a positive
    price between the lowest and the highest of the side, for no more than
    the amount. *)
Lemma get_liquidity_cases (ob : OrderBook) (X : Q) (side : string)
    (lo hi : Q) :
  asks ob <> [] -> bids ob <> [] ->
  Forall well_formed (targeted_side ob side) ->
  0 < X ->
  exists avg ex,
    get_liquidity_at_level ob X side = inr (avg, ex)
    /\ ((avg = 0 /\ ex == 0)
        \/ (0 < ex /\ 0 < avg /\ ex * avg <= X
            /\ (Forall (fun l => lo <= fst l) (targeted_side ob side) ->
                lo <= avg)
            /\ (Forall (fun l => fst l <= hi) (targeted_side ob side) ->
                avg <= hi)))
    /\ (0 < notional (targeted_side ob side) -> 0 < ex).
Proof.
  intros Ha Hb Hwf HX. unfold get_liquidity_at_level.
  destruct (asks ob) as [|a la] eqn:Ea; [congruence|].
  destruct (bids ob) as [|b lb] eqn:Eb; [congruence|].
  cbn [is_empty orb].
  unfold targeted_side in *. rewrite Ea, Eb in *.
  set (levels := if (lower side =? "buy")%string then a :: la else b :: lb)
    in *.
  assert (Hn : 0 <= notional levels) by now apply notional_nonneg.
  destruct (walk_levels_spec levels Hwf X 0 0 (Qlt_le_weak _ _ HX))
    as (r' & e' & c' & Hw & R0 & Hc & Hfull & Hpart & Hex & Hgrow).
  destruct (walk_levels_cost_pos levels Hwf _ _ _ _ _ _ Hw)
    as (_ & Hc0 & Hcpos).
  destruct (walk_levels_cost_between levels lo hi Hwf _ _ _ _ _ _ Hw)
    as (L & U).
  rewrite Hw. cbn [bind Monad_Res].
  destruct (Qlt_bool 0 e') eqn:Epos.
  - apply Qlt_bool_iff in Epos.
    assert (He0 : ~ e' == 0) by lra.
    rewrite (pydiv_ok _ _ He0). cbn [bind Monad_Res ret].
    exists (c' / e'), e'. split; [reflexivity|].
    assert (Hprod : e' * (c' / e') == c') by (field; exact He0).
    specialize (Hcpos Epos).
    split; [right|intros _; exact Epos].
    split; [exact Epos|].
    split; [apply Qlt_shift_div_l; [exact Epos|lra]|].
    split; [rewrite Hprod; lra|].
    split; intro Hbound.
    + apply Qle_shift_div_l; [exact Epos|]. specialize (L Hbound). lra.
    + apply Qle_shift_div_r; [exact Epos|]. specialize (U Hbound). lra.
  - apply Qlt_bool_false in Epos. cbn [bind Monad_Res ret].
    exists 0, e'. split; [reflexivity|].
    split; [left; split; [reflexivity|lra]|].
    intro Hpos. destruct (Qlt_le_dec X (notional levels)) as [Hlt|Hge].
    + assert (r' == 0) by (apply Hfull; lra). apply Hgrow. lra.
    + assert (r' == X - notional levels) by (apply Hpart; lra).
      apply Hgrow. lra.
Qed.

Lemma get_liquidity_nothing (ob : OrderBook) (usd_amount : Q)
    (side : string) :
  usd_amount <= 0 -> get_liquidity_at_level ob usd_amount side = inr (0, 0).
Proof.
  intro H. unfold get_liquidity_at_level.
  destruct (is_empty (asks ob) || is_empty (bids ob)); [reflexivity|].
  now rewrite (walk_levels_nothing _ _ H).
Qed.

Lemma calculate_slippage_nothing (self : MarketImpactCalculator)
    (usd_amount : Q) (side : string) :
  usd_amount <= 0 -> calculate_slippage self usd_amount side = inr 0.
Proof.
  intro H. unfold calculate_slippage.
  destruct (asks (orderbook self)) as [|[ba qa] la]; [reflexivity|].
  destruct (bids (orderbook self)) as [|[bb qb] lb]; [reflexivity|].
  now rewrite (get_liquidity_nothing _ _ _ H).
Qed.

Lemma get_liquidity_lower_side (ob : OrderBook) (usd_amount : Q)
    (side : string) :
  get_liquidity_at_level ob usd_amount side
    = get_liquidity_at_level ob usd_amount (lower side).
Proof. unfold get_liquidity_at_level. now rewrite lower_idempotent. Qed.

(** X5. With an amount of 0 or less [get_liquidity_at_level] returns (0, 0)
    on every book, whatever the prices and quantities in it, and the
    slippage is 0: the loop stops before its first division. *)
Theorem nothing_to_spend (self : MarketImpactCalculator) (usd_amount : Q)
    (side : string) :
  usd_amount <= 0 ->
  get_liquidity_at_level (orderbook self) usd_amount side = inr (0, 0)
  /\ calculate_slippage self usd_amount side = inr 0.
Proof.
  intro H. split.
  - now apply get_liquidity_nothing.
  - now apply calculate_slippage_nothing.
Qed.

(** X6. The walk reads the side without regard to case, and takes every
    side that is not a buy for a sell: such a side consumes the bids. *)
Theorem liquidity_side_is_buy_or_sell (ob : OrderBook) (usd_amount : Q)
    (side : string) :
  get_liquidity_at_level ob usd_amount side
    = get_liquidity_at_level ob usd_amount (lower side)
  /\ (lower side = "buy" ->
      get_liquidity_at_level ob usd_amount side
        = get_liquidity_at_level ob usd_amount "buy")
  /\ (lower side <> "buy" ->
      get_liquidity_at_level ob usd_amount side
        = get_liquidity_at_level ob usd_amount "sell"
      /\ targeted_side ob side = bids ob).
Proof.
  split; [apply get_liquidity_lower_side|].
  unfold get_liquidity_at_level, targeted_side. split; intro H.
  - now rewrite H.
  - apply String.eqb_neq in H. now rewrite H.
Qed.

End MoreLiquidityFacts.

(** * Further properties of the calculator *)

Lemma Qhalf_strictly_between (a b : Q) :
  b < a -> b < (a + b) / 2 /\ (a + b) / 2 < a.
Proof.
  intro H. assert (E : (a + b) / 2 == (a + b) * (1 # 2)) by (field; lra).
  rewrite E. split; lra.
Qed.

Lemma ascending_head_lowest (best : level) (rest : list level) :
  ascending_by_price (best :: rest) ->
  Forall (fun l => fst best <= fst l) (best :: rest).
Proof.
  intro H. apply StronglySorted_inv in H. destruct H as [_ H].
  constructor; [apply Qle_refl | exact H].
Qed.

Section MoreCalculatorFacts.

Context {rt : PyRuntime}.

(** [calculate_slippage] on a two-sided book, from what the walk returned. *)
Lemma calculate_slippage_two_sided (self : MarketImpactCalculator)
    (quantity : Q) (side : string) (best_ask qa best_bid qb : Q)
    (la lb : list level) (avg ex : Q) :
  asks (orderbook self) = (best_ask, qa) :: la ->
  bids (orderbook self) = (best_bid, qb) :: lb ->
  get_liquidity_at_level (orderbook self) quantity side = inr (avg, ex) ->
  calculate_slippage self quantity side
  = if Qeq_bool avg 0 then inr 0
    else if (side =? "buy")%string
    then match pydiv avg ((best_ask + best_bid) / 2) with
         | inl e => inl e
         | inr r => inr ((r - 1) * 100)
         end
    else match pydiv ((best_ask + best_bid) / 2) avg with
         | inl e => inl e
         | inr r => inr ((r - 1) * 100)
         end.
Proof.
  intros Ea Eb Hl. unfold calculate_slippage. rewrite Ea, Eb, Hl.
  cbn [bind Monad_Res ret]. reflexivity.
Qed.

Lemma Qeq_bool_pos (x : Q) : 0 < x -> Qeq_bool x 0 = false.
Proof.
  intro H. destruct (Qeq_bool x 0) eqn:E; [|reflexivity].
  apply Qeq_bool_eq in E. lra.
Qed.

(** X9. [calculate_slippage] compares the side with ["buy"] as it is
    written, where the walk lowers it first.  For a side such as ["BUY"] the
    walk consumes the asks and the slippage is computed by the formula of a
    sell: on a book with a positive spread and some ask notional it is
    negative, where the slippage of ["buy"] is positive. *)
Theorem slippage_side_case_mismatch (self : MarketImpactCalculator)
    (quantity : Q) (side : string) (best_ask qa best_bid qb : Q)
    (la lb : list level) :
  asks (orderbook self) = (best_ask, qa) :: la ->
  bids (orderbook self) = (best_bid, qb) :: lb ->
  ascending_by_price (asks (orderbook self)) ->
  Forall well_formed (asks (orderbook self)) ->
  0 < notional (asks (orderbook self)) ->
  0 < best_bid -> best_bid < best_ask ->
  0 < quantity ->
  lower side = "buy" -> side <> "buy" ->
  exists as_written lowered,
    calculate_slippage self quantity side = inr as_written
    /\ calculate_slippage self quantity "buy" = inr lowered
    /\ as_written < 0 /\ 0 < lowered.
Proof.
  intros Ea Eb Sa Wa Hn Hbb Hspread Hq Hlow Hneq.
  assert (Hna : asks (orderbook self) <> []) by (rewrite Ea; discriminate).
  assert (Hnb : bids (orderbook self) <> []) by (rewrite Eb; discriminate).
  destruct (Qhalf_strictly_between best_ask best_bid Hspread) as [Hm1 Hm2].
  set (mid := (best_ask + best_bid) / 2) in *.
  assert (Hmid : ~ mid == 0) by lra.
  assert (Ht : targeted_side (orderbook self) "buy" = asks (orderbook self))
    by reflexivity.
  assert (Hwf : Forall well_formed (targeted_side (orderbook self) "buy"))
    by (rewrite Ht; exact Wa).
  destruct (get_liquidity_cases (orderbook self) quantity "buy" best_ask 0
              Hna Hnb Hwf Hq) as (avg & ex & Hl & Hcases & Hpos).
  rewrite Ht in Hpos. specialize (Hpos Hn).
  destruct Hcases as [[_ Hz]|(_ & Havg & _ & L & _)]; [lra|].
  assert (Hbest : best_ask <= avg).
  { apply L. rewrite Ht, Ea. rewrite Ea in Sa.
    exact (ascending_head_lowest _ _ Sa). }
  assert (Havg0 : ~ avg == 0) by lra.
  assert (Hl' : get_liquidity_at_level (orderbook self) quantity side
                = inr (avg, ex)).
  { rewrite get_liquidity_lower_side, Hlow. exact Hl. }
  apply String.eqb_neq in Hneq.
  rewrite (calculate_slippage_two_sided _ _ _ _ _ _ _ _ _ _ _ Ea Eb Hl').
  rewrite (calculate_slippage_two_sided _ _ _ _ _ _ _ _ _ _ _ Ea Eb Hl).
  fold mid. rewrite Hneq, (Qeq_bool_pos _ Havg).
  cbn [String.eqb Ascii.eqb Bool.eqb].
  rewrite (pydiv_ok _ _ Hmid), (pydiv_ok _ _ Havg0).
  eexists _, _. split; [reflexivity|]. split; [reflexivity|].
  assert (mid / avg < 1) by (apply Qlt_shift_div_r; lra).
  assert (1 < avg / mid) by (apply Qlt_shift_div_l; lra).
  split; lra.
Qed.

End MoreCalculatorFacts.

Lemma Q2R_nonneg (x : Q) : 0 <= x -> (0 <= Q2R x)%R.
Proof. intro H. apply Qle_Rle in H. now rewrite RMicromega.Q2R_0 in H. Qed.

Lemma Q2R_pos (x : Q) : 0 < x -> (0 < Q2R x)%R.
Proof. intro H. apply Qlt_Rlt in H. now rewrite RMicromega.Q2R_0 in H. Qed.

Lemma sigma_of_pos (v : Q) : 0 < sigma_of v.
Proof. destruct (sigma_of_cases v) as [[H ->]|[_ ->]]; [exact H|reflexivity]. Qed.

Section MoreCostFacts.

Context {rt : PyRuntime}.

Lemma estimate_on_empty_side (self : MarketImpactCalculator) (quantity : Q) :
  asks (orderbook self) = [] \/ bids (orderbook self) = [] ->
  estimate_maker_taker_proportion self quantity = inr (0%R, 100%R).
Proof.
  unfold estimate_maker_taker_proportion. intros [H|H]; rewrite H.
  - reflexivity.
  - now destruct (asks (orderbook self)) as [|[? ?] ?].
Qed.

Lemma slippage_on_empty_side (self : MarketImpactCalculator) (quantity : Q)
    (side : string) :
  asks (orderbook self) = [] \/ bids (orderbook self) = [] ->
  calculate_slippage self quantity side = inr 0.
Proof.
  unfold calculate_slippage. intros [H|H]; rewrite H.
  - reflexivity.
  - now destruct (asks (orderbook self)) as [|[? ?] ?].
Qed.

(** X10. On a book with an empty side [get_liquidity_at_level] is not asked
    and the quantity divides nothing: [get_net_cost] returns for every
    quantity, 0 included, as soon as the market impact does, with slippage
    0, maker 0, taker 100, the fee at the taker rate of the tier and a net
    cost of fee plus impact; and it raises what the market impact raises. *)
Theorem net_cost_on_empty_side (self : MarketImpactCalculator)
    (quantity : Q) (fee_tier side : string) :
  asks (orderbook self) = [] \/ bids (orderbook self) = [] ->
  (forall e,
     calculate_market_impact self quantity side default_market_cap = inl e ->
     get_net_cost self quantity fee_tier side = inl e)
  /\ (forall impact,
        calculate_market_impact self quantity side default_market_cap
          = inr impact ->
        exists report,
          get_net_cost self quantity fee_tier side = inr report
          /\ slippage_pct report = 0%R
          /\ maker_pct report = 0%R /\ taker_pct report = 100%R
          /\ fee_pct report = (Q2R (taker (rates_of fee_tier)) * 100)%R
          /\ market_impact_pct report = impact
          /\ net_cost_pct report = (fee_pct report + impact)%R).
Proof.
  intro Hempty. unfold get_net_cost.
  rewrite (slippage_on_empty_side _ _ _ Hempty), calculate_fees_unfold,
    (estimate_on_empty_side _ _ Hempty).
  cbn [bind Monad_Res]. fold (rates_of fee_tier). split.
  - intros e He. now rewrite He.
  - intros impact Hi. rewrite Hi. cbn [bind Monad_Res ret].
    eexists. split; [reflexivity|].
    cbn [slippage_pct maker_pct taker_pct fee_pct market_impact_pct
         net_cost_pct].
    rewrite RMicromega.Q2R_0. repeat split; lra.
Qed.

Lemma calculate_fees_zero_quantity (self : MarketImpactCalculator)
    (quantity : Q) (fee_tier : string) :
  asks (orderbook self) <> [] -> bids (orderbook self) <> [] ->
  quantity == 0 ->
  estimate_maker_taker_proportion self quantity = inl ZeroDivisionError
  /\ calculate_fees self quantity fee_tier = inl ZeroDivisionError.
Proof.
  intros Ha Hb Hq.
  assert (He : estimate_maker_taker_proportion self quantity
               = inl ZeroDivisionError).
  { unfold estimate_maker_taker_proportion.
    destruct (asks (orderbook self)) as [|[ap aq] la]; [congruence|].
    destruct (bids (orderbook self)) as [|[bp bq] lb]; [congruence|].
    rewrite pydiv_zero by lra. reflexivity. }
  split; [exact He|]. rewrite calculate_fees_unfold, He. reflexivity.
Qed.

Lemma get_net_cost_zero_quantity (self : MarketImpactCalculator)
    (quantity : Q) (fee_tier side : string) :
  asks (orderbook self) <> [] -> bids (orderbook self) <> [] ->
  quantity == 0 ->
  get_net_cost self quantity fee_tier side = inl ZeroDivisionError.
Proof.
  intros Ha Hb Hq. unfold get_net_cost.
  rewrite calculate_slippage_nothing by lra.
  cbn [bind Monad_Res].
  now rewrite (proj2 (calculate_fees_zero_quantity _ _ fee_tier Ha Hb Hq)).
Qed.

(** X11. On a book with both sides a quantity of 0 makes [get_net_cost]
    raise [ZeroDivisionError]: the slippage is 0, and the maker and taker
    split then divides by twice the quantity. *)
Theorem net_cost_zero_quantity_raises (self : MarketImpactCalculator)
    (quantity : Q) (fee_tier side : string) :
  asks (orderbook self) <> [] -> bids (orderbook self) <> [] ->
  quantity == 0 ->
  calculate_slippage self quantity side = inr 0
  /\ estimate_maker_taker_proportion self quantity = inl ZeroDivisionError
  /\ calculate_fees self quantity fee_tier = inl ZeroDivisionError
  /\ get_net_cost self quantity fee_tier side = inl ZeroDivisionError.
Proof.
  intros Ha Hb Hq.
  destruct (calculate_fees_zero_quantity self quantity fee_tier Ha Hb Hq)
    as [He Hf].
  split; [apply calculate_slippage_nothing; lra|].
  split; [exact He|]. split; [exact Hf|].
  now apply get_net_cost_zero_quantity.
Qed.

(** X14. For two quantities [0 <= q1 <= q2] on one book whose daily volume
    estimate is positive, the impacts [calculate_market_impact] returns are
    in the same order, and neither is negative. *)
Theorem market_impact_grows_with_quantity (self : MarketImpactCalculator)
    (q1 q2 market_cap : Q) (side : string) (i1 i2 : R) :
  0 < daily_volume_of (orderbook self) market_cap ->
  0 <= q1 -> q1 <= q2 ->
  calculate_market_impact self q1 side market_cap = inr i1 ->
  calculate_market_impact self q2 side market_cap = inr i2 ->
  (0 <= i1 <= i2)%R.
Proof.
  intros Hd H1 H12.
  destruct (mid_price_history (orderbook self)) as [|m rest] eqn:Eh.
  { unfold calculate_market_impact. rewrite Eh. cbn [is_empty].
    intros E1 E2. inversion E1; inversion E2; subst. lra. }
  assert (Hne : mid_price_history (orderbook self) <> [])
    by (rewrite Eh; discriminate).
  assert (Hnz : ~ daily_volume_of (orderbook self) market_cap == 0) by lra.
  rewrite !(market_impact_value _ _ _ _ Hne Hnz).
  set (d := Q2R (daily_volume_of (orderbook self) market_cap)).
  assert (Hdpos : (0 < d)%R) by (apply Q2R_pos; exact Hd).
  pose proof (Q2R_pos _ (sigma_of_pos (volatility self))) as Hs.
  set (sg := Q2R (sigma_of (volatility self))) in *.
  assert (Ht : (0 < sqrt (1 / 86400))%R) by (apply sqrt_lt_R0; lra).
  set (tk := sqrt (1 / 86400)) in *.
  assert (R1 : (0 <= Q2R q1)%R) by now apply Q2R_nonneg.
  assert (R12 : (Q2R q1 <= Q2R q2)%R) by now apply Qle_Rle.
  assert (Hx12 : (Q2R q1 / d <= Q2R q2 / d)%R).
  { apply Rmult_le_compat_r; [|exact R12].
    apply Rlt_le, Rinv_0_lt_compat, Hdpos. }
  pose proof (sqrt_pos (Q2R q1 / d)) as S1.
  pose proof (sqrt_le_1_alt _ _ Hx12) as S12.
  assert (Hk : (0 < sg * tk)%R) by (apply Rmult_lt_0_compat; assumption).
  intros E1 E2. inversion E1; inversion E2; subst. split; nra.
Qed.

End MoreCostFacts.

(** * The simulator *)

Lemma max_from_spec (rest : list Q) (x : Q) :
  In (max_from x rest) (x :: rest)
  /\ Forall (fun t => t <= max_from x rest) (x :: rest).
Proof.
  unfold max_from. revert x. induction rest as [|y rest IH]; intro x.
  - cbn. split; [now left|]. constructor; [apply Qle_refl|constructor].
  - cbn [fold_left].
    destruct (Qlt_bool x y) eqn:E.
    + apply Qlt_bool_iff in E. destruct (IH y) as [Hin Hall].
      split; [now right|].
      inversion Hall as [|? ? Hy Hrest]; subst.
      constructor; [lra|]. now constructor.
    + apply Qlt_bool_false in E. destruct (IH x) as [Hin Hall].
      split.
      * destruct Hin as [Hin|Hin]; [now left|now right; right].
      * inversion Hall as [|? ? Hx Hrest]; subst.
        constructor; [exact Hx|]. constructor; [lra|exact Hrest].
Qed.

Lemma min_from_spec (rest : list Q) (x : Q) :
  In (min_from x rest) (x :: rest)
  /\ Forall (fun t => min_from x rest <= t) (x :: rest).
Proof.
  unfold min_from. revert x. induction rest as [|y rest IH]; intro x.
  - cbn. split; [now left|]. constructor; [apply Qle_refl|constructor].
  - cbn [fold_left].
    destruct (Qlt_bool y x) eqn:E.
    + apply Qlt_bool_iff in E. destruct (IH y) as [Hin Hall].
      split; [now right|].
      inversion Hall as [|? ? Hy Hrest]; subst.
      constructor; [lra|]. now constructor.
    + apply Qlt_bool_false in E. destruct (IH x) as [Hin Hall].
      split.
      * destruct Hin as [Hin|Hin]; [now left|now right; right].
      * inversion Hall as [|? ? Hx Hrest]; subst.
        constructor; [exact Hx|]. constructor; [lra|exact Hrest].
Qed.

Section SimulatorFacts.

Context {rt : PyRuntime}.

(** A message whose [update] raises: the exception leaves [process_message]
    at once, with the book as [update] left it. *)
Lemma process_message_raises (data : Snapshot) (start_time now end_time : Q)
    (self : TradeSimulator) (e : exn) :
  fst (update data now (ts_orderbook self)) = inl e ->
  process_message data start_time now end_time self
  = (inl e, set_orderbook (snd (update data now (ts_orderbook self))) self).
Proof.
  intro H. unfold process_message, on_orderbook. cbn [bind Monad_Py].
  destruct (update data now (ts_orderbook self)) as [r ob]. cbn in H.
  now subst r.
Qed.

(** A message whose [update] returns, on a window of at most 100 entries. *)
Lemma process_message_returns (data : Snapshot) (start_time now end_time : Q)
    (self : TradeSimulator) :
  fst (update data now (ts_orderbook self)) = inr tt ->
  process_message data start_time now end_time self
  = (inr tt,
     set_process_times
       (let times :=
          ts_process_times self ++ [(end_time - start_time) * 1000] in
        if (100 <? List.length times)%nat then lastn 100 times else times)
       (set_calculator_volatility (ts_volatility self)
          (set_orderbook (snd (update data now (ts_orderbook self))) self))).
Proof.
  intro H. unfold process_message, on_orderbook, get, modify.
  cbn [bind Monad_Py ret].
  destruct (update data now (ts_orderbook self)) as [r ob]. cbn in H.
  subst r. cbn -[lastn Nat.ltb].
  destruct (100 <? _)%nat; reflexivity.
Qed.

Lemma window_step (l : list Q) (t : Q) :
  (List.length l <= 100)%nat ->
  (if (100 <? List.length (l ++ [t]))%nat then lastn 100 (l ++ [t])
   else l ++ [t]) = lastn 100 (l ++ [t]).
Proof.
  intro H. destruct (100 <? _)%nat eqn:E; [reflexivity|].
  apply Nat.ltb_ge in E. symmetry. now apply lastn_all.
Qed.

Lemma handle_apply_frame (values : ApplyValues) (self : TradeSimulator) :
  ts_orderbook (handle_apply values self) = ts_orderbook self
  /\ ts_process_times (handle_apply values self) = ts_process_times self
  /\ ts_calculator_volatility (handle_apply values self)
     = ts_calculator_volatility self
  /\ ts_last_tick_time (handle_apply values self) = ts_last_tick_time self.
Proof.
  unfold handle_apply, apply_values, lift, modify. cbn [bind Monad_Py].
  destruct (float_of_str (v_quantity values)); cbn; [|now repeat split].
  destruct (float_of_str (v_volatility values)); cbn; now repeat split.
Qed.

Lemma receive_one_window (start_time now end_time : Q) (ev : received)
    (self : TradeSimulator) :
  (List.length (ts_process_times self) <= 100)%nat ->
  (List.length
     (ts_process_times (snd (receive_one start_time now end_time ev self)))
   <= 100)%nat.
Proof.
  intro H. unfold receive_one. destruct ev as [| |data]; cbn [snd]; try exact H.
  destruct (fst (update data now
                   (ts_orderbook (set_last_tick_time start_time self))))
    as [e|[]] eqn:E.
  - rewrite (process_message_raises _ _ _ _ _ _ E). exact H.
  - rewrite (process_message_returns _ _ _ _ _ E). cbn [snd].
    cbn [ts_process_times set_process_times set_last_tick_time].
    rewrite (window_step _ _ H), lastn_length. lia.
Qed.

(** X15. In every simulator a run goes through, the latency window holds at
    most 100 entries and the book is one that [__init__] and calls of
    [update] produce.  A message that [update] accepts appends its
    processing time in milliseconds, the window keeping the latest 100
    entries in order, and hands the simulator's volatility to the
    calculator. *)
Theorem simulator_window_and_book (self : TradeSimulator) :
  sim_reachable self ->
  (List.length (ts_process_times self) <= 100)%nat
  /\ reachable (ts_orderbook self)
  /\ forall start_time now end_time data,
       fst (update data now (ts_orderbook self)) = inr tt ->
       kept_latest 100
         (ts_process_times self ++ [(end_time - start_time) * 1000])
         (ts_process_times
            (snd (receive_one start_time now end_time (Message data) self)))
       /\ ts_calculator_volatility
            (snd (receive_one start_time now end_time (Message data) self))
          = ts_volatility self
       /\ ts_orderbook
            (snd (receive_one start_time now end_time (Message data) self))
          = snd (update data now (ts_orderbook self)).
Proof.
  intro Hr.
  assert (Hinv : (List.length (ts_process_times self) <= 100)%nat
                 /\ reachable (ts_orderbook self)).
  { induction Hr as [t0 t1|self st nw et ev _ [IH1 IH2]|self values _ [IH1 IH2]].
    - split; [cbn; lia|apply reachable_init].
    - split; [now apply receive_one_window|].
      unfold receive_one. destruct ev as [| |data]; cbn [snd]; try exact IH2.
      destruct (fst (update data nw
                       (ts_orderbook (set_last_tick_time st self))))
        as [e|[]] eqn:E.
      + rewrite (process_message_raises _ _ _ _ _ _ E). cbn.
        now apply reachable_update.
      + rewrite (process_message_returns _ _ _ _ _ E). cbn.
        now apply reachable_update.
    - destruct (handle_apply_frame values self) as (-> & -> & _). now split. }
  destruct Hinv as [Hlen Hbook]. split; [exact Hlen|]. split; [exact Hbook|].
  intros start_time now end_time data Hok. unfold receive_one. cbn [snd].
  assert (Hok' : fst (update data now
                        (ts_orderbook (set_last_tick_time start_time self)))
                 = inr tt) by exact Hok.
  rewrite (process_message_returns _ _ _ _ _ Hok'). cbn [snd].
  cbn [ts_process_times ts_calculator_volatility ts_orderbook ts_volatility
       set_process_times set_calculator_volatility set_orderbook
       set_last_tick_time].
  rewrite (window_step _ _ Hlen).
  split; [apply kept_latest_lastn|]. split; reflexivity.
Qed.

(** X16. A message whose [update] raises is dropped and the loop goes on:
    no processing time is recorded for it and the calculator keeps the
    volatility it had, while the book stays as [update] left it and the tick
    time is the start of the turn. *)
Theorem failed_message_is_not_timed (self : TradeSimulator)
    (start_time now end_time : Q) (data : Snapshot) (e : exn) :
  fst (update data now (ts_orderbook self)) = inl e ->
  fst (receive_one start_time now end_time (Message data) self) = Continue
  /\ ts_process_times
       (snd (receive_one start_time now end_time (Message data) self))
     = ts_process_times self
  /\ ts_calculator_volatility
       (snd (receive_one start_time now end_time (Message data) self))
     = ts_calculator_volatility self
  /\ ts_orderbook
       (snd (receive_one start_time now end_time (Message data) self))
     = snd (update data now (ts_orderbook self))
  /\ ts_last_tick_time
       (snd (receive_one start_time now end_time (Message data) self))
     = start_time.
Proof.
  intro H. unfold receive_one. cbn [fst snd].
  assert (H' : fst (update data now
                      (ts_orderbook (set_last_tick_time start_time self)))
               = inl e) by exact H.
  rewrite (process_message_raises _ _ _ _ _ _ H'). now repeat split.
Qed.

(** X17. [get_performance_metrics] never raises.  On an empty window the
    three figures are 0; otherwise the minimum and the maximum are entries
    of the window, and every entry lies between them. *)
Theorem performance_metrics_ordered (self : TradeSimulator) :
  exists p,
    get_performance_metrics self = inr p
    /\ (ts_process_times self = [] ->
        avg_latency p = 0 /\ max_latency p = 0 /\ min_latency p = 0)
    /\ (ts_process_times self <> [] ->
        In (min_latency p) (ts_process_times self)
        /\ In (max_latency p) (ts_process_times self)
        /\ Forall (fun t => min_latency p <= t /\ t <= max_latency p)
                  (ts_process_times self)
        /\ min_latency p <= max_latency p).
Proof.
  unfold get_performance_metrics.
  destruct (ts_process_times self) as [|x rest] eqn:E.
  - eexists. split; [reflexivity|]. split; [now repeat split|congruence].
  - set (n := inject_Z (Z.of_nat (List.length (x :: rest)))).
    assert (Hn : 0 < n).
    { subst n. cbn [List.length]. rewrite Nat2Z.inj_succ.
      unfold Qlt. cbn. lia. }
    assert (Hn0 : ~ n == 0) by lra.
    rewrite (pydiv_ok _ _ Hn0). cbn [bind Monad_Res ret].
    eexists. split; [reflexivity|]. split; [discriminate|]. intros _.
    cbn [avg_latency max_latency min_latency].
    destruct (max_from_spec rest x) as [Hmax_in Hmax].
    destruct (min_from_spec rest x) as [Hmin_in Hmin].
    assert (Hall : Forall (fun t => min_from x rest <= t
                                    /\ t <= max_from x rest) (x :: rest)).
    { rewrite Forall_forall in *. intros t Ht. split; auto. }
    split; [exact Hmin_in|]. split; [exact Hmax_in|]. split; [exact Hall|].
    inversion Hall as [|? ? [Hlo Hhi] _]; subst. lra.
Qed.


(** X19. The volatility entered with [-APPLY-], a percentage, is stored
    divided by 100, but the calculator goes on with the volatility it had:
    the market impact is the same before and after [-APPLY-].  The new
    volatility reaches the calculator with the next message that [update]
    accepts. *)
Theorem applied_volatility_waits_for_a_message (values : ApplyValues)
    (self : TradeSimulator) (q v : Q) :
  float_of_str (v_quantity values) = Some q ->
  float_of_str (v_volatility values) = Some v ->
  let applied := handle_apply values self in
  ts_quantity applied = q
  /\ ts_volatility applied = v / 100
  /\ ts_fee_tier applied = v_fee_tier values
  /\ (forall quantity side market_cap,
        calculate_market_impact (market_impact_calculator applied)
          quantity side market_cap
        = calculate_market_impact (market_impact_calculator self)
            quantity side market_cap)
  /\ (forall start_time now end_time data,
        fst (update data now (ts_orderbook self)) = inr tt ->
        ts_calculator_volatility
          (snd (receive_one start_time now end_time (Message data) applied))
        = v / 100).
Proof.
  intros Hq Hv applied.
  assert (Happ : applied
                 = set_order_type (v_order_type values)
                     (set_fee_tier (v_fee_tier values)
                        (set_volatility (v / 100) (set_quantity q self)))).
  { subst applied. unfold handle_apply, apply_values, lift, modify.
    cbn [bind Monad_Py]. rewrite Hq. cbn. rewrite Hv. reflexivity. }
  rewrite Happ.
  split; [reflexivity|]. split; [reflexivity|]. split; [reflexivity|].
  split; [reflexivity|].
  intros start_time now end_time data Hok. unfold receive_one. cbn [snd].
  rewrite process_message_returns by exact Hok. reflexivity.
Qed.

(** X20. After an [-APPLY-] that enters a quantity of 0, the results of a
    simulator whose book has both sides cannot be computed:
    [get_simulation_results] raises [ZeroDivisionError]. *)
Theorem zero_quantity_breaks_results (values : ApplyValues)
    (self : TradeSimulator) (q : Q) :
  float_of_str (v_quantity values) = Some q -> q == 0 ->
  asks (ts_orderbook self) <> [] -> bids (ts_orderbook self) <> [] ->
  ts_quantity (handle_apply values self) = q
  /\ get_simulation_results (handle_apply values self)
     = inl ZeroDivisionError.
Proof.
  intros Hq Hz Ha Hb.
  destruct (handle_apply_frame values self) as (Hbook & _).
  assert (Hqty : ts_quantity (handle_apply values self) = q).
  { unfold handle_apply, apply_values, lift, modify.
    cbn [bind Monad_Py]. rewrite Hq. cbn.
    destruct (float_of_str (v_volatility values)); reflexivity. }
  split; [exact Hqty|].
  unfold get_simulation_results. rewrite Hqty.
  rewrite get_net_cost_zero_quantity; try assumption; try reflexivity.
  - cbn [orderbook market_impact_calculator]. now rewrite Hbook.
  - cbn [orderbook market_impact_calculator]. now rewrite Hbook.
Qed.

End SimulatorFacts.
(** * update on every input *)

(** ** The order of floats *)

Lemma fle_of_not_flt (x y : pyfloat) :
  x <> NaN -> y <> NaN -> flt y x = false -> fle x y = true.
Proof.
  destruct x as [a| | |], y as [b| | |]; cbn; try congruence.
  intros _ _ H. apply Qlt_bool_false in H. now apply Qle_bool_iff.
Qed.

Lemma fle_of_flt (x y : pyfloat) : flt x y = true -> fle x y = true.
Proof.
  destruct x as [a| | |], y as [b| | |]; cbn; try congruence.
  intro H. apply Qlt_bool_iff in H. apply Qle_bool_iff. now apply Qlt_le_weak.
Qed.

Lemma fle_trans (x y z : pyfloat) :
  fle x y = true -> fle y z = true -> fle x z = true.
Proof.
  destruct x as [a| | |], y as [b| | |], z as [c| | |]; cbn; try congruence.
  intros H1 H2. apply Qle_bool_iff in H1, H2. apply Qle_bool_iff.
  eapply Qle_trans; eassumption.
Qed.

(** NaN is in order with nothing, itself included. *)
Lemma fle_nan (x : pyfloat) : fle NaN x = false /\ fle x NaN = false.
Proof. now destruct x. Qed.

(** ** The sort on floats *)

Section JsonSorting.

Variable before : Json.level -> Json.level -> bool.
Variable rel : Json.level -> Json.level -> Prop.
Variable ok : Json.level -> Prop.
Hypothesis before_rel :
  forall x y, ok x -> ok y -> before x y = true -> rel x y.
Hypothesis before_total :
  forall x y, ok x -> ok y -> before x y = false -> rel y x.
Hypothesis rel_trans : forall x y z, rel x y -> rel y z -> rel x z.

Lemma json_insert_level_perm (x : Json.level) (l : list Json.level) :
  Permutation (x :: l) (Json.insert_level before x l).
Proof.
  induction l as [|y l IH]; simpl.
  - apply Permutation_refl.
  - destruct (before x y).
    + apply Permutation_refl.
    + eapply perm_trans; [apply perm_swap|]. now apply perm_skip.
Qed.

Lemma json_sort_levels_perm (l : list Json.level) :
  Permutation l (Json.sort_levels before l).
Proof.
  induction l as [|x l IH]; simpl.
  - apply perm_nil.
  - eapply perm_trans; [|apply json_insert_level_perm]. now apply perm_skip.
Qed.

Lemma json_sort_levels_length (l : list Json.level) :
  List.length (Json.sort_levels before l) = List.length l.
Proof. symmetry. apply Permutation_length, json_sort_levels_perm. Qed.

Lemma json_insert_level_sorted (x : Json.level) (l : list Json.level) :
  ok x -> Forall ok l ->
  StronglySorted rel l -> StronglySorted rel (Json.insert_level before x l).
Proof.
  intros Hx Hl Hs. induction Hs as [|y l Hs IH Hy]; simpl.
  - constructor; constructor.
  - inversion Hl as [|? ? Hoy Hol]; subst.
    destruct (before x y) eqn:E.
    + constructor.
      * now constructor.
      * constructor; [now apply before_rel|].
        eapply Forall_impl; [|exact Hy].
        intros z Hz. eapply rel_trans; [apply before_rel; eassumption|exact Hz].
    + constructor; [now apply IH|].
      eapply Permutation_Forall; [apply json_insert_level_perm|].
      constructor; [now apply before_total | exact Hy].
Qed.

Lemma json_sort_levels_sorted (l : list Json.level) :
  Forall ok l -> StronglySorted rel (Json.sort_levels before l).
Proof.
  induction 1 as [|x l Hx Hl IH]; simpl.
  - constructor.
  - apply json_insert_level_sorted; [exact Hx| |exact IH].
    eapply Permutation_Forall; [apply json_sort_levels_perm|exact Hl].
Qed.

End JsonSorting.

Lemma json_sort_asks_ascending (l : list Json.level) :
  Json.no_nan_price l ->
  Json.ascending_by_price (Json.sort_levels Json.price_le l).
Proof.
  apply json_sort_levels_sorted.
  - intros x y Hx Hy H. unfold Json.price_le in H.
    apply negb_true_iff in H. now apply fle_of_not_flt.
  - intros x y Hx Hy H. unfold Json.price_le in H.
    apply negb_false_iff in H. now apply fle_of_flt.
  - intros x y z. apply fle_trans.
Qed.

Lemma json_sort_bids_descending (l : list Json.level) :
  Json.no_nan_price l ->
  Json.descending_by_price (Json.sort_levels Json.price_ge l).
Proof.
  apply json_sort_levels_sorted.
  - intros x y Hx Hy H. unfold Json.price_ge in H.
    apply negb_true_iff in H. now apply fle_of_not_flt.
  - intros x y Hx Hy H. unfold Json.price_ge in H.
    apply negb_false_iff in H. now apply fle_of_flt.
  - intros x y z H1 H2. eapply fle_trans; eassumption.
Qed.

(** A side that holds a NaN price and another level is in no order by
    price, however its levels are arranged. *)
Lemma nan_price_never_ascending (l : list Json.level) (q : pyfloat)
    (other : Json.level) :
  In (NaN, q) l -> In other l -> other <> (NaN, q) ->
  ~ Json.ascending_by_price l /\ ~ Json.descending_by_price l.
Proof.
  intros Hn Ho Hne.
  assert (Hgen : forall rel : Json.level -> Json.level -> Prop,
            (forall x, ~ rel (NaN, q) x) -> (forall x, ~ rel x (NaN, q)) ->
            ~ StronglySorted rel l).
  { intros rel Hl Hr Hs. induction Hs as [|y l Hs IH Hy].
    - contradiction.
    - rewrite Forall_forall in Hy.
      destruct Hn as [Hn|Hn], Ho as [Ho|Ho].
      + congruence.
      + subst y. apply (Hl other). now apply Hy.
      + subst y. apply (Hr other). now apply Hy.
      + now apply IH. }
  split; apply Hgen; intros x H; cbn in H;
    destruct (fle_nan (fst x)); congruence.
Qed.

(** ** update *)

Section JsonUpdateFacts.

Context {rt : Json.Runtime}.

(** The monadic [update] and its outcome spelled out agree on every
    input. *)
Lemma json_update_unfold (data : json) (now : Q) (st : Json.OrderBook) :
  Json.update data now st = Json.update_outcome data now st.
Proof.
  unfold Json.update, Json.update_outcome, Json.read_timestamp, lift, get,
    modify.
  cbn [bind Monad_Py Monad_Res].
  destruct (Json.subscript data "timestamp") as [e|raw_ts]; [reflexivity|].
  destruct (Json.replace_Z raw_ts) as [e|iso]; [reflexivity|].
  destruct (parse (fromisoformat iso)) as [e|ts]; [reflexivity|].
  destruct (Json.subscript data "symbol") as [e|sym]; [reflexivity|].
  destruct (Json.subscript data "exchange") as [e|exch]; [reflexivity|].
  destruct (Json.read_levels data "asks") as [e|pa]; [reflexivity|].
  destruct (Json.read_levels data "bids") as [e|pb]; reflexivity.
Qed.

Lemma json_record_history_book (now : Q) (st : Json.OrderBook) :
  Json.asks (Json.record_history now st) = Json.asks st
  /\ Json.bids (Json.record_history now st) = Json.bids st
  /\ Json.timestamp (Json.record_history now st) = Json.timestamp st
  /\ Json.symbol (Json.record_history now st) = Json.symbol st
  /\ Json.exchange (Json.record_history now st) = Json.exchange st
  /\ Json.last_update_time (Json.record_history now st)
     = Json.last_update_time st.
Proof.
  unfold Json.record_history.
  destruct (Json.asks st) as [|[best_ask ?] ?] eqn:Ea; [now rewrite Ea|].
  destruct (Json.bids st) as [|[best_bid ?] ?] eqn:Eb; [now rewrite Ea, Eb|].
  cbv zeta. destruct (max_history <? _)%nat; cbn; now rewrite Ea, Eb.
Qed.

(** *** What the statements of [update] raise *)

Lemma json_subscript_error (data : json) (key : string) (e : exn) :
  Json.subscript data key = inl e -> e = KeyError \/ e = TypeError.
Proof.
  destruct data; cbn;
    try (destruct (dict_find members key); cbn);
    intro H; inversion H; auto.
Qed.

Lemma json_read_timestamp_error (data : json) (e : exn) :
  Json.read_timestamp data = inl e -> In e Json.rejections.
Proof.
  unfold Json.read_timestamp, Json.rejections.
  destruct (Json.subscript data "timestamp") as [e'|v] eqn:E;
    cbn [bind Monad_Res].
  { intro H; inversion H; subst.
    destruct (json_subscript_error _ _ _ E) as [-> | ->]; cbn; auto. }
  destruct v; cbn; try (destruct (fromisoformat _); cbn);
    intro H; inversion H; subst; auto 6.
Qed.

Lemma json_unpack_pair_error (v : json) (e : exn) :
  Json.unpack_pair v = inl e -> e = ValueError \/ e = TypeError.
Proof.
  unfold Json.unpack_pair. intro H.
  repeat match type of H with
  | (match ?x with _ => _ end) = _ => destruct x
  | (let (_, _) := ?x in _) = _ => destruct x
  end; inversion H; auto.
Qed.

Lemma json_float_of_json_error (v : json) (e : exn) :
  Json.float_of_json v = inl e ->
  e = ValueError \/ e = TypeError \/ e = OverflowError.
Proof.
  destruct v; cbn.
  - intro H; inversion H; auto.
  - discriminate.
  - destruct (_ <? _)%Z; intro H; inversion H; auto.
  - discriminate.
  - destruct (float_of_str s); [discriminate|].
    destruct (Json.float_nonfinite s); cbn; intro H; inversion H; auto.
  - intro H; inversion H; auto.
  - intro H; inversion H; auto.
Qed.

Lemma json_float_levels_error (raw : list json) (e : exn) :
  Json.float_levels raw = inl e ->
  e = ValueError \/ e = TypeError \/ e = OverflowError.
Proof.
  induction raw as [|v raw IH]; cbn [Json.float_levels]; [discriminate|].
  destruct (Json.unpack_pair v) as [e1|[price qty]] eqn:Eu;
    cbn [bind Monad_Res].
  { intro H; inversion H; subst.
    destruct (json_unpack_pair_error _ _ Eu); auto. }
  destruct (Json.float_of_json price) as [e1|p] eqn:Ep; cbn [bind Monad_Res].
  { intro H; inversion H; subst. now apply json_float_of_json_error in Ep. }
  destruct (Json.float_of_json qty) as [e1|q] eqn:Eq; cbn [bind Monad_Res].
  { intro H; inversion H; subst. now apply json_float_of_json_error in Eq. }
  destruct (Json.float_levels raw) as [e1|ls]; cbn [bind Monad_Res ret].
  - intro H; inversion H; subst. now apply IH.
  - discriminate.
Qed.

Lemma json_first_levels_error (v : json) (e : exn) :
  Json.first_levels v = inl e -> e = TypeError.
Proof. destruct v; cbn; intro H; now inversion H. Qed.

Lemma json_read_levels_error (data : json) (key : string) (e : exn) :
  Json.read_levels data key = inl e -> In e Json.rejections.
Proof.
  unfold Json.read_levels, Json.rejections.
  destruct (Json.subscript data key) as [e1|raw] eqn:Es; cbn [bind Monad_Res].
  { intro H; inversion H; subst.
    destruct (json_subscript_error _ _ _ Es) as [-> | ->]; cbn; auto. }
  destruct (Json.first_levels raw) as [e1|kept] eqn:Ef; cbn [bind Monad_Res].
  { intro H; inversion H; subst.
    rewrite (json_first_levels_error _ _ Ef). cbn; auto. }
  intro H. destruct (json_float_levels_error _ _ H) as [-> |[-> | ->]];
    cbn; auto 6.
Qed.

(** *** How many levels are kept *)

Lemma json_float_levels_length (raw : list json) (ls : list Json.level) :
  Json.float_levels raw = inr ls -> List.length ls = List.length raw.
Proof.
  revert ls. induction raw as [|v raw IH]; cbn [Json.float_levels];
    intros ls H.
  - now inversion H.
  - destruct (Json.unpack_pair v) as [e|[price qty]]; [discriminate|].
    cbn [bind Monad_Res] in H.
    destruct (Json.float_of_json price); [discriminate|].
    cbn [bind Monad_Res] in H.
    destruct (Json.float_of_json qty); [discriminate|].
    cbn [bind Monad_Res] in H.
    destruct (Json.float_levels raw) as [e|ls'] eqn:E; [discriminate|].
    cbn [bind Monad_Res ret] in H.
    inversion H; subst. cbn [List.length]. f_equal. now apply IH.
Qed.

Lemma json_first_levels_length (v : json) (kept : list json) :
  Json.first_levels v = inr kept -> (List.length kept <= 50)%nat.
Proof.
  destruct v; try discriminate; unfold Json.first_levels;
    cbn [ret Monad_Res]; remember (firstn _ _) as k eqn:Ek;
    intro H; injection H as <-;
    rewrite ?length_map, Ek, length_firstn; unfold MAX_ORDERBOOK_LEVELS; lia.
Qed.

Lemma json_read_levels_length (data : json) (key : string)
    (ls : list Json.level) :
  Json.read_levels data key = inr ls -> (List.length ls <= 50)%nat.
Proof.
  unfold Json.read_levels.
  destruct (Json.subscript data key) as [e|raw]; [discriminate|].
  cbn [bind Monad_Res].
  destruct (Json.first_levels raw) as [e|kept] eqn:Ef; [discriminate|].
  cbn [bind Monad_Res]. intro H.
  apply json_float_levels_length in H. apply json_first_levels_length in Ef.
  lia.
Qed.

(** *** What a call leaves *)

(** A call that returns has read the five fields, and the store it leaves
    is determined by them. *)
Lemma json_update_returns (data : json) (now : Q)
    (st st' : Json.OrderBook) :
  Json.update data now st = (inr tt, st') ->
  exists ts sym exch new_asks new_bids,
    Json.read_timestamp data = inr ts
    /\ Json.subscript data "symbol" = inr sym
    /\ Json.subscript data "exchange" = inr exch
    /\ Json.read_levels data "asks" = inr new_asks
    /\ Json.read_levels data "bids" = inr new_bids
    /\ st' = Json.record_history now
               (Json.set_last_update_time now
                  (Json.set_bids (Json.sort_levels Json.price_ge new_bids)
                     (Json.set_asks (Json.sort_levels Json.price_le new_asks)
                        (Json.set_bids new_bids
                           (Json.set_asks new_asks
                              (Json.set_exchange exch
                                 (Json.set_symbol sym
                                    (Json.set_timestamp (Some ts) st)))))))).
Proof.
  rewrite json_update_unfold. unfold Json.update_outcome.
  destruct (Json.read_timestamp data) as [e|ts]; [discriminate|].
  destruct (Json.subscript data "symbol") as [e|sym]; [discriminate|].
  destruct (Json.subscript data "exchange") as [e|exch]; [discriminate|].
  destruct (Json.read_levels data "asks") as [e|pa]; [discriminate|].
  destruct (Json.read_levels data "bids") as [e|pb]; [discriminate|].
  intro H. inversion H; subst.
  exists ts, sym, exch, pa, pb. now repeat split.
Qed.

(** A call that raises: the exception is one of five, and the bids, the
    clock reading and the series are those of before. *)
Lemma json_update_raises (data : json) (now : Q) (st st' : Json.OrderBook)
    (e : exn) :
  Json.update data now st = (inl e, st') ->
  In e Json.rejections
  /\ Json.bids st' = Json.bids st
  /\ Json.last_update_time st' = Json.last_update_time st
  /\ Json.histories st' = Json.histories st.
Proof.
  rewrite json_update_unfold. unfold Json.update_outcome.
  destruct (Json.read_timestamp data) as [e1|ts] eqn:Et.
  { intro H; inversion H; subst.
    split; [now apply json_read_timestamp_error in Et|now repeat split]. }
  destruct (Json.subscript data "symbol") as [e1|sym] eqn:Es.
  { intro H; inversion H; subst.
    split; [|now repeat split].
    destruct (json_subscript_error _ _ _ Es) as [-> | ->]; cbn; auto. }
  destruct (Json.subscript data "exchange") as [e1|exch] eqn:Ee.
  { intro H; inversion H; subst.
    split; [|now repeat split].
    destruct (json_subscript_error _ _ _ Ee) as [-> | ->]; cbn; auto. }
  destruct (Json.read_levels data "asks") as [e1|pa] eqn:Ea.
  { intro H; inversion H; subst.
    split; [now apply json_read_levels_error in Ea|now repeat split]. }
  destruct (Json.read_levels data "bids") as [e1|pb] eqn:Eb.
  { intro H; inversion H; subst.
    split; [now apply json_read_levels_error in Eb|now repeat split]. }
  discriminate.
Qed.

(** *** The malformed snapshots *)

Lemma json_malformed_timestamp_raises (data : json) :
  Json.malformed_timestamp data ->
  exists e, Json.read_timestamp data = inl e.
Proof.
  intros (v & Hv & Hbad). unfold Json.read_timestamp. rewrite Hv.
  cbn [bind Monad_Res].
  destruct v; cbn; try (now eexists).
  rewrite Hbad. now eexists.
Qed.

Lemma json_timestamp_reads (data : json) (ts : datetime) :
  Json.timestamp_reads data ts -> Json.read_timestamp data = inr ts.
Proof.
  intros (s & Hs & Hp). unfold Json.read_timestamp. rewrite Hs.
  cbn. now rewrite Hp.
Qed.

Lemma json_missing_raises (data : json) (key : string) :
  Json.missing data key -> Json.subscript data key = inl KeyError.
Proof. intros (members & -> & H). cbn. now rewrite H. Qed.

Lemma json_non_numeric_raises (kept : list json) :
  Exists Json.non_numeric kept -> exists e, Json.float_levels kept = inl e.
Proof.
  induction 1 as [v kept H|v kept H IH]; cbn [Json.float_levels];
    unfold Json.non_numeric in *.
  - destruct (Json.unpack_pair v) as [e|[price qty]]; [now eexists|].
    cbn [bind Monad_Res].
    destruct H as [[e H]|[e H]]; rewrite H.
    + now eexists.
    + destruct (Json.float_of_json price); now eexists.
  - destruct (Json.unpack_pair v) as [e|[price qty]]; [now eexists|].
    cbn [bind Monad_Res].
    destruct (Json.float_of_json price); [now eexists|].
    cbn [bind Monad_Res].
    destruct (Json.float_of_json qty); [now eexists|].
    cbn [bind Monad_Res].
    destruct IH as [e ->]. now eexists.
Qed.

Lemma json_non_numeric_side_raises (data : json) (key : string) :
  Json.non_numeric_side data key ->
  exists e, Json.read_levels data key = inl e.
Proof.
  intros (raw & kept & Hr & Hk & Hex). unfold Json.read_levels.
  rewrite Hr. cbn [bind Monad_Res]. rewrite Hk. cbn [bind Monad_Res].
  now apply json_non_numeric_raises.
Qed.

(** A malformed snapshot is not accepted. *)
Lemma json_malformed_not_accepted (data : json) (now : Q)
    (st st' : Json.OrderBook) :
  Json.malformed_snapshot data ->
  Json.update data now st <> (inr tt, st').
Proof.
  intros Hbad H. apply json_update_returns in H.
  destruct H as (ts & sym & exch & pa & pb & Ht & Hs & He & Ha & Hb & _).
  destruct Hbad as [H|[H|[H|[H|H]]]].
  - apply json_malformed_timestamp_raises in H. destruct H as [e H].
    congruence.
  - apply json_missing_raises in H. congruence.
  - apply json_missing_raises in H. congruence.
  - apply json_non_numeric_side_raises in H. destruct H as [e H]. congruence.
  - apply json_non_numeric_side_raises in H. destruct H as [e H]. congruence.
Qed.

(** C1, as the code has it.  A snapshot with a malformed timestamp, without
    symbol or exchange, or with a level that is not a pair of numbers among
    the first 50 of a side makes [update] raise [KeyError], [ValueError],
    [TypeError], [AttributeError] or [OverflowError].  The bids, the time of
    the last update and the four series are then those of before, and so is
    the whole state when the timestamp is the malformed field.  The fields
    assigned before the statement that raised are not restored: without
    symbol the state is left with the new timestamp, without exchange with
    the new timestamp and symbol, with a bad ask with the new timestamp,
    symbol and exchange, and with a bad bid with the new asks as well, as
    they were parsed. *)
Theorem json_update_rejects_malformed (data : json) (now : Q)
    (st : Json.OrderBook) :
  Json.malformed_snapshot data ->
  exists e st',
    Json.update data now st = (inl e, st')
    /\ In e Json.rejections
    /\ Json.bids st' = Json.bids st
    /\ Json.last_update_time st' = Json.last_update_time st
    /\ Json.histories st' = Json.histories st
    /\ (Json.malformed_timestamp data -> st' = st)
    /\ (forall ts, Json.timestamp_reads data ts ->
        let st1 := Json.set_timestamp (Some ts) st in
        (Json.missing data "symbol" -> e = KeyError /\ st' = st1)
        /\ forall sym, Json.subscript data "symbol" = inr sym ->
           let st2 := Json.set_symbol sym st1 in
           (Json.missing data "exchange" -> e = KeyError /\ st' = st2)
           /\ forall exch, Json.subscript data "exchange" = inr exch ->
              let st3 := Json.set_exchange exch st2 in
              (Json.non_numeric_side data "asks" -> st' = st3)
              /\ forall new_asks,
                 Json.read_levels data "asks" = inr new_asks ->
                 Json.non_numeric_side data "bids" ->
                 st' = Json.set_asks new_asks st3).
Proof.
  intro Hbad.
  destruct (Json.update data now st) as [[e|[]] st'] eqn:E.
  2:{ exfalso. exact (json_malformed_not_accepted _ _ _ _ Hbad E). }
  exists e, st'.
  pose proof (json_update_raises _ _ _ _ _ E) as (He & Hb & Ht & Hh).
  repeat (split; [assumption || reflexivity|]).
  rewrite json_update_unfold in E. unfold Json.update_outcome in E.
  split.
  { intro H. apply json_malformed_timestamp_raises in H. destruct H as [e' H].
    rewrite H in E. now inversion E. }
  intros ts Hts. apply json_timestamp_reads in Hts. rewrite Hts in E.
  cbv zeta. split.
  { intro H. apply json_missing_raises in H. rewrite H in E.
    now inversion E. }
  intros sym Hsym. rewrite Hsym in E. split.
  { intro H. apply json_missing_raises in H. rewrite H in E.
    now inversion E. }
  intros exch Hexch. rewrite Hexch in E. split.
  { intro H. apply json_non_numeric_side_raises in H. destruct H as [e' H].
    rewrite H in E. now inversion E. }
  intros new_asks Hasks H. rewrite Hasks in E.
  apply json_non_numeric_side_raises in H. destruct H as [e' H].
  rewrite H in E. now inversion E.
Qed.

(** C5, as the code has it.  A call of [update] that returns leaves at most
    50 levels on each side; the asks are non-decreasing by price when no ask
    kept has a NaN price, and the bids non-increasing when no bid kept has
    one, whatever the order the levels of the snapshot came in. *)
Theorem json_update_sorts_without_nan (data : json) (now : Q)
    (st st' : Json.OrderBook) :
  Json.update data now st = (inr tt, st') ->
  (List.length (Json.asks st') <= 50)%nat
  /\ (List.length (Json.bids st') <= 50)%nat
  /\ (Json.no_nan_price (Json.asks st') ->
      Json.ascending_by_price (Json.asks st'))
  /\ (Json.no_nan_price (Json.bids st') ->
      Json.descending_by_price (Json.bids st')).
Proof.
  intro H. apply json_update_returns in H.
  destruct H as (ts & sym & exch & pa & pb & _ & _ & _ & Ha & Hb & ->).
  destruct (json_record_history_book now
    (Json.set_last_update_time now
       (Json.set_bids (Json.sort_levels Json.price_ge pb)
          (Json.set_asks (Json.sort_levels Json.price_le pa)
             (Json.set_bids pb
                (Json.set_asks pa
                   (Json.set_exchange exch
                      (Json.set_symbol sym
                         (Json.set_timestamp (Some ts) st)))))))))
    as (-> & -> & _).
  cbn [Json.asks Json.bids Json.set_last_update_time Json.set_bids
       Json.set_asks].
  apply json_read_levels_length in Ha, Hb.
  rewrite !json_sort_levels_length.
  split; [exact Ha|]. split; [exact Hb|].
  split; intro Hok.
  - apply json_sort_asks_ascending.
    eapply Permutation_Forall; [|exact Hok].
    apply Permutation_sym, json_sort_levels_perm.
  - apply json_sort_bids_descending.
    eapply Permutation_Forall; [|exact Hok].
    apply Permutation_sym, json_sort_levels_perm.
Qed.

End JsonUpdateFacts.
(** ** update on the snapshots of strings

    On a snapshot made of strings none of which [float] reads as an
    infinity or NaN, [Json.update] is [update]: same result, same store. *)

Lemma fsum_finite (l : list Q) : fsum (map Finite l) = Finite (pysum l).
Proof.
  unfold fsum, pysum. generalize 0. induction l as [|x l IH]; intro a.
  - reflexivity.
  - cbn [map fold_left fadd]. apply IH.
Qed.

Lemma lastn_map {A B} (f : A -> B) (n : nat) (l : list A) :
  lastn n (map f l) = map f (lastn n l).
Proof. unfold lastn. now rewrite length_map, skipn_map. Qed.

Lemma json_insert_level_finite (beforeJ : Json.level -> Json.level -> bool)
    (before : level -> level -> bool) (x : level) (l : list level) :
  (forall x y, beforeJ (finite_level x) (finite_level y) = before x y) ->
  Json.insert_level beforeJ (finite_level x) (map finite_level l)
  = map finite_level (insert_level before x l).
Proof.
  intro Hb. induction l as [|y l IH]; cbn [map Json.insert_level insert_level].
  - reflexivity.
  - rewrite Hb. destruct (before x y); cbn [map]; [reflexivity|].
    now rewrite IH.
Qed.

Lemma json_sort_levels_finite (beforeJ : Json.level -> Json.level -> bool)
    (before : level -> level -> bool) (l : list level) :
  (forall x y, beforeJ (finite_level x) (finite_level y) = before x y) ->
  Json.sort_levels beforeJ (map finite_level l)
  = map finite_level (sort_levels before l).
Proof.
  intro Hb. induction l as [|x l IH]; cbn [map Json.sort_levels sort_levels].
  - reflexivity.
  - rewrite IH. now apply json_insert_level_finite.
Qed.

Lemma json_price_le_finite (x y : level) :
  Json.price_le (finite_level x) (finite_level y) = price_le x y.
Proof.
  unfold Json.price_le, price_le, finite_level. cbn [fst flt].
  unfold Qlt_bool. apply negb_involutive.
Qed.

Lemma json_price_ge_finite (x y : level) :
  Json.price_ge (finite_level x) (finite_level y) = price_ge x y.
Proof.
  unfold Json.price_ge, price_ge, finite_level. cbn [fst flt].
  unfold Qlt_bool. apply negb_involutive.
Qed.

Section JsonExtends.

Context {rt : Json.Runtime}.

#[local] Existing Instance Json.finite_runtime.

Lemma subscript_json_of_snapshot (data : Snapshot) :
  Json.subscript (json_of_snapshot data) "timestamp"
    = getitem (option_map JStr (d_timestamp data))
  /\ Json.subscript (json_of_snapshot data) "symbol"
    = getitem (option_map JStr (d_symbol data))
  /\ Json.subscript (json_of_snapshot data) "exchange"
    = getitem (option_map JStr (d_exchange data))
  /\ Json.subscript (json_of_snapshot data) "asks"
    = getitem (option_map (fun l => JList (map json_level l)) (d_asks data))
  /\ Json.subscript (json_of_snapshot data) "bids"
    = getitem (option_map (fun l => JList (map json_level l)) (d_bids data)).
Proof.
  destruct data as [[?|] [?|] [?|] [?|] [?|]]; repeat split; reflexivity.
Qed.

Lemma json_float_levels_finite (raw : list (string * string)) :
  Forall finite_strings raw ->
  Json.float_levels (map json_level raw)
  = match float_levels raw with
    | inl e => inl e
    | inr ls => inr (map finite_level ls)
    end.
Proof.
  induction 1 as [|[p q] raw [Hp Hq] _ IH]; [reflexivity|].
  cbn [fst snd] in Hp, Hq.
  cbn [map json_level fst snd Json.float_levels float_levels Json.unpack_pair
       bind ret Monad_Res Json.float_of_json].
  rewrite Hp, Hq, IH.
  destruct (float_of_str p); [|reflexivity].
  destruct (float_of_str q); [|reflexivity].
  cbn [parse bind ret Monad_Res].
  destruct (float_levels raw); reflexivity.
Qed.

Lemma json_read_levels_finite (d : json) (key : string)
    (side : option (list (string * string))) :
  Json.subscript d key
    = getitem (option_map (fun l => JList (map json_level l)) side) ->
  finite_side side ->
  Json.read_levels d key
  = match side with
    | None => inl KeyError
    | Some raw =>
        match float_levels (firstn MAX_ORDERBOOK_LEVELS raw) with
        | inl e => inl e
        | inr ls => inr (map finite_level ls)
        end
    end.
Proof.
  intros Hs Hf. unfold Json.read_levels. rewrite Hs.
  destruct side as [raw|]; [|reflexivity].
  cbn [option_map getitem bind ret Monad_Res Json.first_levels].
  rewrite firstn_map. now apply json_float_levels_finite.
Qed.

Lemma json_near_volume_finite (keepJ : pyfloat -> bool) (keep : Q -> bool)
    (levels : list level) :
  (forall p, keepJ (Finite p) = keep p) ->
  Json.near_volume keepJ (map finite_level levels)
  = Finite (near_volume keep levels).
Proof.
  intro Hk. unfold Json.near_volume, near_volume.
  rewrite <- fsum_finite. f_equal.
  induction levels as [|[p q] levels IH]; [reflexivity|].
  cbn [map filter finite_level fst snd]. rewrite Hk.
  destruct (keep p); cbn [map snd]; now rewrite IH.
Qed.

Lemma json_book_append (t m s v : Q) (st : OrderBook) :
  json_book (append_history (t, m) (t, s) m (t, v) st)
  = Json.append_history (t, Finite m) (t, Finite s) (Finite m) (t, Finite v)
      (json_book st).
Proof.
  unfold json_book, append_history, Json.append_history.
  cbn [asks bids timestamp symbol exchange last_update_time price_history
       spread_history mid_price_history volume_history
       Json.asks Json.bids Json.timestamp Json.symbol Json.exchange
       Json.last_update_time Json.price_history Json.spread_history
       Json.mid_price_history Json.volume_history].
  now rewrite !map_app.
Qed.

Lemma json_book_trim (st : OrderBook) :
  json_book (trim_history st) = Json.trim_history (json_book st).
Proof.
  unfold json_book, trim_history, Json.trim_history.
  cbn [asks bids timestamp symbol exchange last_update_time price_history
       spread_history mid_price_history volume_history
       Json.asks Json.bids Json.timestamp Json.symbol Json.exchange
       Json.last_update_time Json.price_history Json.spread_history
       Json.mid_price_history Json.volume_history].
  now rewrite !lastn_map.
Qed.

Lemma json_record_history_finite (now : Q) (st : OrderBook) :
  Json.record_history now (json_book st) = json_book (record_history now st).
Proof.
  unfold Json.record_history, record_history, near_touch_volume.
  cbn [json_book Json.asks Json.bids].
  destruct (asks st) as [|[best_ask qa] la] eqn:Ea; [reflexivity|].
  destruct (bids st) as [|[best_bid qb] lb] eqn:Eb; [reflexivity|].
  cbn [map finite_level fst snd]. cbv zeta.
  cbn [fadd fdiv_by fsub fmul].
  change (finite_level (best_ask, qa) :: map finite_level la)
    with (map finite_level ((best_ask, qa) :: la)).
  change (finite_level (best_bid, qb) :: map finite_level lb)
    with (map finite_level ((best_bid, qb) :: lb)).
  rewrite (json_near_volume_finite _
             (fun price => Qle_bool price
                ((best_ask + best_bid) / 2
                 + (best_ask + best_bid) / 2 * 0.001)))
    by reflexivity.
  rewrite (json_near_volume_finite _
             (fun price => Qle_bool
                ((best_ask + best_bid) / 2
                 - (best_ask + best_bid) / 2 * 0.001) price))
    by reflexivity.
  cbn [fadd].
  rewrite <- json_book_append.
  unfold json_book at 1. cbn [Json.price_history]. rewrite length_map.
  destruct (max_history <? _)%nat; [|reflexivity].
  now rewrite json_book_trim.
Qed.

(** On the snapshots of strings that hold finite numbers, [Json.update] is
    [update]. *)
Theorem json_update_extends_update (data : Snapshot) (now : Q)
    (st : OrderBook) :
  finite_side (d_asks data) -> finite_side (d_bids data) ->
  Json.update (json_of_snapshot data) now (json_book st)
  = (fst (update data now st), json_book (snd (update data now st))).
Proof.
  intros Ha Hb. rewrite json_update_unfold, update_unfold.
  unfold Json.update_outcome, update_outcome, Json.read_timestamp.
  destruct (subscript_json_of_snapshot data) as (Et & Es & Ee & Eas & Ebs).
  rewrite Et, Es, Ee.
  rewrite (json_read_levels_finite _ _ _ Eas Ha).
  rewrite (json_read_levels_finite _ _ _ Ebs Hb).
  destruct (d_timestamp data) as [raw_ts|]; [|reflexivity].
  cbn [option_map getitem bind ret Monad_Res Json.replace_Z].
  destruct (fromisoformat _) as [ts|]; [|reflexivity].
  cbn [parse bind ret Monad_Res].
  destruct (d_symbol data) as [sym|]; [|reflexivity].
  cbn [option_map getitem bind ret Monad_Res].
  destruct (d_exchange data) as [exch|]; [|reflexivity].
  cbn [option_map getitem bind ret Monad_Res].
  destruct (d_asks data) as [raw_asks|]; [|reflexivity].
  destruct (float_levels (firstn _ raw_asks)) as [e|pa]; [reflexivity|].
  destruct (d_bids data) as [raw_bids|]; [|reflexivity].
  destruct (float_levels (firstn _ raw_bids)) as [e|pb]; [reflexivity|].
  cbv zeta. cbn [fst snd]. f_equal.
  rewrite <- json_record_history_finite.
  rewrite (json_sort_levels_finite _ _ _ json_price_le_finite).
  rewrite (json_sort_levels_finite _ _ _ json_price_ge_finite).
  reflexivity.
Qed.

End JsonExtends.

(** * Scenarios on the executable runtime *)

#[local] Existing Instance decimal_runtime.

Lemma reachable_fold (data : Snapshot) (times : list Q) (st : OrderBook) :
  reachable st ->
  reachable (fold_left (fun st now => snd (update data now st)) times st).
Proof.
  revert st. induction times as [|t times IH]; intros st H; simpl.
  - exact H.
  - apply IH. now apply reachable_update.
Qed.

Lemma reachable_fed (n : nat) (data : Snapshot) : reachable (fed n data).
Proof. apply reachable_fold, reachable_init. Qed.

Example decimal_float_examples :
  decimal_float "99.5" = Some (995 # 10)
  /\ decimal_float "-3" = Some (-3 # 1)
  /\ decimal_float "abc" = None /\ decimal_float "" = None.
Proof. repeat split; reflexivity. Qed.

Example iso_timestamp_examples :
  iso_timestamp (replace_char "Z" "+00:00" "2025-05-04T10:39:13Z")
    = Some "2025-05-04T10:39:13+00:00"
  /\ iso_timestamp "yesterday" = None.
Proof. split; reflexivity. Qed.

(** The eviction scenario: after 301 two-sided updates at times 1 to 301 the
    four series hold 300 entries, those of times 2 to 301 in that order. *)
Example eviction_after_301_updates :
  let ob := fed 301 tight_snapshot in
  List.length (mid_price_history ob) = 300%nat
  /\ List.length (spread_history ob) = 300%nat
  /\ List.length (volume_history ob) = 300%nat
  /\ map fst (price_history ob) = skipn 1 (ticks 301)
  /\ map fst (volume_history ob) = skipn 1 (ticks 301).
Proof.
  cbv zeta.
  split; [vm_compute; reflexivity|].
  split; [vm_compute; reflexivity|].
  split; [vm_compute; reflexivity|].
  split; vm_compute; reflexivity.
Qed.

(** C9. On the book asks [(100,2),(101,3)], bids [(99,2),(98,3)] a buy of
    150 USD is filled within the first ask level: the walk ends with nothing
    remaining after that level alone, the average price is 100 and the
    executed quantity 1.5; the mid price is 99.5 and the slippage is
    [((100/99.5) - 1) * 100], about 0.5025 percent. *)
Theorem scenario_fill_and_slippage :
  asks scenario_book = [(100, 2); (101, 3)]
  /\ bids scenario_book = [(99, 2); (98, 3)]
  /\ (100 + 99) / 2 == 99.5
  /\ exists average_price executed_quantity slippage remaining cost,
       get_liquidity_at_level scenario_book 150 "buy"
         = inr (average_price, executed_quantity)
       /\ average_price == 100 /\ executed_quantity == 1.5
       /\ walk_levels [(100, 2)] 150 0 0
            = inr (remaining, executed_quantity, cost)
       /\ walk_levels (asks scenario_book) 150 0 0
            = inr (remaining, executed_quantity, cost)
       /\ remaining == 0
       /\ calculate_slippage (new_calculator scenario_book) 150 "buy"
            = inr slippage
       /\ slippage == (100 / 99.5 - 1) * 100
       /\ 0.5025 <= slippage /\ slippage <= 0.5026.
Proof.
  split; [vm_compute; reflexivity|].
  split; [vm_compute; reflexivity|].
  split; [vm_compute; reflexivity|].
  eexists _, _, _, _, _.
  split; [vm_compute; reflexivity|].
  split; [vm_compute; reflexivity|].
  split; [vm_compute; reflexivity|].
  split; [vm_compute; reflexivity|].
  split; [vm_compute; reflexivity|].
  split; [vm_compute; reflexivity|].
  split; [vm_compute; reflexivity|].
  split; [vm_compute; reflexivity|].
  split; apply Qle_bool_iff; vm_compute; reflexivity.
Qed.

(** C2, where the code departs from it.  Eleven updates with a book whose
    spread is wider than the near-touch band leave eleven samples of volume,
    all 0; the daily volume estimate is then 0, and [get_net_cost] with a
    quantity of 100 raises [ZeroDivisionError] in
    [calculate_market_impact]. *)
Theorem net_cost_raises_on_zero_volume :
  let ob := fed 11 wide_snapshot in
  let calculator := update_volatility (new_calculator ob) 0.02 in
  reachable ob
  /\ List.length (volume_history ob) = 11%nat
  /\ Forall (fun sample => snd sample == 0) (lastn 10 (volume_history ob))
  /\ 0 < 100
  /\ (exists slippage,
        calculate_slippage calculator 100 "buy" = inr slippage)
  /\ (exists fee, calculate_fees calculator 100 "vip0" = inr fee)
  /\ calculate_market_impact calculator 100 "buy" default_market_cap
       = inl ZeroDivisionError
  /\ get_net_cost calculator 100 "vip0" "buy" = inl ZeroDivisionError.
Proof.
  cbv zeta.
  split; [apply reachable_fed|].
  split; [vm_compute; reflexivity|].
  split; [vm_compute; repeat constructor|].
  split; [reflexivity|].
  split; [eexists; vm_compute; reflexivity|].
  split; [eexists; vm_compute; reflexivity|].
  split; vm_compute; reflexivity.
Qed.

(** ** Where the code departs from a claim *)

(** C1 as stated fails twice.  A snapshot without symbol makes [update]
    raise after it has assigned the timestamp, so the state is not the one
    before the call; and a level that is not a number past the 50th of its
    side is never parsed, so [update] returns. *)
Lemma update_rejection_not_atomic :
  let result := update no_symbol_snapshot 7 (init 0) in
  d_symbol no_symbol_snapshot = None
  /\ fst result = inl KeyError
  /\ timestamp (snd result) = Some "2025-05-04T10:39:13+00:00"
  /\ timestamp (init 0) = None
  /\ snd result <> init 0
  /\ (exists raw,
        d_asks deep_bad_snapshot = Some raw
        /\ Exists (fun l => float_of_str (fst l) = None) raw)
  /\ fst (update deep_bad_snapshot 7 (init 0)) = inr tt.
Proof.
  cbv zeta.
  assert (Hts : timestamp (snd (update no_symbol_snapshot 7 (init 0)))
                = Some "2025-05-04T10:39:13+00:00")
    by (vm_compute; reflexivity).
  split; [reflexivity|].
  split; [vm_compute; reflexivity|].
  split; [exact Hts|].
  split; [reflexivity|].
  split; [intro H; rewrite H in Hts; discriminate Hts|].
  split; [|vm_compute; reflexivity].
  eexists. split; [reflexivity|].
  apply Exists_app. right. constructor. reflexivity.
Qed.

(** C3 as stated fails on a one-sided book: the asks hold a notional of 200,
    the bids are empty, and a buy of 150 returns (0, 0).  It also fails on
    levels that are not well formed, which [update] lets in: a first ask of
    price 0 makes the walk raise [ZeroDivisionError], and a first ask of
    negative quantity, on a side whose notional is 200, leaves a negative
    executed quantity and an average price of 0. *)
Lemma liquidity_one_sided_book_unfilled :
  let ob := fed 1 one_sided_snapshot in
  let zero := fed 1 zero_price_snapshot in
  let negative := fed 1 negative_quantity_snapshot in
  (asks ob = [(100, 2)] /\ bids ob = []
   /\ 0 < 150 /\ 150 <= notional (targeted_side ob "buy")
   /\ get_liquidity_at_level ob 150 "buy" = inr (0, 0)
   /\ ~ 0 * 0 == 150)
  /\ (asks zero = [(0, 5); (100, 2)]
      /\ 150 <= notional (targeted_side zero "buy")
      /\ get_liquidity_at_level zero 150 "buy" = inl ZeroDivisionError)
  /\ (asks negative = [(1, -100); (100, 3)]
      /\ 150 <= notional (targeted_side negative "buy")
      /\ exists executed_quantity,
           get_liquidity_at_level negative 150 "buy"
             = inr (0, executed_quantity)
           /\ executed_quantity < 0
           /\ ~ executed_quantity * 0 == 150).
Proof.
  cbv zeta.
  split; [|split].
  - split; [vm_compute; reflexivity|].
    split; [vm_compute; reflexivity|].
    split; [reflexivity|].
    split; [apply Qle_bool_iff; vm_compute; reflexivity|].
    split; [vm_compute; reflexivity|].
    apply Qeq_bool_neq. vm_compute. reflexivity.
  - split; [vm_compute; reflexivity|].
    split; [apply Qle_bool_iff; vm_compute; reflexivity|].
    vm_compute. reflexivity.
  - split; [vm_compute; reflexivity|].
    split; [apply Qle_bool_iff; vm_compute; reflexivity|].
    eexists. split; [vm_compute; reflexivity|].
    split; [apply Qlt_bool_iff; vm_compute; reflexivity|].
    apply Qeq_bool_neq. vm_compute. reflexivity.
Qed.

(** C4 as stated fails with exactly 10 samples: the ten samples are all 2,
    their mean times 86400 is 172800, and the code takes the fallback
    [1e10 * 0.05]; the impact it returns is not the one of the formula on
    172800. *)
Lemma market_impact_ten_samples_fallback :
  let ob := fed 10 tight_snapshot in
  List.length (volume_history ob) = 10%nat
  /\ pysum (map snd (lastn 10 (volume_history ob))) / 10 * 86400 == 172800
  /\ (exists daily,
        daily_volume_estimate ob default_market_cap = inr daily
        /\ daily == 500000000 /\ ~ daily == 172800)
  /\ calculate_market_impact (new_calculator ob) 150 "buy" default_market_cap
     <> inr (Q2R 0.02 * sqrt (1 / 86400) * sqrt (150 / 172800) * 100)%R.
Proof.
  cbv zeta.
  split; [vm_compute; reflexivity|].
  split; [vm_compute; reflexivity|].
  split.
  { eexists. split; [vm_compute; reflexivity|].
    split; [vm_compute; reflexivity|].
    intro H. vm_compute in H. discriminate H. }
  rewrite market_impact_value.
  - assert (Hd : daily_volume_of
                   (orderbook (new_calculator (fed 10 tight_snapshot)))
                   default_market_cap
                 = 50000000000 # 100) by (vm_compute; reflexivity).
    rewrite Hd. clear Hd.
    assert (Hs : sigma_of (volatility (new_calculator (fed 10 tight_snapshot)))
                 = 0.02) by reflexivity.
    rewrite Hs. clear Hs.
    intro H. injection H as H.
    assert (Hk : (0 < Q2R 0.02 * sqrt (1 / 86400))%R).
    { apply Rmult_lt_0_compat.
      - unfold Q2R. cbn. lra.
      - apply sqrt_lt_R0. lra. }
    assert (Heq : (sqrt (Q2R 150 / Q2R (50000000000 # 100))
                   = sqrt (150 / 172800))%R) by nra.
    apply sqrt_inj in Heq.
    + unfold Q2R in Heq. cbn in Heq. lra.
    + unfold Q2R. cbn. lra.
    + lra.
  - vm_compute. discriminate.
  - intro H. vm_compute in H. discriminate H.
Qed.

(** ** The claims at concrete inputs *)

(** C3 on the book of the scenario, for a buy of 150, and on a new book. *)
Lemma liquidity_consumes_notional_witness :
  asks scenario_book <> [] /\ bids scenario_book <> []
  /\ Forall well_formed (targeted_side scenario_book "buy")
  /\ 0 < 150
  /\ 150 <= notional (targeted_side scenario_book "buy")
  /\ (exists average_price executed_quantity,
        get_liquidity_at_level scenario_book 150 "buy"
          = inr (average_price, executed_quantity)
        /\ executed_quantity * average_price == 150)
  /\ asks (init 0) = []
  /\ get_liquidity_at_level (init 0) 150 "buy" = inr (0, 0).
Proof.
  assert (Ha : asks scenario_book <> []) by (vm_compute; discriminate).
  assert (Hb : bids scenario_book <> []) by (vm_compute; discriminate).
  assert (Hwf : Forall well_formed (targeted_side scenario_book "buy")).
  { vm_compute. repeat constructor; intro Hc; discriminate Hc. }
  assert (HX : 0 < 150) by reflexivity.
  assert (Hn : 150 <= notional (targeted_side scenario_book "buy")).
  { apply Qle_bool_iff. vm_compute. reflexivity. }
  repeat (split; [assumption|]).
  split.
  - destruct (proj2 (liquidity_consumes_notional scenario_book 150 "buy")
                Ha Hb Hwf HX) as (a & e & H1 & H2 & _).
    exists a, e. split; [exact H1 | exact (H2 Hn)].
  - split; [reflexivity|].
    exact (proj1 (liquidity_consumes_notional (init 0) 150 "buy")
             (or_introl eq_refl)).
Defined.

(** C4 after eleven updates whose samples are all 2, with a volatility of
    0.03: the estimate is 2 * 86400. *)
Lemma market_impact_square_root_model_witness :
  let calculator :=
    update_volatility (new_calculator (fed 11 tight_snapshot)) 0.03 in
  let ob := orderbook calculator in
  let daily := daily_volume_of ob default_market_cap in
  (10 < List.length (volume_history ob))%nat
  /\ mid_price_history ob <> []
  /\ daily_volume_estimate ob default_market_cap = inr daily
  /\ daily == 172800
  /\ calculate_market_impact calculator 150 "buy" default_market_cap
     = inr (Q2R 0.03 * sqrt (1 / 86400) * sqrt (Q2R 150 / Q2R daily) * 100)%R.
Proof.
  cbv zeta.
  split; [vm_compute; lia|].
  assert (Hne : mid_price_history
                  (orderbook
                     (update_volatility
                        (new_calculator (fed 11 tight_snapshot)) 0.03))
                <> []) by (vm_compute; discriminate).
  split; [exact Hne|].
  split; [apply daily_volume_estimate_value|].
  split; [vm_compute; reflexivity|].
  refine (proj2 (proj2 (proj2 (proj2 (proj2 (proj2
    (market_impact_square_root_model
       (update_volatility (new_calculator (fed 11 tight_snapshot)) 0.03)
       150 default_market_cap "buy" _ 0.03
       (daily_volume_estimate_value _ _) eq_refl)))))) Hne _).
  apply Qeq_bool_neq. vm_compute. reflexivity.
Defined.

(** A snapshot whose levels come out of order. *)
Example update_sorts_shuffled_levels :
  let st' := snd (update shuffled_snapshot 1 (init 0)) in
  update shuffled_snapshot 1 (init 0) = (inr tt, st')
  /\ d_asks shuffled_snapshot
     = Some [("101", "3"); ("100", "2"); ("102", "1")]
  /\ asks st' = [(100, 2); (101, 3); (102, 1)]
  /\ bids st' = [(99, 2); (98, 3); (97, 1)]
  /\ ascending_by_price (asks st') /\ descending_by_price (bids st').
Proof.
  cbv zeta.
  assert (H : update shuffled_snapshot 1 (init 0)
              = (inr tt, snd (update shuffled_snapshot 1 (init 0))))
    by (apply update_returned; vm_compute; reflexivity).
  split; [exact H|].
  split; [reflexivity|].
  split; [vm_compute; reflexivity|].
  split; [vm_compute; reflexivity|].
  pose proof (update_sorts_finite_prices shuffled_snapshot 1 (init 0) _ H)
    as (Sa & Sb & _).
  split; assumption.
Qed.

(** C6 on the 301st update of a book that holds 300 entries: one entry is
    dropped and 300 remain. *)
Lemma history_series_aligned_and_bounded_witness :
  let st := fed 300 tight_snapshot in
  let st' := snd (update tight_snapshot 301 st) in
  reachable st
  /\ fst (update tight_snapshot 301 st) = inr tt
  /\ List.length (mid_price_history st) = 300%nat
  /\ List.length (mid_price_history st') = 300%nat
  /\ List.length (spread_history st') = List.length (mid_price_history st')
  /\ List.length (volume_history st') = List.length (mid_price_history st')
  /\ exists oldest mid_price,
       mid_price_history st ++ [mid_price] = oldest ++ mid_price_history st'
       /\ List.length oldest = 1%nat.
Proof.
  cbv zeta.
  assert (Hr : reachable (fed 300 tight_snapshot)) by apply reachable_fed.
  assert (Hok : fst (update tight_snapshot 301 (fed 300 tight_snapshot))
                = inr tt) by (vm_compute; reflexivity).
  assert (Hlen : List.length (mid_price_history (fed 300 tight_snapshot))
                 = 300%nat) by (vm_compute; reflexivity).
  assert (Hlen' : List.length
                    (mid_price_history
                       (snd (update tight_snapshot 301
                               (fed 300 tight_snapshot))))
                  = 300%nat) by (vm_compute; reflexivity).
  destruct (history_series_aligned_and_bounded (fed 300 tight_snapshot)
              tight_snapshot 301 Hr) as ((Hs & Hv & _ & Hle) & _ & Hret).
  destruct (Hret Hok) as (_ & Hhist).
  split; [exact Hr|]. split; [exact Hok|]. split; [exact Hlen|].
  split; [exact Hlen'|]. split; [exact Hs|]. split; [exact Hv|].
  assert (Ea : asks (snd (update tight_snapshot 301
                            (fed 300 tight_snapshot)))
               = [(100, 1)]) by (vm_compute; reflexivity).
  assert (Eb : bids (snd (update tight_snapshot 301
                            (fed 300 tight_snapshot)))
               = [(9995 # 100, 1)]) by (vm_compute; reflexivity).
  rewrite Ea, Eb in Hhist. cbv beta iota zeta in Hhist.
  destruct Hhist as ((oldest & Happ & _) & _).
  exists oldest, ((100 + (9995 # 100)) / 2). split; [exact Happ|].
  apply (f_equal (@List.length Q)) in Happ.
  rewrite !length_app, Hlen, Hlen' in Happ. cbn [List.length] in Happ. lia.
Defined.

(** C7 on the book of the scenario, for a quantity of 150. *)
Lemma maker_taker_split_witness :
  0 < 150
  /\ exists maker_p taker_p,
       estimate_maker_taker_proportion (new_calculator scenario_book) 150
         = inr (maker_p, taker_p)
       /\ (maker_p + taker_p = 100)%R
       /\ taker_p = logistic_taker (Q2R ((2 * 100 + 2 * 99) / (2 * 150))).
Proof.
  assert (HX : 0 < 150) by reflexivity.
  split; [exact HX|].
  destruct (maker_taker_split (new_calculator scenario_book) 150 HX)
    as (m & t & H1 & H2 & _ & H4 & _).
  exists m, t. split; [exact H1|]. split; [exact H2|].
  apply (H4 100 2 [(101, 3)] 99 2 [(98, 3)]); vm_compute; reflexivity.
Defined.

(** C8 on the book of the scenario: an unknown tier, a tier in capitals,
    and the fee of a report. *)
Lemma fee_tier_fallback_and_formula_witness :
  let calculator := new_calculator scenario_book in
  ~ In (lower "Gold") tier_names
  /\ calculate_fees calculator 150 "Gold" = calculate_fees calculator 150 "vip0"
  /\ lower "VIP3" = lower "vip3"
  /\ calculate_fees calculator 150 "VIP3" = calculate_fees calculator 150 "vip3"
  /\ exists report,
       get_net_cost calculator 150 "vip3" "buy" = inr report
       /\ fee_pct report
          = ((maker_pct report / 100 * Q2R 0.0005
              + taker_pct report / 100 * Q2R 0.0007) * 100)%R.
Proof.
  cbv zeta.
  assert (Hgold : ~ In (lower "Gold") tier_names).
  { vm_compute. intuition discriminate. }
  assert (Hcase : lower "VIP3" = lower "vip3") by reflexivity.
  split; [exact Hgold|].
  split.
  { exact (proj1 (fee_tier_fallback_and_formula
                    (new_calculator scenario_book) 150 "Gold") Hgold). }
  split; [exact Hcase|].
  split.
  { exact (proj1 (proj2 (fee_tier_fallback_and_formula
                           (new_calculator scenario_book) 150 "vip3"))
             "VIP3" Hcase). }
  assert (Hret : exists report,
            get_net_cost (new_calculator scenario_book) 150 "vip3" "buy"
              = inr report) by (eexists; vm_compute; reflexivity).
  destruct Hret as [report Hreport].
  exists report. split; [exact Hreport|].
  exact (proj2 (proj2 (proj2 (proj2 (fee_tier_fallback_and_formula
           (new_calculator scenario_book) 150 "vip3")) "buy" report Hreport
           _ eq_refl))).
Defined.

(** C10 on a snapshot of 51 asks whose best price is the 51st: the 50 asks
    kept are the first 50, and the best one is not among them. *)
Lemma update_truncates_before_sorting_witness :
  let st' := snd (update deep_snapshot 1 (init 0)) in
  update deep_snapshot 1 (init 0) = (inr tt, st')
  /\ (exists raw_asks,
        d_asks deep_snapshot = Some raw_asks
        /\ nth_error raw_asks 50 = Some ("100", "1")
        /\ firstn 50 raw_asks = repeat ("200", "1") 50)
  /\ asks st' = repeat (200, 1) 50
  /\ ~ In (100, 1) (asks st')
  /\ exists raw_asks kept_asks,
       d_asks deep_snapshot = Some raw_asks
       /\ float_levels (firstn 50 raw_asks) = inr kept_asks
       /\ Permutation kept_asks (asks st').
Proof.
  cbv zeta.
  assert (H : update deep_snapshot 1 (init 0)
              = (inr tt, snd (update deep_snapshot 1 (init 0))))
    by (apply update_returned; vm_compute; reflexivity).
  split; [exact H|].
  split.
  { eexists. split; [reflexivity|]. split; reflexivity. }
  assert (Hasks : asks (snd (update deep_snapshot 1 (init 0)))
                  = repeat (200, 1) 50) by (vm_compute; reflexivity).
  split; [exact Hasks|].
  split.
  { rewrite Hasks. intro Hin. apply repeat_spec in Hin. discriminate Hin. }
  destruct (update_truncates_before_sorting deep_snapshot 1 (init 0) _ H)
    as (ra & rb & ka & kb & Da & _ & Ha & _ & _ & _ & Hp & _).
  exists ra, ka. repeat split; assumption.
Defined.

(** ** The further properties at concrete inputs *)


(** X4 on a book fed three times with 51 asks. *)
Lemma reachable_book_depth_witness :
  reachable (fed 3 deep_snapshot)
  /\ (List.length (asks (fed 3 deep_snapshot)) <= 50)%nat
  /\ (List.length (bids (fed 3 deep_snapshot)) <= 50)%nat.
Proof.
  assert (H : reachable (fed 3 deep_snapshot)) by apply reachable_fed.
  split; [exact H|].
  pose proof (@reachable_book_depth decimal_runtime (fed 3 deep_snapshot) H)
    as P.
  exact P.
Defined.

(** X5 on the book of the scenario, for an amount of 0. *)
Lemma nothing_to_spend_witness :
  let calculator := new_calculator scenario_book in
  0 <= 0
  /\ get_liquidity_at_level (orderbook calculator) 0 "buy" = inr (0, 0)
  /\ calculate_slippage calculator 0 "buy" = inr 0.
Proof.
  cbv zeta.
  assert (H : 0 <= 0) by apply Qle_refl.
  split; [exact H|].
  pose proof (@nothing_to_spend decimal_runtime
                (new_calculator scenario_book) 0 "buy" H) as P.
  exact P.
Defined.

Ltac solve_levels :=
  repeat constructor;
  first [ apply Qle_bool_iff; reflexivity | apply Qlt_bool_iff; reflexivity ].

(** X9 on the book of the scenario, for the side written ["BUY"]. *)
Lemma slippage_side_case_mismatch_witness :
  let calculator := new_calculator scenario_book in
  lower "BUY" = "buy" /\ "BUY" <> "buy"
  /\ 0 < notional (asks (orderbook calculator))
  /\ exists as_written lowered,
       calculate_slippage calculator 150 "BUY" = inr as_written
       /\ calculate_slippage calculator 150 "buy" = inr lowered
       /\ as_written < 0 /\ 0 < lowered.
Proof.
  cbv zeta.
  assert (Ea : asks (orderbook (new_calculator scenario_book))
               = [(100, 2); (101, 3)]) by (vm_compute; reflexivity).
  assert (Eb : bids (orderbook (new_calculator scenario_book))
               = [(99, 2); (98, 3)]) by (vm_compute; reflexivity).
  assert (Sa : ascending_by_price
                 (asks (orderbook (new_calculator scenario_book))))
    by (rewrite Ea; unfold ascending_by_price; solve_levels).
  assert (Wa : Forall well_formed
                 (asks (orderbook (new_calculator scenario_book))))
    by (rewrite Ea; solve_levels).
  assert (Hn : 0 < notional (asks (orderbook (new_calculator scenario_book))))
    by (apply Qlt_bool_iff; vm_compute; reflexivity).
  assert (Hb : 0 < 99) by reflexivity.
  assert (Hc : 99 < 100) by reflexivity.
  assert (Hq : 0 < 150) by reflexivity.
  assert (Hl : lower "BUY" = "buy") by reflexivity.
  assert (Hne : "BUY" <> "buy") by discriminate.
  pose proof (@slippage_side_case_mismatch decimal_runtime
                (new_calculator scenario_book) 150 "BUY" 100 2 99 2
                [(101, 3)] [(98, 3)] Ea Eb Sa Wa Hn Hb Hc Hq Hl Hne) as P.
  repeat (split; [assumption|]). exact P.
Defined.

(** X10 on a new book, for a quantity of 0 and the tier [vip3]. *)
Lemma net_cost_on_empty_side_witness :
  let calculator := new_calculator (init 0) in
  asks (orderbook calculator) = []
  /\ calculate_market_impact calculator 0 "buy" default_market_cap = inr 0%R
  /\ exists report,
       get_net_cost calculator 0 "vip3" "buy" = inr report
       /\ slippage_pct report = 0%R
       /\ maker_pct report = 0%R /\ taker_pct report = 100%R
       /\ fee_pct report = (Q2R 0.0007 * 100)%R.
Proof.
  cbv zeta.
  assert (Ha : asks (orderbook (new_calculator (init 0))) = [])
    by reflexivity.
  assert (Hi : calculate_market_impact (new_calculator (init 0)) 0 "buy"
                 default_market_cap = inr 0%R) by reflexivity.
  split; [exact Ha|]. split; [exact Hi|].
  destruct (proj2 (@net_cost_on_empty_side decimal_runtime
                     (new_calculator (init 0)) 0 "vip3" "buy" (or_introl Ha))
              0%R Hi) as (report & H1 & H2 & H3 & H4 & H5 & _).
  exists report. repeat (split; [assumption|]). exact H5.
Defined.

(** X11 on the book of the scenario. *)
Lemma net_cost_zero_quantity_raises_witness :
  let calculator := new_calculator scenario_book in
  asks (orderbook calculator) <> [] /\ bids (orderbook calculator) <> []
  /\ 0 == 0
  /\ get_net_cost calculator 0 "vip0" "buy" = inl ZeroDivisionError.
Proof.
  cbv zeta.
  assert (Ha : asks (orderbook (new_calculator scenario_book)) <> [])
    by (vm_compute; discriminate).
  assert (Hb : bids (orderbook (new_calculator scenario_book)) <> [])
    by (vm_compute; discriminate).
  assert (Hz : 0 == 0) by reflexivity.
  pose proof (@net_cost_zero_quantity_raises decimal_runtime
                (new_calculator scenario_book) 0 "vip0" "buy" Ha Hb Hz)
    as (_ & _ & _ & P).
  repeat (split; [assumption|]). exact P.
Defined.

(** X14 after eleven updates whose samples are all 2, for the quantities
    100 and 400. *)
Lemma market_impact_grows_with_quantity_witness :
  let calculator := new_calculator (fed 11 tight_snapshot) in
  let daily := daily_volume_of (orderbook calculator) default_market_cap in
  let impact (q : Q) :=
    (Q2R (sigma_of (volatility calculator)) * sqrt (1 / 86400)
     * sqrt (Q2R q / Q2R daily) * 100)%R in
  0 < daily /\ 0 <= 100 /\ 100 <= 400
  /\ calculate_market_impact calculator 100 "buy" default_market_cap
     = inr (impact 100)
  /\ calculate_market_impact calculator 400 "buy" default_market_cap
     = inr (impact 400)
  /\ (0 <= impact 100%Q <= impact 400%Q)%R.
Proof.
  cbv zeta.
  assert (Hne : mid_price_history
                  (orderbook (new_calculator (fed 11 tight_snapshot))) <> [])
    by (vm_compute; discriminate).
  assert (Hd : 0 < daily_volume_of
                     (orderbook (new_calculator (fed 11 tight_snapshot)))
                     default_market_cap)
    by (apply Qlt_bool_iff; vm_compute; reflexivity).
  assert (Hnz : ~ daily_volume_of
                    (orderbook (new_calculator (fed 11 tight_snapshot)))
                    default_market_cap == 0)
    by (apply Qeq_bool_neq; vm_compute; reflexivity).
  assert (H1 : 0 <= 100) by (apply Qle_bool_iff; reflexivity).
  assert (H2 : 100 <= 400) by (apply Qle_bool_iff; reflexivity).
  pose proof (@market_impact_value decimal_runtime
                (new_calculator (fed 11 tight_snapshot)) 100
                default_market_cap "buy" Hne Hnz) as P1.
  pose proof (@market_impact_value decimal_runtime
                (new_calculator (fed 11 tight_snapshot)) 400
                default_market_cap "buy" Hne Hnz) as P2.
  pose proof (@market_impact_grows_with_quantity decimal_runtime
                (new_calculator (fed 11 tight_snapshot)) 100 400
                default_market_cap "buy" _ _ Hd H1 H2 P1 P2) as P3.
  split; [exact Hd|]. split; [exact H1|]. split; [exact H2|].
  split; [exact P1|]. split; [exact P2|]. exact P3.
Defined.

(** X15 on the simulator that has received the snapshot of the scenario in
    2 seconds: its window holds the one entry 2000. *)
Lemma simulator_window_and_book_witness :
  sim_reachable scenario_simulator
  /\ ts_process_times scenario_simulator = [2000]
  /\ (List.length (ts_process_times scenario_simulator) <= 100)%nat
  /\ reachable (ts_orderbook scenario_simulator).
Proof.
  assert (H : sim_reachable scenario_simulator).
  { unfold scenario_simulator.
    exact (@sim_reachable_receive decimal_runtime (new_simulator 0 0) 0 1 2
             (Message scenario_snapshot) (sim_reachable_new 0 0)). }
  pose proof (@simulator_window_and_book decimal_runtime scenario_simulator H)
    as (P1 & P2 & _).
  split; [exact H|]. split; [vm_compute; reflexivity|].
  split; [exact P1 | exact P2].
Defined.

(** X16 on a new simulator that receives the snapshot without symbol. *)
Lemma failed_message_is_not_timed_witness :
  let self := new_simulator 0 0 in
  let after := snd (receive_one 5 6 7 (Message no_symbol_snapshot) self) in
  fst (update no_symbol_snapshot 6 (ts_orderbook self)) = inl KeyError
  /\ ts_process_times after = ts_process_times self
  /\ ts_calculator_volatility after = ts_calculator_volatility self
  /\ ts_last_tick_time after = 5.
Proof.
  cbv zeta.
  assert (H : fst (update no_symbol_snapshot 6
                     (ts_orderbook (new_simulator 0 0))) = inl KeyError)
    by (vm_compute; reflexivity).
  pose proof (@failed_message_is_not_timed decimal_runtime (new_simulator 0 0)
                5 6 7 no_symbol_snapshot KeyError H)
    as (_ & P1 & P2 & _ & P3).
  split; [exact H|]. split; [exact P1|]. split; [exact P2 | exact P3].
Defined.


(** X19 on a new simulator: a volatility of 3 percent is stored as 3/100
    and reaches the calculator with the snapshot of the scenario. *)
Lemma applied_volatility_waits_for_a_message_witness :
  let self := new_simulator 0 0 in
  let applied := handle_apply good_values self in
  float_of_str (v_quantity good_values) = Some 250
  /\ float_of_str (v_volatility good_values) = Some 3
  /\ fst (update scenario_snapshot 6 (ts_orderbook self)) = inr tt
  /\ ts_volatility applied = 3 / 100
  /\ ts_calculator_volatility applied = 0
  /\ ts_calculator_volatility
       (snd (receive_one 5 6 7 (Message scenario_snapshot) applied))
     = 3 / 100.
Proof.
  cbv zeta.
  assert (Hq : @float_of_str decimal_runtime (v_quantity good_values)
               = Some 250) by reflexivity.
  assert (Hv : @float_of_str decimal_runtime (v_volatility good_values)
               = Some 3) by reflexivity.
  assert (Hok : fst (update scenario_snapshot 6
                       (ts_orderbook (new_simulator 0 0))) = inr tt)
    by (vm_compute; reflexivity).
  pose proof (@applied_volatility_waits_for_a_message decimal_runtime
                good_values (new_simulator 0 0) 250 3 Hq Hv) as P.
  cbv zeta in P. destruct P as (_ & P2 & _ & _ & P5).
  split; [exact Hq|]. split; [exact Hv|]. split; [exact Hok|].
  split; [exact P2|]. split; [vm_compute; reflexivity|].
  exact (P5 5 6 7 scenario_snapshot Hok).
Defined.

(** X20 on the simulator of the scenario, after a quantity of 0 is
    entered. *)
Lemma zero_quantity_breaks_results_witness :
  float_of_str (v_quantity zero_quantity_values) = Some 0 /\ 0 == 0
  /\ asks (ts_orderbook scenario_simulator) <> []
  /\ bids (ts_orderbook scenario_simulator) <> []
  /\ get_simulation_results
       (handle_apply zero_quantity_values scenario_simulator)
     = inl ZeroDivisionError.
Proof.
  assert (Hq : @float_of_str decimal_runtime (v_quantity zero_quantity_values)
               = Some 0) by reflexivity.
  assert (Hz : 0 == 0) by reflexivity.
  assert (Ha : asks (ts_orderbook scenario_simulator) <> [])
    by (vm_compute; discriminate).
  assert (Hb : bids (ts_orderbook scenario_simulator) <> [])
    by (vm_compute; discriminate).
  pose proof (@zero_quantity_breaks_results decimal_runtime
                zero_quantity_values scenario_simulator 0 Hq Hz Ha Hb)
    as (_ & P).
  repeat (split; [assumption|]). exact P.
Defined.
(** ** update on every input, at concrete inputs *)

#[local] Existing Instance decimal_json_runtime.

Lemma json_update_returned (data : json) (now : Q) (st : Json.OrderBook) :
  fst (Json.update data now st) = inr tt ->
  Json.update data now st = (inr tt, snd (Json.update data now st)).
Proof.
  destruct (Json.update data now st) as [r st']. simpl. now intros ->.
Qed.

Example nonfinite_float_examples :
  nonfinite_float "nan" = Some NaN /\ nonfinite_float "NaN" = Some NaN
  /\ nonfinite_float "inf" = Some PosInf
  /\ nonfinite_float "-Infinity" = Some NegInf
  /\ nonfinite_float "12" = None /\ nonfinite_float "abc" = None.
Proof. repeat split; reflexivity. Qed.

(** What [update] does with values that are not strings: a price that is
    [null] raises [TypeError], a timestamp that is a number
    [AttributeError], an integer of 400 digits [OverflowError]; a snapshot
    that is not an object raises [TypeError], and one without symbol
    [KeyError]; numbers, booleans and a string of two digits in the place of
    a level are accepted. *)
Example json_update_on_other_values :
  fst (Json.update null_price_snapshot 1 (Json.init 0)) = inl TypeError
  /\ fst (Json.update json_no_symbol_snapshot 1 (Json.init 0)) = inl KeyError
  /\ fst (Json.update numeric_timestamp_snapshot 1 (Json.init 0))
     = inl AttributeError
  /\ fst (Json.update huge_int_snapshot 1 (Json.init 0)) = inl OverflowError
  /\ fst (Json.update JNull 1 (Json.init 0)) = inl TypeError
  /\ fst (Json.update number_levels_snapshot 1 (Json.init 0)) = inr tt
  /\ Json.asks (snd (Json.update number_levels_snapshot 1 (Json.init 0)))
     = [(Finite 1, Finite 2); (Finite 7, Finite 3); (Finite 101, Finite 1.5)].
Proof. repeat split; vm_compute; reflexivity. Qed.

(** Infinite prices are ordered; a mid price between opposite infinities is
    NaN. *)
Example json_update_on_infinite_prices :
  let result := Json.update inf_price_snapshot 1 (Json.init 0) in
  fst result = inr tt
  /\ Json.asks (snd result)
     = [(NegInf, Finite 3); (Finite 100, Finite 2); (PosInf, Finite 1)]
  /\ Json.bids (snd result) = [(PosInf, Finite 2); (Finite 99, Finite 1)]
  /\ Json.mid_price_history (snd result) = [NaN].
Proof. cbv zeta. repeat split; vm_compute; reflexivity. Qed.

(** C5 as stated fails on a price that reads [nan]: [float] accepts it,
    [update] returns, and the asks are left as 101, NaN, 100, which is not
    non-decreasing; no arrangement of these three levels is. *)
Lemma nan_price_leaves_asks_unsorted :
  let result := Json.update nan_price_snapshot 1 (Json.init 0) in
  fst result = inr tt
  /\ Json.asks (snd result)
     = [(Finite 101, Finite 1); (NaN, Finite 1); (Finite 100, Finite 1)]
  /\ (List.length (Json.asks (snd result)) <= 50)%nat
  /\ ~ Json.ascending_by_price (Json.asks (snd result))
  /\ forall arranged,
       Permutation (Json.asks (snd result)) arranged ->
       ~ Json.ascending_by_price arranged.
Proof.
  cbv zeta.
  assert (Ha : Json.asks (snd (Json.update nan_price_snapshot 1 (Json.init 0)))
               = [(Finite 101, Finite 1); (NaN, Finite 1);
                  (Finite 100, Finite 1)])
    by (vm_compute; reflexivity).
  split; [vm_compute; reflexivity|].
  split; [exact Ha|].
  rewrite Ha.
  split; [cbn [List.length]; lia|].
  assert (Hall : forall arranged,
            Permutation [(Finite 101, Finite 1); (NaN, Finite 1);
                         (Finite 100, Finite 1)] arranged ->
            ~ Json.ascending_by_price arranged).
  { intros arranged Hp.
    apply (nan_price_never_ascending arranged (Finite 1)
             (Finite 101, Finite 1)).
    - eapply Permutation_in; [exact Hp|]. cbn. auto.
    - eapply Permutation_in; [exact Hp|]. cbn. auto.
    - discriminate. }
  split; [apply Hall, Permutation_refl | exact Hall].
Qed.

(** C1 on the snapshot whose first bid has the price [null]: the call
    raises [TypeError], and it leaves the new timestamp and the new asks, as
    they came, with the bids and the series of before. *)
Lemma json_update_rejects_malformed_witness :
  let st := Json.init 0 in
  Json.malformed_snapshot null_price_snapshot
  /\ exists e st',
       Json.update null_price_snapshot 1 st = (inl e, st')
       /\ e = TypeError
       /\ Json.bids st' = Json.bids st
       /\ Json.histories st' = Json.histories st
       /\ st' = Json.set_asks [(Finite 101, Finite 1); (Finite 100, Finite 2)]
                  (Json.set_exchange (JStr "OKX")
                     (Json.set_symbol (JStr "BTC-USDT-SWAP")
                        (Json.set_timestamp
                           (Some ("2025-05-04T10:39:13+00:00" : datetime))
                           st)))
       /\ Json.asks st' <> Json.asks st.
Proof.
  cbv zeta.
  assert (Hbids : Json.non_numeric_side null_price_snapshot "bids").
  { exists (JList [JList [JNull; JStr "1"]]), [JList [JNull; JStr "1"]].
    split; [reflexivity|]. split; [reflexivity|].
    constructor. unfold Json.non_numeric. cbn. left. now eexists. }
  assert (Hbad : Json.malformed_snapshot null_price_snapshot)
    by (right; right; right; right; exact Hbids).
  split; [exact Hbad|].
  destruct (json_update_rejects_malformed null_price_snapshot 1 (Json.init 0)
              Hbad)
    as (e & st' & E & He & Hb & Ht & Hh & _ & Hstages).
  assert (Hts : Json.timestamp_reads null_price_snapshot
                  ("2025-05-04T10:39:13+00:00" : datetime)).
  { exists "2025-05-04T10:39:13Z". split; reflexivity. }
  destruct (Hstages _ Hts) as (_ & Hsym).
  destruct (Hsym (JStr "BTC-USDT-SWAP") eq_refl) as (_ & Hexch).
  destruct (Hexch (JStr "OKX") eq_refl) as (_ & Hasks).
  assert (Hread : Json.read_levels null_price_snapshot "asks"
                  = inr [(Finite 101, Finite 1); (Finite 100, Finite 2)])
    by (vm_compute; reflexivity).
  pose proof (Hasks _ Hread Hbids) as Hst.
  assert (F : fst (Json.update null_price_snapshot 1 (Json.init 0))
              = inl TypeError) by (vm_compute; reflexivity).
  exists e, st'. split; [exact E|].
  split; [rewrite E in F; cbn in F; now inversion F|].
  split; [exact Hb|]. split; [exact Hh|]. split; [exact Hst|].
  rewrite Hst. cbn. discriminate.
Defined.

(** C5 on a snapshot whose prices are out of order, an infinity among
    them. *)
Lemma json_update_sorts_without_nan_witness :
  let st' := snd (Json.update inf_price_snapshot 1 (Json.init 0)) in
  Json.update inf_price_snapshot 1 (Json.init 0) = (inr tt, st')
  /\ Json.asks st'
     = [(NegInf, Finite 3); (Finite 100, Finite 2); (PosInf, Finite 1)]
  /\ Json.bids st' = [(PosInf, Finite 2); (Finite 99, Finite 1)]
  /\ Json.no_nan_price (Json.asks st') /\ Json.no_nan_price (Json.bids st')
  /\ Json.ascending_by_price (Json.asks st')
  /\ Json.descending_by_price (Json.bids st')
  /\ (List.length (Json.asks st') <= 50)%nat
  /\ (List.length (Json.bids st') <= 50)%nat.
Proof.
  cbv zeta.
  assert (H : Json.update inf_price_snapshot 1 (Json.init 0)
              = (inr tt, snd (Json.update inf_price_snapshot 1 (Json.init 0))))
    by (apply json_update_returned; vm_compute; reflexivity).
  assert (Ha : Json.asks (snd (Json.update inf_price_snapshot 1 (Json.init 0)))
               = [(NegInf, Finite 3); (Finite 100, Finite 2);
                  (PosInf, Finite 1)]) by (vm_compute; reflexivity).
  assert (Hb : Json.bids (snd (Json.update inf_price_snapshot 1 (Json.init 0)))
               = [(PosInf, Finite 2); (Finite 99, Finite 1)])
    by (vm_compute; reflexivity).
  assert (Na : Json.no_nan_price
                 (Json.asks
                    (snd (Json.update inf_price_snapshot 1 (Json.init 0)))))
    by (rewrite Ha; repeat constructor; discriminate).
  assert (Nb : Json.no_nan_price
                 (Json.bids
                    (snd (Json.update inf_price_snapshot 1 (Json.init 0)))))
    by (rewrite Hb; repeat constructor; discriminate).
  pose proof (json_update_sorts_without_nan inf_price_snapshot 1 (Json.init 0)
                _ H) as (La & Lb & Sa & Sb).
  split; [exact H|]. split; [exact Ha|]. split; [exact Hb|].
  split; [exact Na|]. split; [exact Nb|].
  split; [exact (Sa Na)|]. split; [exact (Sb Nb)|].
  split; [exact La | exact Lb].
Defined.

(** On the snapshot of the scenario, [Json.update] leaves the book that
    [update] leaves. *)
Example json_update_on_scenario :
  let result :=
    Json.update (json_of_snapshot scenario_snapshot) 1 (json_book (init 0)) in
  fst result = inr tt
  /\ Json.asks (snd result) = map finite_level (asks scenario_book)
  /\ Json.bids (snd result) = map finite_level (bids scenario_book)
  /\ Json.mid_price_history (snd result)
     = map Finite (mid_price_history scenario_book)
  /\ Json.volume_history (snd result)
     = map finite_entry (volume_history scenario_book).
Proof. cbv zeta. repeat split; vm_compute; reflexivity. Qed.

(** ** The maker/taker split in binary64 *)

(** C7 as stated fails on the floats of the machine.  On the book of the
    scenario the quantities 0.25 and 0.125 have the relative sizes 796 and
    1592; [np.exp] overflows to infinity at both, and the taker share is
    exactly 0 for both: it is not strictly decreasing in the relative size,
    and it reaches the limit that the real logistic function only tends
    to. *)
Lemma taker_share_plateau_in_binary64 :
  let self := Binary64.scenario_calculator in
  PrimFloat.ltb 0 0.25 = true /\ PrimFloat.ltb 0 0.125 = true
  /\ Binary64.relative_size_of 100 2 99 2 0.25 = inr 796%float
  /\ Binary64.relative_size_of 100 2 99 2 0.125 = inr 1592%float
  /\ PrimFloat.ltb 796 1592 = true
  /\ Binary64.np_exp (796 - 1) = Some infinity
  /\ Binary64.np_exp (1592 - 1) = Some infinity
  /\ Binary64.estimate_maker_taker_proportion self 0.25
     = inr (Some (100%float, 0%float))
  /\ Binary64.estimate_maker_taker_proportion self 0.125
     = inr (Some (100%float, 0%float)).
Proof. cbv zeta. repeat split; vm_compute; reflexivity. Qed.
